(** * bcdata: request planning and load orchestration

    A shallow embedding of [bcdata/wfs.py] (request planner, feature count,
    sort-key selection) and [bcdata/bc2pg.py] (load orchestrator, geometry
    shape probe, promotion of geometries to multi-part), followed by the
    properties of the specification proved (or refuted) on it.

    Python values are modelled as follows: [int] is [Z]; [str] is [string]
    (a byte string, read as UTF-8); an argument that may be [None] is an
    [option]; a [dict] is an association list kept in insertion order; an
    exception is a constructor of [exn] carried by the [result] monad. *)

From Stdlib Require Import ZArith List String Ascii Bool Lia.
From Stdlib Require Import DecimalString.
Import ListNotations.

Open Scope string_scope.
Open Scope Z_scope.

(** ** Python runtime *)

Module Py.

(** Exceptions that the modelled code raises or lets through. The three
    [requests] exceptions besides [HTTPError] are its siblings under
    [RequestException], not its subclasses. *)
Inductive exn : Type :=
| ZeroDivisionError
| OverflowError
| IndexError
| KeyError
| TypeError
| AttributeError
| ValueError (msg : string)
| ParseError
| HTTPError (status : Z)
| ConnectionError
| Timeout
| TooManyRedirects
| SystemExit (cause : exn).

Inductive result (A : Type) : Type :=
| Ok (a : A)
| Raise (e : exn).
Arguments Ok {A} a.
Arguments Raise {A} e.

Definition bind {A B} (m : result A) (k : A -> result B) : result B :=
  match m with
  | Ok a => k a
  | Raise e => Raise e
  end.

Fixpoint mapM {A B} (f : A -> result B) (l : list A) : result (list B) :=
  match l with
  | [] => Ok []
  | x :: xs =>
      bind (f x) (fun y => bind (mapM f xs) (fun ys => Ok (y :: ys)))
  end.

(** Truthiness of the optional arguments ([if count], [if sortby], ...). *)
Definition truthy_int (c : option Z) : bool :=
  match c with
  | None => false
  | Some z => negb (z =? 0)
  end.

Definition truthy_str (s : option string) : bool :=
  match s with
  | None | Some EmptyString => false
  | Some _ => true
  end.

Definition truthy_list {A} (l : option (list A)) : bool :=
  match l with
  | None | Some [] => false
  | Some _ => true
  end.

(** [str.upper] as it acts on ASCII text: the letters [a] to [z] are
    changed, every other byte is left alone (letters outside ASCII, which
    [str.upper] changes too, are not modelled). *)
Definition upper_ascii (c : ascii) : ascii :=
  let n := nat_of_ascii c in
  if (Nat.leb 97 n && Nat.leb n 122)%bool then ascii_of_nat (n - 32) else c.

Fixpoint upper (s : string) : string :=
  match s with
  | EmptyString => EmptyString
  | String c s' => String (upper_ascii c) (upper s')
  end.

(** [str.lower], likewise. *)
Definition lower_ascii (c : ascii) : ascii :=
  let n := nat_of_ascii c in
  if (Nat.leb 65 n && Nat.leb n 90)%bool then ascii_of_nat (n + 32) else c.

Fixpoint lower (s : string) : string :=
  match s with
  | EmptyString => EmptyString
  | String c s' => String (lower_ascii c) (lower s')
  end.

(** [s.split(sep)] for a one-character separator. *)
Fixpoint split (sep : ascii) (s : string) : list string :=
  match s with
  | EmptyString => [EmptyString]
  | String c s' =>
      if Ascii.eqb c sep then EmptyString :: split sep s'
      else match split sep s' with
           | w :: ws => String c w :: ws
           | [] => [String c EmptyString]
           end
  end.

(** [str(i)] for an [int]. *)
Definition str_int (z : Z) : string := NilZero.string_of_int (Z.to_int z).

(** The [ValueError] of an unpacking of [got] values into [expected]
    names, with the message that the interpreter gives it. *)
Definition unpack_error (expected got : nat) : exn :=
  ValueError
    (if Nat.ltb got expected
     then "not enough values to unpack (expected "
          ++ str_int (Z.of_nat expected) ++ ", got "
          ++ str_int (Z.of_nat got) ++ ")"
     else "too many values to unpack (expected "
          ++ str_int (Z.of_nat expected) ++ ")")%string.

(** [range(n)] as the list of its indices; empty when [n <= 0]. *)
Definition range (n : Z) : list Z :=
  map Z.of_nat (seq 0 (Z.to_nat n)).

(** *** True division and [math.ceil]

    [a / b] on two [int]s is the binary64 float nearest to the exact
    quotient (ties to even), [OverflowError] when that is out of range.
    A finite float is kept as [mant * 2 ^ expo]. *)
Record float : Type := mkFloat { mant : Z; expo : Z }.

(** Nearest integer to [num / den], ties to even, for [den > 0]. *)
Definition rne (num den : Z) : Z :=
  let q := num / den in
  let r := num mod den in
  if 2 * r <? den then q
  else if den <? 2 * r then q + 1
  else if Z.even q then q else q + 1.

(** The [e] with [2 ^ e <= a / b < 2 ^ (e + 1)], for [a, b > 0]. *)
Definition binade (a b : Z) : Z :=
  let d := Z.log2 a - Z.log2 b in
  if b * 2 ^ Z.max 0 d <=? a * 2 ^ Z.max 0 (- d) then d else d - 1.

(** 53 bits of precision; the exponent of the last place is at least
    [-1074] (subnormal range) and the value stays below [2 ^ 1024]. *)
Definition round_quotient (a b : Z) : result float :=
  let q := Z.max (binade a b - 52) (-1074) in
  let m := rne (a * 2 ^ Z.max 0 (- q)) (b * 2 ^ Z.max 0 q) in
  if 2 ^ (1024 - q) <=? m then Raise OverflowError
  else Ok (mkFloat m q).

Definition truediv (a b : Z) : result float :=
  if b =? 0 then Raise ZeroDivisionError
  else if a =? 0 then Ok (mkFloat 0 0)
  else
    bind (round_quotient (Z.abs a) (Z.abs b))
         (fun x => Ok (mkFloat (Z.sgn a * Z.sgn b * mant x) (expo x))).

(** [math.ceil] of a finite float, as an [int]. *)
Definition ceil (x : float) : Z :=
  if 0 <=? expo x then mant x * 2 ^ expo x
  else - ((- mant x) / 2 ^ (- expo x)).

(** *** dict

    Insertion-ordered; [d[k] = v] overwrites in place or appends. *)
Inductive value : Type :=
| VStr (s : string)
| VInt (z : Z).

Definition dict : Type := list (string * value).

Fixpoint dict_get (k : string) (d : dict) : option value :=
  match d with
  | [] => None
  | (k', v) :: d' => if String.eqb k k' then Some v else dict_get k d'
  end.

Fixpoint dict_set (k : string) (v : value) (d : dict) : dict :=
  match d with
  | [] => [(k, v)]
  | (k', v') :: d' =>
      if String.eqb k k' then (k', v) :: d' else (k', v') :: dict_set k v d'
  end.

End Py.

Import Py.

Notation "x <- m ;; k" := (Py.bind m (fun x => k))
  (at level 61, m at next level, right associativity).

(** ** urllib.parse *)

Module Urllib.

Definition hex_digit (n : nat) : ascii :=
  nth n (list_ascii_of_string "0123456789ABCDEF") "0"%char.

(** Letters, digits and [_.-~] are never quoted. *)
Definition unreserved (c : ascii) : bool :=
  let n := nat_of_ascii c in
  ((Nat.leb 48 n && Nat.leb n 57) || (Nat.leb 65 n && Nat.leb n 90)
   || (Nat.leb 97 n && Nat.leb n 122)
   || Nat.eqb n 95 || Nat.eqb n 46 || Nat.eqb n 45 || Nat.eqb n 126)%bool.

Fixpoint quote_plus (s : string) : string :=
  match s with
  | EmptyString => EmptyString
  | String c s' =>
      if unreserved c then String c (quote_plus s')
      else if Ascii.eqb c " "%char then String "+"%char (quote_plus s')
      else
        let n := nat_of_ascii c in
        String "%"%char
          (String (hex_digit (Nat.div n 16))
             (String (hex_digit (Nat.modulo n 16)) (quote_plus s')))
  end.

Definition quote_value (v : value) : string :=
  match v with
  | VStr s => quote_plus s
  | VInt z => quote_plus (str_int z)
  end.

(** [urlencode(query, doseq=True)] on a dict of [str] and [int] values. *)
Definition urlencode (d : dict) : string :=
  String.concat "&"
    (map (fun kv => (quote_plus (fst kv) ++ "=" ++ quote_value (snd kv))%string) d).

End Urllib.

(** ** bcdata/wfs.py *)

Module Wfs.

Definition WFS_URL : string := "https://openmaps.gov.bc.ca/geo/pub/wfs".

(** What [WFS.get_schema] returns, as far as the planner reads it:
    the property names with their types, in declared order, and the
    name of the geometry column. *)
Record WfsSchema : Type := mkSchema {
  properties : list (string * string);
  geometry_column : string
}.

(** Reply to the hits-only request: the status code, and the outcome of
    [int(ET.fromstring(r.text).attrib["numberMatched"])] on its body. *)
Record Response : Type := mkResponse {
  status_code : Z;
  numberMatched : result Z
}.

(** The collaborators outside this module: the cached table listing, the
    catalogue lookup [bcdata.get_table_name], [requests.get] and the
    schema request of the WFS client. *)
Record World : Type := mkWorld {
  list_tables : list string;
  get_table_name : string -> result string;
  requests_get : string -> dict -> result Response;
  get_schema : string -> result WfsSchema
}.

Definition get_sortkey (table : string) (wfs_schema : WfsSchema)
  : result string :=
  let columns := map fst (properties wfs_schema) in
  if existsb (String.eqb "OBJECTID") columns then Ok "OBJECTID"
  else if existsb (String.eqb "SEQUENCE_ID") columns then Ok "SEQUENCE_ID"
  else match columns with
       | c :: _ => Ok c
       | [] => Raise IndexError
       end.

Definition validate_name (W : World) (dataset : string) : result string :=
  if existsb (String.eqb (upper dataset)) (list_tables W)
  then Ok (upper dataset)
  else get_table_name W (upper dataset).

(** [Response.raise_for_status]: client and server error codes raise. *)
Definition raise_for_status (r : Response) : result unit :=
  if (400 <=? status_code r) && (status_code r <? 600)
  then Raise (HTTPError (status_code r))
  else Ok tt.

(** The parameters of the hits-only request (lines 102-111). *)
Definition hits_payload (table : string) (query : option string) : dict :=
  let payload :=
    [ ("service", VStr "WFS"); ("version", VStr "2.0.0");
      ("request", VStr "GetFeature"); ("typeName", VStr table);
      ("resultType", VStr "hits"); ("outputFormat", VStr "json") ] in
  match query with
  | Some q => if truthy_str query
              then dict_set "CQL_FILTER" (VStr q) payload else payload
  | None => payload
  end.

Definition get_count (W : World) (dataset : string) (query : option string)
  : result Z :=
  table <- validate_name W dataset ;;
  let payload := hits_payload table query in
  r <- match (r <- requests_get W WFS_URL payload ;;
              _ <- raise_for_status r ;;
              Ok r) with
       | Raise (HTTPError s) => Raise (SystemExit (HTTPError s))
       | other => other
       end ;;
  numberMatched r.

(** The count the planner works with (lines 158-159). *)
Definition effective_count (count : option Z) (n : Z) : Z :=
  match count with
  | Some c => if negb (truthy_int count) || (n <? c) then n else c
  | None => n
  end.

(** [math.ceil(count / pagesize)] (line 170). *)
Definition chunk_count (count pagesize : Z) : result Z :=
  x <- truediv count pagesize ;; Ok (ceil x).

(** The sort key of the requests (lines 173-174). *)
Definition choose_sortby (chunks : Z) (sortby : option string)
    (table : string) (wfs_schema : WfsSchema) : result (option string) :=
  if (1 <? chunks) && negb (truthy_str sortby)
  then (k <- get_sortkey table wfs_schema ;; Ok (Some k))
  else Ok sortby.

Definition base_request (table crs : string) : dict :=
  [ ("service", VStr "WFS"); ("version", VStr "2.0.0");
    ("request", VStr "GetFeature"); ("typeName", VStr table);
    ("outputFormat", VStr "json"); ("SRSNAME", VStr crs) ].

Definition bbox_query (geom_column b0 b1 b2 b3 bounds_crs : string) : string :=
  ("bbox(" ++ geom_column ++ ", " ++ b0 ++ ", " ++ b1 ++ ", " ++ b2 ++ ", "
     ++ b3 ++ ", '" ++ bounds_crs ++ "')")%string.

(** Body of the loop over the chunks: the request of chunk [i]. A bound
    is carried by its [str] rendering. *)
Definition build_request (table crs geom_column : string)
    (query : option string) (bounds : option (list string))
    (bounds_crs : string) (sortby : option string)
    (count pagesize chunks i : Z) : result dict :=
  let request := base_request table crs in
  let request :=
    match sortby with
    | Some s => if truthy_str sortby
                then dict_set "sortby" (VStr (upper s)) request else request
    | None => request
    end in
  let request :=
    match query with
    | Some q => if truthy_str query && negb (truthy_list bounds)
                then dict_set "CQL_FILTER" (VStr q) request else request
    | None => request
    end in
  request <-
    (if truthy_list bounds then
       match bounds with
       | Some [b0; b1; b2; b3] =>
           let bnd_query := bbox_query geom_column b0 b1 b2 b3 bounds_crs in
           match query with
           | Some q =>
               if truthy_str query
               then Ok (dict_set "CQL_FILTER"
                          (VStr (q ++ " AND " ++ bnd_query)%string) request)
               else Ok (dict_set "CQL_FILTER" (VStr bnd_query) request)
           | None => Ok (dict_set "CQL_FILTER" (VStr bnd_query) request)
           end
       | Some bs => Raise (unpack_error 4 (List.length bs))
       | None => Raise TypeError
       end
     else Ok request) ;;
  let request :=
    if chunks =? 1 then dict_set "count" (VInt count) request else request in
  let request :=
    if 1 <? chunks then
      let start := i * pagesize in
      let request := dict_set "startIndex" (VInt start) request in
      if count <? start + pagesize
      then dict_set "count" (VInt (count - start)) request
      else dict_set "count" (VInt pagesize) request
    else request in
  Ok request.

(** The request dicts of [define_requests], one per chunk, before they
    are URL-encoded. *)
Definition request_dicts (W : World) (dataset : string)
    (query : option string) (crs : string) (bounds : option (list string))
    (bounds_crs : string) (count : option Z) (sortby : option string)
    (pagesize : Z) : result (list dict) :=
  table <- validate_name W dataset ;;
  n <- get_count W table query ;;
  let count := effective_count count n in
  wfs_schema <- get_schema W ("pub:" ++ table)%string ;;
  let geom_column := geometry_column wfs_schema in
  chunks <- chunk_count count pagesize ;;
  sortby <- choose_sortby chunks sortby table wfs_schema ;;
  mapM (build_request table crs geom_column query bounds bounds_crs sortby
          count pagesize chunks)
       (range chunks).

Definition request_url (request : dict) : string :=
  (WFS_URL ++ "?" ++ Urllib.urlencode request)%string.

Definition define_requests (W : World) (dataset : string)
    (query : option string) (crs : string) (bounds : option (list string))
    (bounds_crs : string) (count : option Z) (sortby : option string)
    (pagesize : Z) : result (list string) :=
  requests <- request_dicts W dataset query crs bounds bounds_crs count
                sortby pagesize ;;
  Ok (map request_url requests).

End Wfs.

(** ** bcdata/bc2pg.py *)

Module Bc2pg.

Definition SUPPORTED_TYPES : list string :=
  [ "POINT"; "POINTZ"; "MULTIPOINT"; "MULTIPOINTZ"; "LINESTRING";
    "LINESTRINGZ"; "MULTILINESTRING"; "MULTILINESTRINGZ"; "POLYGON";
    "MULTIPOLYGON" ].

Section Frames.

(** Ordinates are not interpreted. A position has two or three of
    them; the positions of one geometry have the same number. *)
Variable Num : Type.

Definition position : Type := list Num.
Definition linestring : Type := list position.
Definition polygon : Type := (list position * list (list position))%type.

Inductive part : Type :=
| PartPoint (p : position)
| PartLineString (l : linestring)
| PartPolygon (p : polygon).

(** The shapely classes a GeoJSON geometry is read into. *)
Inductive geometry : Type :=
| Point (p : position)
| LineString (l : linestring)
| Polygon (p : polygon)
| MultiPoint (ps : list position)
| MultiLineString (ls : list linestring)
| MultiPolygon (ps : list polygon)
| GeometryCollection (gs : list part).

(** A row of a GeoDataFrame: the attribute cells by column name, and
    the geometry cell, which may be missing. *)
Record feature : Type := mkFeature {
  attrs : list (string * string);
  geom : option geometry
}.

Definition dataframe : Type := list feature.

Definition position_has_z (p : position) : bool :=
  Nat.eqb (List.length p) 3.

Definition first_has_z (ps : list position) : bool :=
  match ps with
  | p :: _ => position_has_z p
  | [] => false
  end.

Definition geometry_has_z (g : geometry) : bool :=
  match g with
  | Point p => position_has_z p
  | LineString l => first_has_z l
  | Polygon p => first_has_z (fst p)
  | MultiPoint ps => first_has_z ps
  | MultiLineString ls => first_has_z (List.concat ls)
  | MultiPolygon ps => first_has_z (List.concat (map fst ps))
  | GeometryCollection gs =>
      existsb (fun x => match x with
                        | PartPoint p => position_has_z p
                        | PartLineString l => first_has_z l
                        | PartPolygon p => first_has_z (fst p)
                        end) gs
  end.

(** One entry of [df.has_z]: false where the geometry is missing. *)
Definition has_z (f : feature) : bool :=
  match geom f with
  | Some g => geometry_has_z g
  | None => false
  end.

(** What a series of strings holds where the value is missing: the
    object [None] (pandas before 3) or the float [NaN] (pandas 3). *)
Inductive missing : Type :=
| PyNone
| NaN.

(** The values that the variable [geometry_type] takes: a string, or one
    of the two markers. *)
Inductive type_value : Type :=
| TypeName (name : string)
| Missing (m : missing).

(** [not v] is false for a non-empty string and for [NaN]. *)
Definition truthy_value (v : type_value) : bool :=
  match v with
  | TypeName s => truthy_str (Some s)
  | Missing PyNone => false
  | Missing NaN => true
  end.

(** The argument [geometry_type] of the caller, a string or [None]. *)
Definition supplied (geometry_type : option string) : type_value :=
  match geometry_type with
  | Some s => TypeName s
  | None => Missing PyNone
  end.

Definition type_name (g : geometry) : string :=
  match g with
  | Point _ => "Point"
  | LineString _ => "LineString"
  | Polygon _ => "Polygon"
  | MultiPoint _ => "MultiPoint"
  | MultiLineString _ => "MultiLineString"
  | MultiPolygon _ => "MultiPolygon"
  | GeometryCollection _ => "GeometryCollection"
  end.

(** One entry of [df.geom_type]: the marker [na] of the library where
    the geometry is missing. *)
Definition geom_type (na : missing) (f : feature) : type_value :=
  match geom f with
  | Some g => TypeName (type_name g)
  | None => Missing na
  end.

(** [series.unique()[0]]: the value of the first row. *)
Definition unique_0 {A} (series : list A) : result A :=
  match series with
  | v :: _ => Ok v
  | [] => Raise IndexError
  end.

(** The three comprehensions of lines 171-184, one per class. *)
Definition to_multipoint (g : option geometry) : option geometry :=
  match g with
  | Some (Point p) => Some (MultiPoint [p])
  | other => other
  end.

Definition to_multilinestring (g : option geometry) : option geometry :=
  match g with
  | Some (LineString l) => Some (MultiLineString [l])
  | other => other
  end.

Definition to_multipolygon (g : option geometry) : option geometry :=
  match g with
  | Some (Polygon p) => Some (MultiPolygon [p])
  | other => other
  end.

Definition cast_to_multi (geoms : list (option geometry))
  : list (option geometry) :=
  map to_multipolygon (map to_multilinestring (map to_multipoint geoms)).


(** *** The load orchestrator *)

(** What the catalogue returns for a dataset ([get_table_definition]). *)
Record column_def : Type := mkColumn {
  column_name : string;
  column_type : string
}.

Record table_definition : Type := mkTableDefinition {
  td_schema : list column_def;
  td_comments : string
}.

(** The calls that leave the process, in the order they are made.
    [PlanRequests] is [define_requests] (hits-only count and schema
    requests); [MakeRequests] is the download of one page of features. *)
Inductive event : Type :=
| Connect (db_url : string)
| PlanRequests (dataset : string)
| ListTables
| GetColumns (schema_name table_name : string)
| GetTableDefinition (dataset : string)
| MakeRequests (url : string)
| DefineTable (schema_name table_name geometry_type : string)
| ToPostgis (schema_name table_name : string)
    (rows : list (list (string * string) * option geometry))
| ToSql (schema_name table_name : string)
    (rows : list (list (string * string)))
| Execute (sql : string).

(** The collaborators: the WFS side of [bcdata], the database wrapper,
    the catalogue, the page download of the WFS client, and the marker
    that the dataframe library uses for a missing string. *)
Record Env : Type := mkEnv {
  wfs : Wfs.World;
  connect : string -> result unit;
  db_tables : list string;
  db_get_columns : string -> string -> list string;
  get_table_definition : string -> result table_definition;
  make_requests : string -> result dataframe;
  define_table :
    string -> string -> list column_def -> string -> string ->
    option string -> bool -> result (list string);
  db_write : event -> result unit;
  na_value : missing
}.

(** A computation that may raise, and records the calls it made. *)
Definition io (A : Type) : Type := list event -> result A * list event.

Definition ret {A} (a : A) : io A := fun t => (Ok a, t).

Definition throw {A} (e : exn) : io A := fun t => (Raise e, t).

Definition lift {A} (r : result A) : io A := fun t => (r, t).

Definition bind_io {A B} (m : io A) (k : A -> io B) : io B :=
  fun t =>
    match m t with
    | (Ok a, t') => k a t'
    | (Raise e, t') => (Raise e, t')
    end.

Definition call {A} (e : event) (r : result A) : io A :=
  fun t => (r, (t ++ [e])%list).

Notation "x <-- m ;; k" := (bind_io m (fun x => k))
  (at level 61, m at next level, right associativity).

(** Lines 98-102 (and 109-113): type of the first row, with a [Z]
    when the first row has one. *)
Definition probe (na : missing) (df : dataframe) : result type_value :=
  geometry_type <- unique_0 (map (geom_type na) df) ;;
  z <- unique_0 (map has_z df) ;;
  if z : bool then
    match geometry_type with
    | TypeName g => Ok (TypeName (g ++ "Z")%string)
    | Missing _ => Raise TypeError
    end
  else Ok geometry_type.

Definition first_url (urls : list string) : result string :=
  match urls with
  | u :: _ => Ok u
  | [] => Raise IndexError
  end.

Definition last_url (urls : list string) : result string :=
  match rev urls with
  | u :: _ => Ok u
  | [] => Raise IndexError
  end.

(** [df[column_names]] after the columns are lower-cased: the cells of
    one row in the order of [column_names]; the geometry column is
    kept apart. *)
Fixpoint select_cells (column_names : list string)
    (cells : list (string * string)) : result (list (string * string)) :=
  match column_names with
  | [] => Ok []
  | c :: cs =>
      if String.eqb c "geom" then select_cells cs cells
      else
        match find (fun kv => String.eqb (lower (fst kv)) c) cells with
        | Some kv =>
            rest <- select_cells cs cells ;; Ok ((c, snd kv) :: rest)
        | None => Raise KeyError
        end
  end.

Definition select_columns (column_names : list string) (df : dataframe)
  : result dataframe :=
  if existsb (String.eqb "geom") column_names then
    mapM (fun f => cells <- select_cells column_names (attrs f) ;;
                   Ok (mkFeature cells (geom f))) df
  else Raise KeyError.

Definition isna (f : feature) : bool :=
  match geom f with
  | None => true
  | Some _ => false
  end.

Section Run.

Variable E : Env.

(** Lines 150-196, over the request urls still to load; [df] holds
    the first page when the shape probe has already downloaded it. *)
Fixpoint load (schema_name table_name : string)
    (column_names : list string) (urls : list string)
    (df : option dataframe) : io unit :=
  match urls with
  | [] => ret tt
  | url :: urls' =>
      df <-- match df with
             | Some d => ret d
             | None => call (MakeRequests url) (make_requests E url)
             end ;;
      df <-- lift (select_columns column_names df) ;;
      let df_nulls := map attrs (filter isna df) in
      let df := filter (fun f => negb (isna f)) df in
      let rows := combine (map attrs df) (cast_to_multi (map geom df)) in
      _ <-- (let e := ToPostgis schema_name table_name rows in
             call e (db_write E e)) ;;
      _ <-- (let e := ToSql schema_name table_name df_nulls in
             call e (db_write E e)) ;;
      load schema_name table_name column_names urls' None
  end.

Definition create_log : string :=
  "CREATE SCHEMA IF NOT EXISTS bcdata; CREATE TABLE IF NOT EXISTS bcdata.log (table_name text PRIMARY KEY, latest_download timestamp WITH TIME ZONE);".

Definition upsert_log : string :=
  "INSERT INTO bcdata.log (table_name, latest_download) SELECT %s as table_name, NOW() as latest_download ON CONFLICT (table_name) DO UPDATE SET latest_download = NOW();".

(** Lines 52-55: a target name, replaced by the override when one
    is given. *)
Definition target_name (name : string) (override : option string)
  : string :=
  match override with
  | Some s => if truthy_str override then lower s else name
  | None => name
  end.

(** Lines 75-81: in append mode the table must exist; its columns
    are then read from the database. *)
Definition prepare_append (schema_name table_name : string)
  : io (option dataframe * list string) :=
  tables <-- call ListTables (Ok (db_tables E)) ;;
  if negb (existsb (String.eqb (schema_name ++ "." ++ table_name)%string)
             tables)
  then throw (ValueError (schema_name ++ "." ++ table_name
                          ++ " does not exist, nothing to append to")%string)
  else
    column_names <-- call (GetColumns schema_name table_name)
                       (Ok (db_get_columns E schema_name table_name)) ;;
    ret (None, column_names).

(** Lines 94-120: the geometry type of the table, probed on the
    first page (and on the last one if that gives a false value) when
    it is not supplied; the page downloaded first is kept. *)
Definition resolve_geometry_type (urls : list string)
    (geometry_type : option string) : io (option dataframe * string) :=
  probed <--
    (if negb (truthy_str geometry_type) then
       url <-- lift (first_url urls) ;;
       df <-- call (MakeRequests url) (make_requests E url) ;;
       geometry_type <-- lift (probe (na_value E) df) ;;
       ret (Some df, geometry_type)
     else ret (None, supplied geometry_type)) ;;
  let df := fst probed in
  geometry_type <--
    (if negb (truthy_value (snd probed)) then
       last <-- lift (last_url urls) ;;
       first <-- lift (first_url urls) ;;
       if negb (String.eqb last first) then
         df_temp <-- call (MakeRequests last) (make_requests E last) ;;
         lift (probe (na_value E) df_temp)
       else ret (snd probed)
     else ret (snd probed)) ;;
  geometry_type <-- match geometry_type with
                    | TypeName g => ret (upper g)
                    | Missing _ => throw AttributeError
                    end ;;
  if negb (existsb (String.eqb geometry_type) SUPPORTED_TYPES)
  then throw (ValueError "Geometry type {geometry_type} is not supported")
  else ret (df, geometry_type).

(** Lines 84-139: in create mode the table is defined from the
    catalogue and created. *)
Definition prepare_create (dataset : string) (urls : list string)
    (schema_name table_name : string)
    (geometry_type primary_key : option string) (append : bool)
  : io (option dataframe * list string) :=
  table_definition <-- call (GetTableDefinition dataset)
                         (get_table_definition E dataset) ;;
  _ <-- match td_schema table_definition with
        | [] => throw (ValueError
                   "Cannot create table, schema details not found via bcdc api")
        | _ => ret tt
        end ;;
  resolved <-- resolve_geometry_type urls geometry_type ;;
  let df := fst resolved in
  let geometry_type := snd resolved in
  _ <-- match primary_key with
        | Some pk =>
            if truthy_str primary_key
               && negb (existsb (String.eqb (upper pk))
                          (map (fun c => upper (column_name c))
                             (td_schema table_definition)))
            then throw (ValueError
                          "Column {primary_key} specified as primary_key does not exist in source")
            else ret tt
        | None => ret tt
        end ;;
  column_names <-- call (DefineTable schema_name table_name geometry_type)
                     (define_table E schema_name table_name
                        (td_schema table_definition) geometry_type
                        (td_comments table_definition) primary_key append) ;;
  ret (df, column_names).

Definition bc2pg (dataset db_url : string) (table schema : option string)
    (geometry_type query : option string) (count : option Z)
    (sortby primary_key : option string)
    (timestamp schema_only append : bool) : io string :=
  dataset <-- lift (Wfs.validate_name (wfs E) dataset) ;;
  names <-- lift (match split "."%char (lower dataset) with
                  | [s; t] => Ok (s, t)
                  | parts => Raise (unpack_error 2 (List.length parts))
                  end) ;;
  let schema_name := target_name (fst names) schema in
  let table_name := target_name (snd names) table in
  _ <-- call (Connect db_url) (connect E db_url) ;;
  urls <-- call (PlanRequests dataset)
             (Wfs.define_requests (wfs E) dataset query "epsg:3005"
                None "EPSG:3005" count sortby 10000) ;;
  prepared <--
    (if append then prepare_append schema_name table_name
     else prepare_create dataset urls schema_name table_name
            geometry_type primary_key append) ;;
  let df := fst prepared in
  let column_names := snd prepared in
  _ <-- match sortby with
        | Some s =>
            if truthy_str sortby
               && negb (existsb (String.eqb (lower s)) column_names)
            then throw (ValueError ("Specified sortby column " ++ s
                                    ++ " is not present in " ++ dataset)%string)
            else ret tt
        | None => ret tt
        end ;;
  _ <-- (if negb schema_only then
           _ <-- load schema_name table_name column_names urls df ;;
           if timestamp then
             _ <-- call (Execute create_log) (db_write E (Execute create_log)) ;;
             call (Execute upsert_log) (db_write E (Execute upsert_log))
           else ret tt
         else ret tt) ;;
  ret (schema_name ++ "." ++ table_name)%string.

End Run.

End Frames.

Arguments Point {Num} p.
Arguments LineString {Num} l.
Arguments Polygon {Num} p.
Arguments MultiPoint {Num} ps.
Arguments MultiLineString {Num} ls.
Arguments MultiPolygon {Num} ps.
Arguments GeometryCollection {Num} gs.
Arguments mkFeature {Num} attrs geom.
Arguments attrs {Num} f.
Arguments geom {Num} f.
Arguments has_z {Num} f.
Arguments type_name {Num} g.
Arguments geom_type {Num} na f.
Arguments cast_to_multi {Num} geoms.
Arguments probe {Num} na df.
Arguments MakeRequests {Num} url.
Arguments GetColumns {Num} schema_name table_name.
Arguments ListTables {Num}.
Arguments Connect {Num} db_url.
Arguments PlanRequests {Num} dataset.
Arguments GetTableDefinition {Num} dataset.
Arguments DefineTable {Num} schema_name table_name geometry_type.
Arguments ToPostgis {Num} schema_name table_name rows.
Arguments ToSql {Num} schema_name table_name rows.
Arguments Execute {Num} sql.
Arguments wfs {Num} e.
Arguments connect {Num} e _.
Arguments db_tables {Num} e.
Arguments na_value {Num} e.
Arguments make_requests {Num} e _.
Arguments prepare_append {Num} E schema_name table_name _.
Arguments resolve_geometry_type {Num} E urls geometry_type _.
Arguments prepare_create {Num} E dataset urls schema_name table_name
  geometry_type primary_key append _.
Arguments bc2pg {Num} E dataset db_url table schema geometry_type query count
  sortby primary_key timestamp schema_only append _.

End Bc2pg.

(** ** bcdata/wfs.py: downloads *)

Module Fetch.

(** [requests.get] raises no [HTTPError] of its own ([raise_for_status]
    does): what it raises are the transport failures. *)
Inductive transport_error : Type :=
| ConnectionFailed
| TimedOut
| RedirectLoop.

Definition transport_exn (e : transport_error) : exn :=
  match e with
  | ConnectionFailed => ConnectionError
  | TimedOut => Timeout
  | RedirectLoop => TooManyRedirects
  end.

Section Features.

(** Ordinates are not interpreted. *)
Variable Num : Type.

(** GeoJSON coordinates: numbers nested in arrays. *)
#[warnings="-register-all"]
Inductive json : Type :=
| JNum (x : Num)
| JArr (items : list json).

(** [len(j)] and [j[0]]. *)
Definition json_len (j : json) : result nat :=
  match j with
  | JArr items => Ok (List.length items)
  | JNum _ => Raise TypeError
  end.

Definition json_item0 (j : json) : result json :=
  match j with
  | JArr (x :: _) => Ok x
  | JArr [] => Raise IndexError
  | JNum _ => Raise TypeError
  end.

Record json_geometry : Type := mkGeometry {
  gtype : string;
  coordinates : json
}.

(** A GeoJSON feature: its properties, and its geometry or [None]. *)
Record json_feature : Type := mkJsonFeature {
  feature_properties : list (string * string);
  feature_geometry : option json_geometry
}.

(** Reply to a GetFeature request: the status code, and the outcome of
    [r.json()["features"]] on its body. *)
Record PageResponse : Type := mkPageResponse {
  page_status : Z;
  page_features : result (list json_feature)
}.

(** The collaborators: those of the planner, and [requests.get] on a
    request url. *)
Record Service : Type := mkService {
  world : Wfs.World;
  get_url : string -> transport_error + PageResponse
}.

Definition make_request (S : Service) (url : string)
  : result (list json_feature) :=
  match get_url S url with
  | inl err => Raise (transport_exn err)
  | inr r =>
      if (400 <=? page_status r) && (page_status r <? 600)
      then Raise (SystemExit (HTTPError (page_status r)))
      else page_features r
  end.

(** The features that a generator over the pages yields, and the
    exception that ends it, if any. The pages are fetched by a pool of
    workers; [executor.map] hands their results over in the order of the
    urls. *)
Fixpoint yield_pages (S : Service) (urls : list string)
  : list json_feature * option exn :=
  match urls with
  | [] => ([], None)
  | url :: urls' =>
      match make_request S url with
      | Raise e => ([], Some e)
      | Ok features =>
          let rest := yield_pages S urls' in
          ((features ++ fst rest)%list, snd rest)
      end
  end.

Definition get_features (S : Service) (dataset : string)
    (query : option string) (crs : string) (bounds : option (list string))
    (bounds_crs : string) (count : option Z) (sortby : option string)
    (pagesize : Z) : list json_feature * option exn :=
  match Wfs.define_requests (world S) dataset query crs bounds bounds_crs
          count sortby pagesize with
  | Raise e => ([], Some e)
  | Ok urls => yield_pages S urls
  end.

(** What [get_data] returns: the feature collection, with its [crs]
    member if any, or a GeoDataFrame of the features with its crs. *)
Inductive data : Type :=
| FeatureCollection (features : list json_feature) (crs : option string)
| GeoDataFrame (features : list json_feature) (crs : option string).

Definition dquote : string := String (ascii_of_nat 34) EmptyString.

(** The [crs] member of the collection, a JSON object kept as text. *)
Definition crs_member (crs_int : string) : string :=
  ("{" ++ dquote ++ "type" ++ dquote ++ ":" ++ dquote ++ "name" ++ dquote
   ++ "," ++ dquote ++ "properties" ++ dquote ++ ":{" ++ dquote ++ "name"
   ++ dquote ++ ":" ++ dquote ++ "urn:ogc:def:crs:EPSG::" ++ crs_int
   ++ dquote ++ "}}")%string.

Definition get_data (S : Service) (dataset : string)
    (query : option string) (crs : string) (bounds : option (list string))
    (bounds_crs : string) (count : option Z) (sortby : option string)
    (pagesize : Z) (as_gdf : bool) : result data :=
  urls <- Wfs.define_requests (world S) dataset query crs bounds bounds_crs
            count sortby pagesize ;;
  results <- mapM (make_request S) urls ;;
  let features := List.concat results in
  if negb as_gdf then
    if negb (String.eqb (lower crs) "epsg:4326") then
      match split ":"%char crs with
      | _ :: crs_int :: _ =>
          Ok (FeatureCollection features (Some (crs_member crs_int)))
      | _ => Raise IndexError
      end
    else Ok (FeatureCollection features None)
  else if (0 <? List.length features)%nat
       then Ok (GeoDataFrame features (Some crs))
       else Ok (GeoDataFrame [] None).

(** *** get_types *)

Definition first_coordinates (features : list json_feature) : result json :=
  match features with
  | [] => Raise IndexError
  | f :: _ =>
      match feature_geometry f with
      | Some g => Ok (coordinates g)
      | None => Raise TypeError
      end
  end.

(** Lines 314-334 for one entry of [geom_types]: the four tests, each
    reading the coordinates of the first feature at its own depth. *)
Definition add_z (features : list json_feature) (geom_type : string)
  : result string :=
  geom_type <-
    (if String.eqb geom_type "POINT" then
       c <- first_coordinates features ;;
       n <- json_len c ;;
       Ok (if Nat.eqb n 3 then "POINTZ" else geom_type)
     else Ok geom_type) ;;
  geom_type <-
    (if String.eqb geom_type "MULTIPOINT" then
       c <- first_coordinates features ;;
       c0 <- json_item0 c ;;
       n <- json_len c0 ;;
       Ok (if Nat.eqb n 3 then "POINTZ" else geom_type)
     else Ok geom_type) ;;
  geom_type <-
    (if String.eqb geom_type "LINESTRING" then
       c <- first_coordinates features ;;
       c0 <- json_item0 c ;;
       n <- json_len c0 ;;
       Ok (if Nat.eqb n 3 then "LINESTRINGZ" else geom_type)
     else Ok geom_type) ;;
  (if String.eqb geom_type "MULTILINESTRING" then
     c <- first_coordinates features ;;
     c0 <- json_item0 c ;;
     c00 <- json_item0 c0 ;;
     n <- json_len c00 ;;
     Ok (if Nat.eqb n 3 then "MULTILINESTRINGZ" else geom_type)
   else Ok geom_type).

Definition VALID_TYPES : list string :=
  [ "POINT"; "LINESTRING"; "POLYGON"; "MULTIPOINT"; "MULTILINESTRING";
    "MULTIPOLYGON" ].

(** The upper-case types of the features that have a geometry, in the
    order of the features (line 295, before [set]). *)
Definition feature_types (features : list json_feature) : list string :=
  flat_map (fun f => match feature_geometry f with
                     | Some g => [upper (gtype g)]
                     | None => []
                     end) features.

Section Types.

(** [list(set(l))] holds the distinct elements of [l] in an order that
    the language does not fix: any function that does so stands for it. *)
Variable list_set : list string -> list string.

Definition get_types (S : Service) (dataset : string) (count : option Z)
  : result (list string) :=
  table <- Wfs.validate_name (world S) dataset ;;
  let fetched := get_features S table None "epsg:4326" None "epsg:3005"
                   count None 10000 in
  match snd fetched with
  | Some e => Raise e
  | None =>
      let features := fst fetched in
      let geom_types := list_set (feature_types features) in
      _ <- mapM (fun geom_type =>
                   if existsb (String.eqb geom_type) VALID_TYPES then Ok tt
                   else Raise (ValueError
                                 "Geometry type {geomtype} is not supported"))
             geom_types ;;
      mapM (add_z features) geom_types
  end.

End Types.

End Features.

Arguments JNum {Num} x.
Arguments JArr {Num} items.
Arguments mkGeometry {Num} gtype coordinates.
Arguments mkJsonFeature {Num} feature_properties feature_geometry.
Arguments feature_geometry {Num} j.
Arguments gtype {Num} j.
Arguments coordinates {Num} j.
Arguments mkPageResponse {Num} page_status page_features.
Arguments mkService {Num} world get_url.
Arguments world {Num} s.
Arguments get_url {Num} s _.
Arguments make_request {Num} S url.
Arguments yield_pages {Num} S urls.
Arguments get_features {Num} S dataset query crs bounds bounds_crs count
  sortby pagesize.
Arguments get_data {Num} S dataset query crs bounds bounds_crs count sortby
  pagesize as_gdf.
Arguments FeatureCollection {Num} features crs.
Arguments GeoDataFrame {Num} features crs.
Arguments first_coordinates {Num} features.
Arguments add_z {Num} features geom_type.
Arguments feature_types {Num} features.
Arguments get_types {Num} list_set S dataset count.

End Fetch.

(** ** bcdata/database.py *)

Module Database.

(** What the two queries of the wrapper return, first column of each
    row, or the exception that [query] raises: the schemata of the
    database, and the tables of a schema. *)
Record Server : Type := mkServer {
  schemata : result (list string);
  tables_of : string -> result (list string)
}.

Definition schemas (D : Server) : result (list string) :=
  rows <- schemata D ;;
  Ok (filter (fun s => negb (String.eqb (substring 0 3 s) "pg_")) rows).

Definition tables_in_schema (D : Server) (schema : string)
  : result (list string) :=
  tables_of D schema.

(** The loop of [tables] over the schemas that are left. *)
Fixpoint tables_from (D : Server) (schemas : list string)
    (tables : list string) : result (list string) :=
  match schemas with
  | [] => Ok tables
  | schema :: schemas' =>
      names <- tables_in_schema D schema ;;
      tables_from D schemas'
        (tables ++ map (fun t => (schema ++ "." ++ t)%string) names)%list
  end.

Definition tables (D : Server) : result (list string) :=
  schemas <- schemas D ;;
  tables_from D schemas [].

End Database.

(** ** Vocabulary of the specification *)

Import Wfs.

(** Exact ceiling of [a / b]. *)
Definition cdiv (a b : Z) : Z := - ((- a) / b).

Definition start_index (r : dict) : Z :=
  match dict_get "startIndex" r with
  | Some (VInt s) => s
  | _ => 0
  end.

Definition window (r : dict) : option (Z * Z) :=
  match dict_get "count" r with
  | Some (VInt c) => Some (start_index r, c)
  | _ => None
  end.

Fixpoint tiles (lo hi : Z) (ws : list (Z * Z)) : Prop :=
  match ws with
  | [] => lo = hi
  | (s, c) :: ws' => s = lo /\ 0 < c /\ tiles (lo + c) hi ws'
  end.

Definition total (ws : list (Z * Z)) : Z := fold_right Z.add 0 (map snd ws).

Definition bounds_ok (bounds : option (list string)) : bool :=
  match bounds with
  | None | Some [] | Some [_; _; _; _] => true
  | Some _ => false
  end.

(** The request of chunk [i], in closed form, for well-formed bounds. *)
Definition with_sortby (sortby : option string) (request : dict) : dict :=
  match sortby with
  | Some s => if truthy_str sortby
              then dict_set "sortby" (VStr (upper s)) request else request
  | None => request
  end.

Definition cql_filter (geom_column : string) (query : option string)
    (bounds : option (list string)) (bounds_crs : string) : option string :=
  match bounds with
  | Some [b0; b1; b2; b3] =>
      let bnd := bbox_query geom_column b0 b1 b2 b3 bounds_crs in
      match query with
      | Some q => if truthy_str query then Some (q ++ " AND " ++ bnd)%string
                  else Some bnd
      | None => Some bnd
      end
  | _ => match query with
         | Some q => if truthy_str query then Some q else None
         | None => None
         end
  end.

Definition with_filter (f : option string) (request : dict) : dict :=
  match f with
  | Some q => dict_set "CQL_FILTER" (VStr q) request
  | None => request
  end.

Definition chunk_window (count pagesize i : Z) : Z * Z :=
  (i * pagesize,
   if count <? i * pagesize + pagesize then count - i * pagesize else pagesize).

Definition with_page (count pagesize chunks i : Z) (request : dict) : dict :=
  if chunks =? 1 then dict_set "count" (VInt count) request
  else if 1 <? chunks then
    dict_set "count" (VInt (snd (chunk_window count pagesize i)))
      (dict_set "startIndex" (VInt (fst (chunk_window count pagesize i))) request)
  else request.

Definition chunk_request (table crs geom_column : string)
    (query : option string) (bounds : option (list string))
    (bounds_crs : string) (sortby : option string)
    (count pagesize chunks i : Z) : dict :=
  with_page count pagesize chunks i
    (with_filter (cql_filter geom_column query bounds bounds_crs)
       (with_sortby sortby (base_request table crs))).

(** Collaborators for the examples: one published table, a service that
    answers the hits-only request with [n] matches, and a schema with
    the given column names. *)
Definition sample_dataset : string := "whse_imagery_and_base_maps.gsr_airports_svw".

Definition sample_world (n : Z) (columns : list string) : World :=
  mkWorld [upper sample_dataset]
    (fun name => Raise (ValueError name))
    (fun _ _ => Ok (mkResponse 200 (Ok n)))
    (fun _ => Ok (mkSchema (map (fun c => (c, "xsd:string")) columns) "SHAPE")).

Import Bc2pg.

(** Promotion to multi-part as the specification words it: a single
    point, line or polygon becomes the one-member collection of its
    kind; anything else, a missing geometry included, is kept. *)
Definition promoted {Num} (g : option (geometry Num)) : option (geometry Num) :=
  match g with
  | Some (Point p) => Some (MultiPoint [p])
  | Some (LineString l) => Some (MultiLineString [l])
  | Some (Polygon p) => Some (MultiPolygon [p])
  | other => other
  end.

(** The shape that one row gives: its type in upper case, with a [Z]
    when the row has a third coordinate. *)
Definition shape_of {Num} (f : feature Num) : option string :=
  match geom f with
  | Some g => Some (upper (type_name g ++ (if has_z f then "Z" else "")))%string
  | None => None
  end.

(** Collaborators for the examples: a database holding [tables], a
    catalogue with one column, and a service whose pages are [page]. *)
Definition sample_env (n : Z) (tables : list string)
    (page : string -> dataframe Z) : Env Z :=
  mkEnv Z (sample_world n ["OBJECTID"])
    (fun _ => Ok tt)
    tables
    (fun _ _ => ["objectid"; "geom"])
    (fun _ => Ok (mkTableDefinition [mkColumn "OBJECTID" "NUMBER"] ""))
    (fun url => Ok (page url))
    (fun _ _ _ _ _ _ _ => Ok ["objectid"; "geom"])
    (fun _ => Ok tt)
    NaN.

Definition mixed_page : dataframe Z :=
  [ mkFeature [("OBJECTID", "1")] (Some (Point [1188000; 377051]));
    mkFeature [("OBJECTID", "2")] (Some (Point [1207437; 390361; 12])) ].


(** A service that cannot be reached: every request ends in a
    [ConnectionError]. *)
Definition offline_world : World :=
  mkWorld [upper sample_dataset]
    (fun name => Raise (ValueError name))
    (fun _ _ => Raise ConnectionError)
    (fun _ => Raise ConnectionError).

(** A service that answers every request with the given status. *)
Definition status_world (status : Z) : World :=
  mkWorld [upper sample_dataset]
    (fun name => Raise (ValueError name))
    (fun _ _ => Ok (mkResponse status (Raise ParseError)))
    (fun _ => Raise ConnectionError).

Definition is_http_error (e : exn) : bool :=
  match e with
  | HTTPError _ => true
  | _ => false
  end.

(** The [count] of a request, when it has one. *)
Definition count_of (r : dict) : option Z :=
  match dict_get "count" r with
  | Some (VInt c) => Some c
  | _ => None
  end.

Fixpoint string_forallb (p : ascii -> bool) (s : string) : bool :=
  match s with
  | EmptyString => true
  | String c s' => p c && string_forallb p s'
  end.

(** The characters of an encoded query string: those never quoted, the
    [+] of a space, the [%] of an escape, and the two separators. *)
Definition query_char (c : ascii) : bool :=
  Urllib.unreserved c
  || Ascii.eqb c "+"%char || Ascii.eqb c "%"%char
  || Ascii.eqb c "&"%char || Ascii.eqb c "="%char.

(** Kinds of calls in the trace of a load. *)
Definition is_download {Num} (e : event Num) : bool :=
  match e with
  | MakeRequests _ => true
  | _ => false
  end.

Definition is_write {Num} (e : event Num) : bool :=
  match e with
  | ToPostgis _ _ _ | ToSql _ _ _ => true
  | _ => false
  end.

Definition is_log {Num} (e : event Num) : bool :=
  match e with
  | Execute _ => true
  | _ => false
  end.

Definition is_provision {Num} (e : event Num) : bool :=
  match e with
  | GetTableDefinition _ | DefineTable _ _ _ => true
  | _ => false
  end.

Definition is_listing {Num} (e : event Num) : bool :=
  match e with
  | ListTables | GetColumns _ _ => true
  | _ => false
  end.

(** The urls downloaded, in the order of the trace. *)
Fixpoint downloads {Num} (t : list (event Num)) : list string :=
  match t with
  | [] => []
  | MakeRequests url :: t' => url :: downloads t'
  | _ :: t' => downloads t'
  end.

(** A computation that makes no call of the kind [bad]. *)
Definition avoids {Num A} (bad : event Num -> bool) (m : io Num A) : Prop :=
  forall t, exists l,
    snd (m t) = (t ++ l)%list /\ forallb (fun e => negb (bad e)) l = true.

Definition is_single {Num} (g : geometry Num) : bool :=
  match g with
  | Point _ | LineString _ | Polygon _ => true
  | _ => false
  end.

(** What a run does once the target is prepared (lines 141-217): the
    check of the sort column, the load and the log. *)
Definition after_prepare {Num} (E : Env Num) (dataset schema_name table_name : string)
    (urls : list string) (sortby : option string)
    (timestamp schema_only : bool)
    (prepared : option (dataframe Num) * list string) : io Num string :=
  bind_io Num
    match sortby with
    | Some s =>
        if truthy_str sortby
           && negb (existsb (String.eqb (lower s)) (snd prepared))
        then throw Num (ValueError ("Specified sortby column " ++ s
                                    ++ " is not present in " ++ dataset)%string)
        else ret Num tt
    | None => ret Num tt
    end
    (fun _ =>
       bind_io Num
         (if negb schema_only then
            bind_io Num
              (load Num E schema_name table_name (snd prepared) urls
                 (fst prepared))
              (fun _ =>
                 if timestamp then
                   bind_io Num
                     (call Num (Execute create_log)
                        (db_write Num E (Execute create_log)))
                     (fun _ =>
                        call Num (Execute upsert_log)
                          (db_write Num E (Execute upsert_log)))
                 else ret Num tt)
          else ret Num tt)
         (fun _ => ret Num (schema_name ++ "." ++ table_name)%string)).

(** The preparation of the target, by mode (lines 75-139). *)
Definition prepare {Num} (E : Env Num) (dataset : string) (urls : list string)
    (schema_name table_name : string)
    (geometry_type primary_key : option string) (append : bool)
  : io Num (option (dataframe Num) * list string) :=
  if append then prepare_append E schema_name table_name
  else prepare_create E dataset urls schema_name table_name geometry_type
         primary_key append.

(** Collaborators for the examples: a catalogue that knows the dataset
    but holds no schema details for it. *)
Definition no_schema_env : Env Z :=
  mkEnv Z (sample_world 455 ["OBJECTID"]) (fun _ => Ok tt) []
    (fun _ _ => []) (fun _ => Ok (mkTableDefinition [] ""))
    (fun _ => Ok mixed_page) (fun _ _ _ _ _ _ _ => Ok [])
    (fun _ => Ok tt) NaN.

(** A row as it reaches the spatial insert: with a geometry, and not a
    single point, line or polygon. *)
Definition multi_row {Num} (row : list (string * string) * option (geometry Num))
  : bool :=
  match snd row with
  | Some g => negb (is_single g)
  | None => false
  end.

Definition spatial_rows_ok {Num} (e : event Num) : bool :=
  match e with
  | ToPostgis _ _ rows => forallb multi_row rows
  | _ => true
  end.

(** The entry of [has_z] for a geometry cell. *)
Definition cell_has_z {Num} (g : option (geometry Num)) : bool :=
  has_z (mkFeature [] g).

(** Collaborators for the examples: a service with [n] features whose
    pages are given by [page]. *)
Definition sample_service (n : Z)
    (page : string -> Fetch.transport_error + Fetch.PageResponse Z)
  : Fetch.Service Z :=
  Fetch.mkService (sample_world n ["OBJECTID"]) page.

Definition point_feature (id : string) (coordinates : list Z)
  : Fetch.json_feature Z :=
  Fetch.mkJsonFeature [("OBJECTID", id)]
    (Some (Fetch.mkGeometry "Point" (Fetch.JArr (map Fetch.JNum coordinates)))).

(** Whether a url asks for the page that starts at [start]. *)
Fixpoint contains (needle s : string) : bool :=
  match s with
  | EmptyString => String.eqb needle ""
  | String _ s' => String.prefix needle s || contains needle s'
  end.

Definition three_pages (url : string)
  : Fetch.transport_error + Fetch.PageResponse Z :=
  if contains "startIndex=0&" url
  then inr (Fetch.mkPageResponse 200 (Ok [point_feature "1" [1; 2]]))
  else if contains "startIndex=10000&" url
  then inr (Fetch.mkPageResponse 503 (Ok []))
  else inr (Fetch.mkPageResponse 200 (Ok [point_feature "3" [5; 6]])).

Definition total_features {A} (pages : list (list A)) : nat :=
  List.length (List.concat pages).

(** The type names that [get_types] can return. *)
Definition REPORTED_TYPES : list string :=
  [ "POINT"; "POINTZ"; "LINESTRING"; "LINESTRINGZ"; "POLYGON"; "MULTIPOINT";
    "MULTILINESTRING"; "MULTILINESTRINGZ"; "MULTIPOLYGON" ].

(** The types whose [Z] variant is looked for. *)
Definition Z_TESTED_TYPES : list string :=
  [ "POINT"; "MULTIPOINT"; "LINESTRING"; "MULTILINESTRING" ].

(** A stand-in for [list(set(l))]: the distinct elements, in the order
    of their last occurrence. *)
Definition list_set_sample (l : list string) : list string :=
  nodup string_dec l.

Definition multipoint_feature (id : string) (points : list (list Z))
  : Fetch.json_feature Z :=
  Fetch.mkJsonFeature [("OBJECTID", id)]
    (Some (Fetch.mkGeometry "MultiPoint"
             (Fetch.JArr (map (fun p => Fetch.JArr (map Fetch.JNum p)) points)))).

Definition one_page (features : list (Fetch.json_feature Z))
  : Fetch.Service Z :=
  sample_service (Z.of_nat (List.length features))
    (fun _ => inr (Fetch.mkPageResponse 200 (Ok features))).

Definition collection_feature : Fetch.json_feature Z :=
  Fetch.mkJsonFeature [("OBJECTID", "2")]
    (Some (Fetch.mkGeometry "GeometryCollection" (Fetch.JArr []))).

Definition collection_page : list (Fetch.json_feature Z) :=
  [point_feature "1" [1; 2]; collection_feature].

(** A database with one system schema and one schema of its own. *)
Definition sample_server : Database.Server :=
  Database.mkServer (Ok ["pg_catalog"; "whse_imagery_and_base_maps"])
    (fun s => if String.eqb s "pg_catalog" then Ok ["pg_class"]
              else Ok ["gsr_airports_svw"]).

(** Whether a name starts with the prefix of the system schemas. *)
Definition is_system (s : string) : bool :=
  String.eqb (substring 0 3 s) "pg_".

(** Collaborators for the examples: the tables of the target database
    are those of [sample_server]. *)
Definition system_env : Env Z :=
  mkEnv Z (sample_world 455 ["OBJECTID"]) (fun _ => Ok tt)
    ["whse_imagery_and_base_maps.gsr_airports_svw"]
    (fun _ _ => []) (fun _ => Ok (mkTableDefinition [] ""))
    (fun _ => Ok mixed_page) (fun _ _ _ _ _ _ _ => Ok [])
    (fun _ => Ok tt) NaN.

(** ** Rounding of the quotient *)

Lemma cdiv_bounds a b : 0 < b -> (cdiv a b - 1) * b < a <= cdiv a b * b.
Proof.
  intros Hb. unfold cdiv.
  pose proof (Z.div_mod (- a) b ltac:(lia)) as E.
  pose proof (Z.mod_pos_bound (- a) b Hb) as R.
  nia.
Qed.

Lemma rne_le num den M : 0 < den -> num <= M * den -> rne num den <= M.
Proof.
  intros Hd H. unfold rne.
  pose proof (Z.div_mod num den ltac:(lia)) as E.
  pose proof (Z.mod_pos_bound num den Hd) as R.
  destruct (2 * (num mod den) <? den) eqn:L1;
    [ apply Z.ltb_lt in L1 | apply Z.ltb_ge in L1 ]; [ nia | ].
  assert (num / den < M) by nia.
  destruct (den <? 2 * (num mod den)); [ lia | ].
  destruct (Z.even (num / den)); lia.
Qed.

Lemma rne_gt num den M :
  0 < den -> den < 2 * (num - M * den) -> M < rne num den.
Proof.
  intros Hd H. unfold rne.
  pose proof (Z.div_mod num den ltac:(lia)) as E.
  pose proof (Z.mod_pos_bound num den Hd) as R.
  destruct (2 * (num mod den) <? den) eqn:L1;
    [ apply Z.ltb_lt in L1 | apply Z.ltb_ge in L1 ].
  - nia.
  - assert (M <= num / den) by nia.
    destruct (den <? 2 * (num mod den)) eqn:L2;
      [ lia | apply Z.ltb_ge in L2 ].
    assert (M < num / den) by nia.
    destruct (Z.even (num / den)); lia.
Qed.

Lemma binade_lower a b :
  0 < a -> 0 < b ->
  b * 2 ^ Z.max 0 (binade a b) <= a * 2 ^ Z.max 0 (- binade a b).
Proof.
  intros Ha Hb. unfold binade.
  set (d := Z.log2 a - Z.log2 b).
  destruct (b * 2 ^ Z.max 0 d <=? a * 2 ^ Z.max 0 (- d)) eqn:T.
  - now apply Z.leb_le in T.
  - clear T.
    pose proof (Z.log2_spec a Ha) as [La _].
    pose proof (Z.log2_spec b Hb) as [_ Lb].
    pose proof (Z.log2_nonneg a) as Na.
    pose proof (Z.log2_nonneg b) as Nb.
    destruct (Z.le_gt_cases 1 d) as [D | D].
    + rewrite (Z.max_r 0 (d - 1)), (Z.max_l 0 (- (d - 1))) by lia.
      rewrite Z.pow_0_r, Z.mul_1_r.
      replace (Z.log2 a) with (Z.log2 b + 1 + (d - 1)) in La by (unfold d; lia).
      rewrite Z.pow_add_r in La by lia.
      replace (Z.succ (Z.log2 b)) with (Z.log2 b + 1) in Lb by lia.
      assert (0 < 2 ^ (d - 1)) by (apply Z.pow_pos_nonneg; lia).
      nia.
    + rewrite (Z.max_l 0 (d - 1)), (Z.max_r 0 (- (d - 1))) by lia.
      rewrite Z.pow_0_r, Z.mul_1_r.
      replace (Z.succ (Z.log2 b)) with (Z.log2 a + (- (d - 1))) in Lb
        by (unfold d; lia).
      rewrite Z.pow_add_r in Lb by lia.
      assert (0 < 2 ^ (- (d - 1))) by (apply Z.pow_pos_nonneg; lia).
      nia.
Qed.

Lemma binade_le_52 a b :
  0 < a -> 0 < b -> a < 2 ^ 53 * b -> binade a b <= 52.
Proof.
  intros Ha Hb H. unfold binade.
  set (d := Z.log2 a - Z.log2 b).
  pose proof (Z.log2_spec a Ha) as [La _].
  pose proof (Z.log2_spec b Hb) as [_ Lb].
  pose proof (Z.log2_nonneg a) as Na.
  pose proof (Z.log2_nonneg b) as Nb.
  assert (D : d <= 53).
  { destruct (Z.le_gt_cases d 53) as [D | D]; [ exact D | exfalso ].
    replace (Z.log2 a) with (Z.succ (Z.log2 b) + 53 + (d - 54)) in La
      by (unfold d; lia).
    rewrite !Z.pow_add_r in La by lia.
    assert (1 <= 2 ^ (d - 54)) by (apply (Z.pow_le_mono_r 2 0); lia).
    assert (0 < 2 ^ 53) by (apply Z.pow_pos_nonneg; lia).
    nia. }
  destruct (b * 2 ^ Z.max 0 d <=? a * 2 ^ Z.max 0 (- d)) eqn:T; [ | lia ].
  apply Z.leb_le in T.
  destruct (Z.eq_dec d 53) as [E | E]; [ exfalso | lia ].
  rewrite E in T. change (Z.max 0 53) with 53 in T.
  change (Z.max 0 (- 53)) with 0 in T. rewrite Z.pow_0_r in T. lia.
Qed.

Lemma chunk_count_exact a b :
  0 < a -> 0 < b < 2 ^ 1075 ->
  a < 2 ^ 53 * (a - (cdiv a b - 1) * b) ->
  chunk_count a b = Ok (cdiv a b).
Proof.
  intros Ha [Hb Hb'] Hd.
  pose proof (cdiv_bounds a b Hb) as [C1 C2].
  set (C := cdiv a b) in *.
  assert (P53 : 0 < 2 ^ 53) by (apply Z.pow_pos_nonneg; lia).
  assert (He : binade a b <= 52) by (apply binade_le_52; nia).
  pose proof (binade_lower a b Ha Hb) as Hl.
  unfold chunk_count, truediv.
  rewrite (proj2 (Z.eqb_neq b 0)), (proj2 (Z.eqb_neq a 0)) by lia.
  rewrite (Z.abs_eq a), (Z.abs_eq b) by lia.
  rewrite (Z.sgn_pos a), (Z.sgn_pos b) by lia.
  unfold round_quotient.
  set (q := Z.max (binade a b - 52) (-1074)).
  assert (Hq : -1074 <= q <= 0) by (unfold q; lia).
  rewrite (Z.max_l 0 q), (Z.max_r 0 (- q)) by lia.
  rewrite Z.pow_0_r, Z.mul_1_r.
  set (k := - q) in *.
  assert (Pk : 0 < 2 ^ k) by (apply Z.pow_pos_nonneg; lia).
  set (m := rne (a * 2 ^ k) b).
  assert (Mu : m <= C * 2 ^ k) by (apply rne_le; nia).
  assert (Ml : (C - 1) * 2 ^ k < m).
  { apply rne_gt; [ lia | ].
    assert (b < 2 * 2 ^ k * (a - (C - 1) * b)); [ | nia ].
    destruct (Z.le_gt_cases (binade a b - 52) (-1074)) as [Q | Q].
    - assert (k = 1074) by (unfold k, q; lia).
      assert (2 * 2 ^ k = 2 ^ 1075) by (rewrite H; reflexivity).
      nia.
    - assert (K : k = 52 - binade a b) by (unfold k, q; lia).
      destruct (Z.le_gt_cases 0 (binade a b)) as [E | E].
      + rewrite (Z.max_r 0 (binade a b)), (Z.max_l 0 (- binade a b)) in Hl by lia.
        rewrite Z.pow_0_r, Z.mul_1_r in Hl.
        assert (2 ^ 53 = 2 * 2 ^ k * 2 ^ binade a b).
        { rewrite <- Z.pow_succ_r, <- Z.pow_add_r by lia. f_equal. lia. }
        assert (0 < 2 ^ binade a b) by (apply Z.pow_pos_nonneg; lia).
        nia.
      + rewrite (Z.max_l 0 (binade a b)), (Z.max_r 0 (- binade a b)) in Hl by lia.
        rewrite Z.pow_0_r, Z.mul_1_r in Hl.
        assert (2 * 2 ^ k = 2 ^ 53 * 2 ^ (- binade a b)).
        { rewrite <- Z.pow_succ_r, <- Z.pow_add_r by lia. f_equal. lia. }
        nia. }
  assert (Hc : C <= 2 ^ 53) by nia.
  assert (Ho : m < 2 ^ (1024 - q)).
  { replace (1024 - q) with (53 + 971 + k) by (unfold k; lia).
    rewrite !Z.pow_add_r by lia.
    assert (1 < 2 ^ 971) by (apply Z.pow_gt_1; lia).
    nia. }
  rewrite (proj2 (Z.leb_gt _ _) Ho). cbn [bind mant expo].
  rewrite !Z.mul_1_l. unfold ceil. cbn [mant expo].
  destruct (0 <=? q) eqn:Q0.
  - apply Z.leb_le in Q0. assert (q = 0) by lia.
    assert (k = 0) by (unfold k; lia).
    assert (2 ^ q = 1) by (rewrite H; reflexivity).
    assert (2 ^ k = 1) by (rewrite H0; reflexivity).
    f_equal. nia.
  - f_equal. fold k.
    pose proof (Z.div_mod (- m) (2 ^ k) ltac:(lia)) as E.
    pose proof (Z.mod_pos_bound (- m) (2 ^ k) Pk) as R.
    nia.
Qed.

Lemma chunk_count_small a b :
  0 < a < 2 ^ 53 -> 0 < b < 2 ^ 1075 -> chunk_count a b = Ok (cdiv a b).
Proof.
  intros [Ha Ha'] Hb. apply chunk_count_exact; try lia.
  pose proof (cdiv_bounds a b (proj1 Hb)). nia.
Qed.

Lemma chunk_count_one a b :
  0 < a <= b -> b < 2 ^ 1075 -> chunk_count a b = Ok 1.
Proof.
  intros [Ha Hab] Hb.
  assert (C : cdiv a b = 1).
  { pose proof (cdiv_bounds a b ltac:(lia)). nia. }
  rewrite <- C. apply chunk_count_exact; lia.
Qed.

(** ** The planner *)

Lemma tiles_total lo hi ws : tiles lo hi ws -> total ws = hi - lo.
Proof.
  revert lo. induction ws as [| [s c] ws IH]; cbn; intros lo H.
  - lia.
  - destruct H as (_ & _ & H). apply IH in H. unfold total in H. lia.
Qed.

Lemma mapM_ok {A B} (f : A -> result B) (g : A -> B) (l : list A) :
  (forall x, In x l -> f x = Ok (g x)) -> mapM f l = Ok (map g l).
Proof.
  induction l as [| x l IH]; cbn; intros H; [ reflexivity | ].
  rewrite (H x (or_introl eq_refl)). cbn.
  rewrite IH by (intros; apply H; now right). reflexivity.
Qed.

Lemma mapM_Forall2 {A B} (f : A -> result B) (l : list A) (rs : list B) :
  mapM f l = Ok rs -> Forall2 (fun x r => f x = Ok r) l rs.
Proof.
  revert rs. induction l as [| x l IH]; cbn; intros rs H.
  - injection H as <-. constructor.
  - destruct (f x) as [y |] eqn:Fx; cbn in H; [ | discriminate ].
    destruct (mapM f l) as [ys |]; cbn in H; [ | discriminate ].
    injection H as <-. constructor; auto.
Qed.

Lemma In_range i n : In i (range n) <-> 0 <= i < n.
Proof.
  unfold range. rewrite in_map_iff. split.
  - intros (k & <- & H). apply in_seq in H. lia.
  - intros H. exists (Z.to_nat i). split; [ lia | apply in_seq; lia ].
Qed.

Lemma length_range n : Z.of_nat (List.length (range n)) = Z.max 0 n.
Proof. unfold range. rewrite length_map, length_seq. lia. Qed.

Lemma build_request_closed table crs geom_column query bounds bounds_crs
    sortby count pagesize chunks i :
  bounds_ok bounds = true ->
  build_request table crs geom_column query bounds bounds_crs sortby
    count pagesize chunks i
  = Ok (chunk_request table crs geom_column query bounds bounds_crs sortby
          count pagesize chunks i).
Proof.
  intros Hb. unfold build_request, chunk_request, with_page, chunk_window.
  cbn [fst snd].
  assert (F :
    (let request := with_sortby sortby (base_request table crs) in
     let request :=
       match query with
       | Some q => if truthy_str query && negb (truthy_list bounds)
                   then dict_set "CQL_FILTER" (VStr q) request else request
       | None => request
       end in
     if truthy_list bounds then
       match bounds with
       | Some [b0; b1; b2; b3] =>
           let bnd_query := bbox_query geom_column b0 b1 b2 b3 bounds_crs in
           match query with
           | Some q =>
               if truthy_str query
               then Ok (dict_set "CQL_FILTER"
                          (VStr (q ++ " AND " ++ bnd_query)%string) request)
               else Ok (dict_set "CQL_FILTER" (VStr bnd_query) request)
           | None => Ok (dict_set "CQL_FILTER" (VStr bnd_query) request)
           end
       | Some bs => Raise (unpack_error 4 (List.length bs))
       | None => Raise TypeError
       end
     else Ok request)
    = Ok (with_filter (cql_filter geom_column query bounds bounds_crs)
            (with_sortby sortby (base_request table crs)))).
  { cbv zeta. destruct bounds as [[| b0 [| b1 [| b2 [| b3 [| b4 bs]]]]] |];
      try discriminate Hb; cbn [truthy_list negb andb cql_filter];
      destruct query as [[| c q] |]; cbn [truthy_str andb with_filter];
      reflexivity. }
  unfold with_sortby in F. cbv zeta in F. cbv zeta. rewrite F. cbn [bind].
  destruct (chunks =? 1) eqn:E1.
  - apply Z.eqb_eq in E1. subst chunks. cbn [Z.ltb Z.compare Pos.compare]. reflexivity.
  - destruct (1 <? chunks); [ | reflexivity ].
    destruct (count <? i * pagesize + pagesize); reflexivity.
Qed.


Lemma build_request_bounds_ok table crs geom_column query bounds bounds_crs
    sortby count pagesize chunks i r :
  build_request table crs geom_column query bounds bounds_crs sortby
    count pagesize chunks i = Ok r ->
  bounds_ok bounds = true.
Proof.
  unfold build_request. cbv zeta.
  destruct bounds as [[| b0 [| b1 [| b2 [| b3 [| b4 bs]]]]] |];
    try reflexivity; cbn; discriminate.
Qed.

Lemma build_request_inv table crs geom_column query bounds bounds_crs
    sortby count pagesize chunks i r :
  build_request table crs geom_column query bounds bounds_crs sortby
    count pagesize chunks i = Ok r ->
  r = chunk_request table crs geom_column query bounds bounds_crs sortby
        count pagesize chunks i.
Proof.
  intros H. pose proof (build_request_bounds_ok _ _ _ _ _ _ _ _ _ _ _ _ H) as B.
  rewrite build_request_closed in H by exact B. now injection H.
Qed.

(** A planning run whose collaborators answer and whose bounds unpack
    returns the requests of the chunks in closed form. *)
Lemma request_dicts_closed W dataset query crs bounds bounds_crs count sortby
    pagesize table n sch chunks key :
  validate_name W dataset = Ok table ->
  get_count W table query = Ok n ->
  get_schema W ("pub:" ++ table)%string = Ok sch ->
  chunk_count (effective_count count n) pagesize = Ok chunks ->
  choose_sortby chunks sortby table sch = Ok key ->
  bounds_ok bounds = true ->
  request_dicts W dataset query crs bounds bounds_crs count sortby pagesize
  = Ok (map (chunk_request table crs (geometry_column sch) query bounds
               bounds_crs key (effective_count count n) pagesize chunks)
          (range chunks)).
Proof.
  intros Hv Hn Hs Hc Hk Hb. unfold request_dicts.
  rewrite Hv. cbn [bind]. rewrite Hn. cbn [bind]. rewrite Hs. cbn [bind].
  rewrite Hc. cbn [bind]. rewrite Hk. cbn [bind].
  apply mapM_ok. intros i _. now apply build_request_closed.
Qed.

Lemma request_dicts_inv W dataset query crs bounds bounds_crs count sortby
    pagesize rs :
  request_dicts W dataset query crs bounds bounds_crs count sortby pagesize
  = Ok rs ->
  exists table n sch chunks key,
    validate_name W dataset = Ok table /\
    get_count W table query = Ok n /\
    get_schema W ("pub:" ++ table)%string = Ok sch /\
    chunk_count (effective_count count n) pagesize = Ok chunks /\
    choose_sortby chunks sortby table sch = Ok key /\
    forall r, In r rs ->
      bounds_ok bounds = true /\
      exists i, 0 <= i < chunks /\
        r = chunk_request table crs (geometry_column sch) query bounds
              bounds_crs key (effective_count count n) pagesize chunks i.
Proof.
  unfold request_dicts. intros H.
  destruct (validate_name W dataset) as [table |] eqn:Hv; [ | discriminate ].
  cbn [bind] in H.
  destruct (get_count W table query) as [n |] eqn:Hn; [ | discriminate ].
  cbn [bind] in H.
  destruct (get_schema W ("pub:" ++ table)%string) as [sch |] eqn:Hs;
    [ | discriminate ].
  cbn [bind] in H.
  destruct (chunk_count (effective_count count n) pagesize) as [chunks |] eqn:Hc;
    [ | discriminate ].
  cbn [bind] in H.
  destruct (choose_sortby chunks sortby table sch) as [key |] eqn:Hk;
    [ | discriminate ].
  cbn [bind] in H.
  exists table, n, sch, chunks, key.
  do 5 (split; [ first [ assumption | reflexivity ] | ]).
  intros r Hr. apply mapM_Forall2 in H.
  assert (G : exists i, In i (range chunks) /\
            build_request table crs (geometry_column sch) query bounds
              bounds_crs key (effective_count count n) pagesize chunks i = Ok r).
  { clear - H Hr. induction H as [| i r' js rs' Hi _ IH]; [ contradiction | ].
    destruct Hr as [<- | Hr].
    - exists i. split; [ now left | exact Hi ].
    - destruct (IH Hr) as (j & Hj & Hj'). exists j. split; [ now right | exact Hj' ]. }
  destruct G as (i & Hi & Hb).
  split; [ now apply build_request_bounds_ok in Hb | ].
  exists i. split.
  - now apply In_range.
  - now apply build_request_inv.
Qed.

Lemma define_requests_urls W dataset query crs bounds bounds_crs count sortby
    pagesize rs :
  request_dicts W dataset query crs bounds bounds_crs count sortby pagesize
  = Ok rs ->
  define_requests W dataset query crs bounds bounds_crs count sortby pagesize
  = Ok (map request_url rs).
Proof. intros H. unfold define_requests. now rewrite H. Qed.

Lemma dict_get_set k k' v d :
  dict_get k (dict_set k' v d)
  = if String.eqb k k' then Some v else dict_get k d.
Proof.
  induction d as [| [k'' w] d IH]; cbn; [ reflexivity | ].
  destruct (String.eqb k' k'') eqn:E1; cbn.
  - apply String.eqb_eq in E1. subst k''.
    destruct (String.eqb k k'); reflexivity.
  - rewrite IH. destruct (String.eqb k k'') eqn:E2; [ | reflexivity ].
    destruct (String.eqb k k') eqn:E3; [ | reflexivity ].
    apply String.eqb_eq in E2, E3. subst. now rewrite String.eqb_refl in E1.
Qed.

(** The part of a request that does not depend on the chunk. *)
Lemma common_get k table crs f sortby :
  dict_get k (with_filter f (with_sortby sortby (base_request table crs)))
  = if String.eqb k "CQL_FILTER" then
      match f with
      | Some q => Some (VStr q)
      | None => None
      end
    else if String.eqb k "sortby" then
      match sortby with
      | Some s => if truthy_str sortby then Some (VStr (upper s)) else None
      | None => None
      end
    else dict_get k (base_request table crs).
Proof.
  assert (B1 : dict_get "CQL_FILTER" (base_request table crs) = None)
    by reflexivity.
  assert (B2 : dict_get "sortby" (base_request table crs) = None)
    by reflexivity.
  unfold with_filter, with_sortby.
  destruct f as [q |]; destruct sortby as [[| c s] |]; cbn [truthy_str];
    rewrite ?dict_get_set;
    destruct (String.eqb k "CQL_FILTER") eqn:E1;
    try (apply String.eqb_eq in E1; subst k; cbn [String.eqb Ascii.eqb Bool.eqb]);
    try reflexivity;
    destruct (String.eqb k "sortby") eqn:E2;
    try (apply String.eqb_eq in E2; subst k);
    try reflexivity.
Qed.

Lemma chunk_request_get k table crs geom_column query bounds bounds_crs
    sortby count pagesize chunks i :
  k <> "startIndex" -> k <> "count" ->
  dict_get k (chunk_request table crs geom_column query bounds bounds_crs
                sortby count pagesize chunks i)
  = dict_get k (with_filter (cql_filter geom_column query bounds bounds_crs)
                  (with_sortby sortby (base_request table crs))).
Proof.
  intros H1 H2. apply String.eqb_neq in H1, H2.
  unfold chunk_request, with_page.
  destruct (chunks =? 1); [ | destruct (1 <? chunks) ];
    rewrite ?dict_get_set, ?H1, ?H2; reflexivity.
Qed.

Lemma chunk_request_window table crs geom_column query bounds bounds_crs
    sortby count pagesize chunks i :
  1 < chunks ->
  window (chunk_request table crs geom_column query bounds bounds_crs
            sortby count pagesize chunks i)
  = Some (chunk_window count pagesize i).
Proof.
  intros H. unfold window, start_index, chunk_request, with_page.
  rewrite (proj2 (Z.eqb_neq chunks 1)) by lia.
  rewrite (proj2 (Z.ltb_lt 1 chunks)) by lia.
  rewrite !dict_get_set. cbn [String.eqb Ascii.eqb Bool.eqb andb].
  now destruct (chunk_window count pagesize i).
Qed.

Lemma single_request_page table crs geom_column query bounds bounds_crs
    sortby count pagesize i :
  let r := chunk_request table crs geom_column query bounds bounds_crs
             sortby count pagesize 1 i in
  dict_get "count" r = Some (VInt count) /\ dict_get "startIndex" r = None.
Proof.
  cbv zeta. unfold chunk_request, with_page. rewrite Z.eqb_refl.
  rewrite !dict_get_set. cbn [String.eqb Ascii.eqb Bool.eqb andb].
  split; [ reflexivity | ]. rewrite common_get. reflexivity.
Qed.

(** The windows of the chunks [a, a + k) tile what is left of [0, count)
    once the chunks before [a] are taken. *)
Lemma chunk_windows_tile count pagesize chunks :
  0 < pagesize -> (chunks - 1) * pagesize < count <= chunks * pagesize ->
  forall k a,
    Z.of_nat (a + k) = chunks ->
    tiles (Z.min (Z.of_nat a * pagesize) count) count
      (map (chunk_window count pagesize) (map Z.of_nat (seq a k))).
Proof.
  intros Hp Hc. induction k as [| k IH]; intros a Ha.
  - cbn. nia.
  - cbn [seq map tiles chunk_window].
    assert (Hlt : Z.of_nat a * pagesize < count) by nia.
    rewrite Z.min_l by lia. split; [ reflexivity | ].
    specialize (IH (S a) ltac:(lia)).
    replace (Z.of_nat (S a) * pagesize) with (Z.of_nat a * pagesize + pagesize)
      in IH by lia.
    destruct (count <? Z.of_nat a * pagesize + pagesize) eqn:E;
      [ apply Z.ltb_lt in E | apply Z.ltb_ge in E ].
    + split; [ lia | ]. rewrite Z.min_r in IH by lia.
      now replace (Z.of_nat a * pagesize + (count - Z.of_nat a * pagesize))
        with count by lia.
    + split; [ lia | ]. now rewrite Z.min_l in IH by lia.
Qed.

Lemma get_sortkey_total table sch :
  properties sch <> [] -> exists k, get_sortkey table sch = Ok k.
Proof.
  intros H. unfold get_sortkey.
  destruct (existsb (String.eqb "OBJECTID") (map fst (properties sch)));
    [ now eexists | ].
  destruct (existsb (String.eqb "SEQUENCE_ID") (map fst (properties sch)));
    [ now eexists | ].
  destruct (properties sch) as [| [c t] cs]; [ contradiction | now eexists ].
Qed.

Lemma choose_sortby_total chunks sortby table sch :
  properties sch <> [] -> exists key, choose_sortby chunks sortby table sch = Ok key.
Proof.
  intros H. unfold choose_sortby.
  destruct ((1 <? chunks) && negb (truthy_str sortby)); [ | now eexists ].
  destruct (get_sortkey_total table sch H) as (k & ->). now eexists.
Qed.

(** C1 (as amended): when the effective count [e] (the total [n] unless a
    smaller count is asked for) satisfies [1 <= e < 2^53] and the page size
    [1 <= p < 2^1075], [define_requests] returns exactly [ceil(e/p)]
    requests, and their windows, read with a missing [startIndex] as 0,
    tile [[0, e)] in order: each starts where the previous one ends, each
    is non-empty, and their counts add up to [e]. *)
Theorem define_requests_partition W dataset query crs bounds bounds_crs
    count sortby pagesize table n sch :
  validate_name W dataset = Ok table ->
  get_count W table query = Ok n ->
  get_schema W ("pub:" ++ table)%string = Ok sch ->
  properties sch <> [] ->
  bounds_ok bounds = true ->
  1 <= effective_count count n < 2 ^ 53 ->
  1 <= pagesize < 2 ^ 1075 ->
  exists rs ws,
    request_dicts W dataset query crs bounds bounds_crs count sortby pagesize
    = Ok rs /\
    define_requests W dataset query crs bounds bounds_crs count sortby pagesize
    = Ok (map request_url rs) /\
    Z.of_nat (List.length rs) = cdiv (effective_count count n) pagesize /\
    map window rs = map Some ws /\
    tiles 0 (effective_count count n) ws /\
    total ws = effective_count count n.
Proof.
  intros Hv Hn Hs Hcols Hb He Hp.
  set (e := effective_count count n) in *.
  pose proof (chunk_count_small e pagesize ltac:(lia) ltac:(lia)) as Hc.
  pose proof (cdiv_bounds e pagesize ltac:(lia)) as Hd.
  set (chunks := cdiv e pagesize) in *.
  assert (H1 : 1 <= chunks) by nia.
  destruct (choose_sortby_total chunks sortby table sch Hcols) as (key & Hk).
  pose proof (request_dicts_closed W dataset query crs bounds bounds_crs count
                sortby pagesize table n sch chunks key Hv Hn Hs Hc Hk Hb) as R.
  fold e in R.
  eexists. exists (map (chunk_window e pagesize) (range chunks)).
  split; [ exact R | ].
  split; [ now apply define_requests_urls | ].
  split; [ rewrite length_map, length_range; lia | ].
  assert (T : tiles 0 e (map (chunk_window e pagesize) (range chunks))).
  { unfold range.
    pose proof (chunk_windows_tile e pagesize chunks ltac:(lia) Hd
                  (Z.to_nat chunks) 0%nat ltac:(lia)) as T.
    rewrite Z.min_l in T by lia. exact T. }
  split; [ | split; [ exact T | apply tiles_total in T; lia ] ].
  rewrite !map_map. apply map_ext_in. intros i Hi.
  destruct (Z.eq_dec chunks 1) as [E | E].
  - rewrite E in *. apply In_range in Hi. assert (i = 0) by lia. subst i.
    unfold window, start_index.
    destruct (single_request_page table crs (geometry_column sch) query bounds
                bounds_crs key e pagesize 0) as [-> ->].
    unfold chunk_window.
    assert (e <= pagesize) by lia.
    destruct (e <? 0 * pagesize + pagesize) eqn:L;
      [ apply Z.ltb_lt in L | apply Z.ltb_ge in L ]; do 2 f_equal; lia.
  - apply chunk_request_window. lia.
Qed.

(** A run that satisfies the hypotheses of [define_requests_partition]:
    25000 features in pages of 10000. *)
Lemma define_requests_partition_witness :
  exists rs ws,
    request_dicts (sample_world 25000 ["OBJECTID"; "NAME"]) sample_dataset
      None "epsg:4326" None "EPSG:3005" None None 10000 = Ok rs /\
    define_requests (sample_world 25000 ["OBJECTID"; "NAME"]) sample_dataset
      None "epsg:4326" None "EPSG:3005" None None 10000
    = Ok (map request_url rs) /\
    Z.of_nat (List.length rs) = cdiv (effective_count None 25000) 10000 /\
    map window rs = map Some ws /\
    tiles 0 (effective_count None 25000) ws /\
    total ws = effective_count None 25000.
Proof.
  apply (define_requests_partition (sample_world 25000 ["OBJECTID"; "NAME"])
           sample_dataset None "epsg:4326" None "EPSG:3005" None None 10000
           (upper sample_dataset) 25000
           (mkSchema [("OBJECTID", "xsd:string"); ("NAME", "xsd:string")] "SHAPE")).
  - reflexivity.
  - reflexivity.
  - reflexivity.
  - discriminate.
  - reflexivity.
  - cbn [effective_count]. split; [ lia | reflexivity ].
  - split; [ lia | reflexivity ].
Defined.

(** C1, as stated, fails once the count leaves the range in which the
    float quotient is exact. The int [2^53 + 1] is not a float:
    [(2^53 + 1) / 1] is [9007199254740992.0], one chunk short. With pages
    of [2^52] the quotient [2 + 2^-52] lies halfway between two floats
    and rounds to [2.0]: the planner returns 2 requests, not 3, and
    their counts add up to [2^53], one feature short. *)
Lemma define_requests_partition_counterexample :
  chunk_count (2 ^ 53 + 1) 1 = Ok (2 ^ 53) /\
  cdiv (2 ^ 53 + 1) 1 = 2 ^ 53 + 1 /\
  exists rs,
    request_dicts (sample_world (2 ^ 53 + 1) ["OBJECTID"]) sample_dataset
      None "epsg:4326" None "EPSG:3005" None None (2 ^ 52) = Ok rs /\
    1 <= 2 ^ 53 + 1 /\ 1 <= 2 ^ 52 /\
    cdiv (2 ^ 53 + 1) (2 ^ 52) = 3 /\
    Z.of_nat (List.length rs) = 2 /\
    map window rs = [Some (0, 2 ^ 52); Some (2 ^ 52, 2 ^ 52)] /\
    2 ^ 52 + 2 ^ 52 <> 2 ^ 53 + 1.
Proof.
  split; [ vm_compute; reflexivity | split; [ reflexivity | ] ].
  eexists. split; [ vm_compute; reflexivity | ].
  repeat split; try reflexivity; vm_compute; congruence.
Qed.

(** C2 (as amended): when the effective count [e] satisfies
    [1 <= e <= p] (and [p < 2^1075]), [define_requests] returns exactly
    one request; it carries [count = e] and no [startIndex]. *)
Theorem define_requests_single W dataset query crs bounds bounds_crs
    count sortby pagesize table n sch :
  validate_name W dataset = Ok table ->
  get_count W table query = Ok n ->
  get_schema W ("pub:" ++ table)%string = Ok sch ->
  bounds_ok bounds = true ->
  1 <= effective_count count n <= pagesize ->
  pagesize < 2 ^ 1075 ->
  exists r,
    request_dicts W dataset query crs bounds bounds_crs count sortby pagesize
    = Ok [r] /\
    define_requests W dataset query crs bounds bounds_crs count sortby pagesize
    = Ok [request_url r] /\
    dict_get "count" r = Some (VInt (effective_count count n)) /\
    dict_get "startIndex" r = None.
Proof.
  intros Hv Hn Hs Hb He Hp.
  set (e := effective_count count n) in *.
  pose proof (chunk_count_one e pagesize ltac:(lia) Hp) as Hc.
  assert (Hk : choose_sortby 1 sortby table sch = Ok sortby) by reflexivity.
  pose proof (request_dicts_closed W dataset query crs bounds bounds_crs count
                sortby pagesize table n sch 1 sortby Hv Hn Hs Hc Hk Hb) as R.
  fold e in R. change (range 1) with [0] in R. cbn [map] in R.
  eexists. split; [ exact R | ].
  split; [ now rewrite (define_requests_urls _ _ _ _ _ _ _ _ _ _ R) | ].
  apply single_request_page.
Qed.

(** A run that satisfies the hypotheses of [define_requests_single]:
    455 features, the default page size. *)
Lemma define_requests_single_witness :
  exists r,
    request_dicts (sample_world 455 ["OBJECTID"]) sample_dataset
      None "epsg:4326" None "EPSG:3005" None None 10000 = Ok [r] /\
    define_requests (sample_world 455 ["OBJECTID"]) sample_dataset
      None "epsg:4326" None "EPSG:3005" None None 10000
    = Ok [request_url r] /\
    dict_get "count" r = Some (VInt (effective_count None 455)) /\
    dict_get "startIndex" r = None.
Proof.
  apply (define_requests_single (sample_world 455 ["OBJECTID"]) sample_dataset
           None "epsg:4326" None "EPSG:3005" None None 10000
           (upper sample_dataset) 455
           (mkSchema [("OBJECTID", "xsd:string")] "SHAPE")).
  - reflexivity.
  - reflexivity.
  - reflexivity.
  - reflexivity.
  - cbn [effective_count]. lia.
  - reflexivity.
Defined.

(** C2, as stated, fails for an empty result: with no matching feature
    the count 0 is at most the page size, and no request is returned. *)
Lemma define_requests_single_counterexample :
  effective_count None 0 <= 10000 /\
  request_dicts (sample_world 0 ["OBJECTID"]) sample_dataset
    None "epsg:4326" None "EPSG:3005" None None 10000 = Ok [] /\
  define_requests (sample_world 0 ["OBJECTID"]) sample_dataset
    None "epsg:4326" None "EPSG:3005" None None 10000 = Ok [].
Proof. split; [ cbn; lia | split; reflexivity ]. Qed.

(** C3 (as amended): the count used for planning is the total when no
    count is given or the given count is 0, and the smaller of the given
    count and the total otherwise. *)
Theorem effective_count_spec count n :
  effective_count count n
  = match count with
    | None => n
    | Some c => if c =? 0 then n else Z.min c n
    end.
Proof.
  destruct count as [c |]; [ | reflexivity ].
  unfold effective_count, truthy_int.
  destruct (c =? 0); cbn [negb orb]; [ reflexivity | ].
  destruct (n <? c) eqn:E; [ apply Z.ltb_lt in E | apply Z.ltb_ge in E ]; lia.
Qed.

(** C3, as stated, fails for a supplied count of 0: it is not used
    unchanged but replaced by the total, and the single request asks for
    all 5 features. *)
Lemma effective_count_counterexample :
  effective_count (Some 0) 5 = 5 /\
  Z.min 0 5 = 0 /\
  exists r,
    request_dicts (sample_world 5 ["OBJECTID"]) sample_dataset
      None "epsg:4326" None "EPSG:3005" (Some 0) None 10000 = Ok [r] /\
    dict_get "count" r = Some (VInt 5).
Proof.
  split; [ reflexivity | split; [ reflexivity | ] ].
  eexists. split; reflexivity.
Qed.

(** C10: the requests returned by one call agree on every parameter other
    than [startIndex] and [count]; in particular each carries the
    validated [typeName], the fixed [service], [version], [request] and
    [outputFormat], and the [SRSNAME] asked for. *)
Theorem define_requests_shared W dataset query crs bounds bounds_crs count
    sortby pagesize rs :
  request_dicts W dataset query crs bounds bounds_crs count sortby pagesize
  = Ok rs ->
  define_requests W dataset query crs bounds bounds_crs count sortby pagesize
  = Ok (map request_url rs) /\
  (exists table,
     validate_name W dataset = Ok table /\
     forall r, In r rs ->
       dict_get "service" r = Some (VStr "WFS") /\
       dict_get "version" r = Some (VStr "2.0.0") /\
       dict_get "request" r = Some (VStr "GetFeature") /\
       dict_get "typeName" r = Some (VStr table) /\
       dict_get "outputFormat" r = Some (VStr "json") /\
       dict_get "SRSNAME" r = Some (VStr crs)) /\
  (forall r1 r2 k,
     In r1 rs -> In r2 rs -> k <> "startIndex" -> k <> "count" ->
     dict_get k r1 = dict_get k r2).
Proof.
  intros H. split; [ now apply define_requests_urls | ].
  destruct (request_dicts_inv _ _ _ _ _ _ _ _ _ _ H)
    as (table & n & sch & chunks & key & Hv & _ & _ & _ & _ & Hr).
  split.
  - exists table. split; [ exact Hv | ]. intros r Hin.
    destruct (Hr r Hin) as (_ & i & _ & ->).
    rewrite !chunk_request_get by discriminate.
    rewrite !common_get. cbn. repeat split; reflexivity.
  - intros r1 r2 k H1 H2 Hk1 Hk2.
    destruct (Hr r1 H1) as (_ & i1 & _ & ->).
    destruct (Hr r2 H2) as (_ & i2 & _ & ->).
    now rewrite !chunk_request_get.
Qed.

(** A run that satisfies the hypothesis of [define_requests_shared]:
    three pages, a filter and a sort key. *)
Lemma define_requests_shared_witness :
  exists rs,
    List.length rs = 3%nat /\
    request_dicts (sample_world 25000 ["OBJECTID"]) sample_dataset
      (Some "NAME LIKE 'A%'") "epsg:4326" None "EPSG:3005" None (Some "name")
      10000 = Ok rs /\
    forall r1 r2 k,
      In r1 rs -> In r2 rs -> k <> "startIndex" -> k <> "count" ->
      dict_get k r1 = dict_get k r2.
Proof.
  eexists. split; [ | split; [ reflexivity | ] ].
  - reflexivity.
  - apply (define_requests_shared (sample_world 25000 ["OBJECTID"])
             sample_dataset (Some "NAME LIKE 'A%'") "epsg:4326" None
             "EPSG:3005" None (Some "name") 10000).
    reflexivity.
Defined.

(** C5: no request carries a [bbox] parameter. With bounds given, the
    [CQL_FILTER] is the [bbox(...)] predicate on the geometry column of
    the schema, preceded by the filter and [" AND "] when a filter is
    given too; with a filter and no bounds it is the filter itself; with
    neither there is none. *)
Theorem define_requests_cql W dataset query crs bounds bounds_crs count
    sortby pagesize rs table sch r :
  request_dicts W dataset query crs bounds bounds_crs count sortby pagesize
  = Ok rs ->
  validate_name W dataset = Ok table ->
  get_schema W ("pub:" ++ table)%string = Ok sch ->
  In r rs ->
  dict_get "bbox" r = None /\
  (truthy_list bounds = true ->
   exists b0 b1 b2 b3,
     bounds = Some [b0; b1; b2; b3] /\
     let bnd := bbox_query (geometry_column sch) b0 b1 b2 b3 bounds_crs in
     (truthy_str query = false ->
      dict_get "CQL_FILTER" r = Some (VStr bnd)) /\
     (forall q, query = Some q -> truthy_str query = true ->
      dict_get "CQL_FILTER" r = Some (VStr (q ++ " AND " ++ bnd)%string))) /\
  (truthy_list bounds = false ->
   (forall q, query = Some q -> truthy_str query = true ->
    dict_get "CQL_FILTER" r = Some (VStr q)) /\
   (truthy_str query = false -> dict_get "CQL_FILTER" r = None)).
Proof.
  intros H Hv Hs Hin.
  destruct (request_dicts_inv _ _ _ _ _ _ _ _ _ _ H)
    as (table' & n & sch' & chunks & key & Hv' & _ & Hs' & _ & _ & Hr).
  rewrite Hv in Hv'. injection Hv' as <-.
  rewrite Hs in Hs'. injection Hs' as <-.
  destruct (Hr r Hin) as (Hb & i & _ & ->).
  rewrite !chunk_request_get by discriminate.
  rewrite !common_get. cbn [String.eqb Ascii.eqb Bool.eqb andb].
  split; [ reflexivity | ].
  destruct bounds as [[| b0 [| b1 [| b2 [| b3 [| b4 bs]]]]] |];
    try discriminate Hb; cbn [truthy_list cql_filter]; split;
    try discriminate; intros _.
  - split; [ intros q -> Hq; now rewrite Hq | ].
    destruct query as [q |]; [ intros -> | ]; reflexivity.
  - exists b0, b1, b2, b3. split; [ reflexivity | ]. cbv zeta. split.
    + destruct query as [q |]; [ intros -> | ]; reflexivity.
    + intros q -> Hq. now rewrite Hq.
  - split; [ intros q -> Hq; now rewrite Hq | ].
    destruct query as [q |]; [ intros -> | ]; reflexivity.
Qed.

(** A run that satisfies the hypotheses of [define_requests_cql]: a
    filter together with bounds. *)
Lemma define_requests_cql_witness :
  exists r,
    dict_get "bbox" r = None /\
    dict_get "CQL_FILTER" r
    = Some (VStr "AIRPORT_NAME='Terrace (Northwest Regional) Airport' AND bbox(SHAPE, 1188000, 377051, 1207437, 390361, 'EPSG:3005')").
Proof.
  eexists.
  destruct (define_requests_cql (sample_world 455 ["OBJECTID"]) sample_dataset
              (Some "AIRPORT_NAME='Terrace (Northwest Regional) Airport'")
              "epsg:4326"
              (Some ["1188000"; "377051"; "1207437"; "390361"]) "EPSG:3005"
              None None 10000 _ (upper sample_dataset)
              (mkSchema [("OBJECTID", "xsd:string")] "SHAPE") _
              eq_refl eq_refl eq_refl (or_introl eq_refl))
    as (Hbbox & Hb & _).
  split; [ exact Hbbox | ].
  destruct (Hb eq_refl) as (b0 & b1 & b2 & b3 & E & _ & Hq).
  injection E as <- <- <- <-.
  exact (Hq _ eq_refl eq_refl).
Defined.

Lemma existsb_eqb_In (s : string) (l : list string) :
  existsb (String.eqb s) l = true <-> In s l.
Proof.
  rewrite existsb_exists. split.
  - intros (x & Hx & E). apply String.eqb_eq in E. now subst.
  - intros H. exists s. split; [ exact H | apply String.eqb_refl ].
Qed.

(** The precedence of [get_sortkey]. *)
Lemma get_sortkey_precedence table sch key :
  get_sortkey table sch = Ok key ->
  let columns := map fst (properties sch) in
  (In "OBJECTID" columns -> key = "OBJECTID") /\
  (~ In "OBJECTID" columns -> In "SEQUENCE_ID" columns ->
   key = "SEQUENCE_ID") /\
  (~ In "OBJECTID" columns -> ~ In "SEQUENCE_ID" columns ->
   hd_error columns = Some key).
Proof.
  unfold get_sortkey. cbv zeta.
  set (columns := map fst (properties sch)).
  destruct (existsb (String.eqb "OBJECTID") columns) eqn:E1.
  - intros [= <-]. apply existsb_eqb_In in E1.
    split; [ reflexivity | split; intros; contradiction ].
  - assert (N1 : ~ In "OBJECTID" columns).
    { intros C. apply existsb_eqb_In in C. congruence. }
    destruct (existsb (String.eqb "SEQUENCE_ID") columns) eqn:E2.
    + intros [= <-]. apply existsb_eqb_In in E2.
      split; [ | split ]; intros; (reflexivity || contradiction).
    + assert (N2 : ~ In "SEQUENCE_ID" columns).
      { intros C. apply existsb_eqb_In in C. congruence. }
      destruct columns as [| c cs]; [ discriminate | ].
      intros [= <-].
      split; [ | split ]; intros; (reflexivity || contradiction).
Qed.

(** C4 (as amended): in a run of more than one chunk with no sort key
    supplied, over a schema with at least one column and no column with
    an empty name, a key is selected among the schema's columns,
    [OBJECTID] if present, else [SEQUENCE_ID] if present, else the first
    column, and every request carries its upper-case form as [sortby]. *)
Theorem define_requests_sortkey W dataset query crs bounds bounds_crs count
    sortby pagesize table n sch chunks :
  validate_name W dataset = Ok table ->
  get_count W table query = Ok n ->
  get_schema W ("pub:" ++ table)%string = Ok sch ->
  chunk_count (effective_count count n) pagesize = Ok chunks ->
  1 < chunks ->
  truthy_str sortby = false ->
  bounds_ok bounds = true ->
  map fst (properties sch) <> [] ->
  ~ In "" (map fst (properties sch)) ->
  exists rs key,
    request_dicts W dataset query crs bounds bounds_crs count sortby pagesize
    = Ok rs /\
    Z.of_nat (List.length rs) = chunks /\
    In key (map fst (properties sch)) /\
    (In "OBJECTID" (map fst (properties sch)) -> key = "OBJECTID") /\
    (~ In "OBJECTID" (map fst (properties sch)) ->
     In "SEQUENCE_ID" (map fst (properties sch)) -> key = "SEQUENCE_ID") /\
    (~ In "OBJECTID" (map fst (properties sch)) ->
     ~ In "SEQUENCE_ID" (map fst (properties sch)) ->
     hd_error (map fst (properties sch)) = Some key) /\
    forall r, In r rs -> dict_get "sortby" r = Some (VStr (upper key)).
Proof.
  intros Hv Hn Hs Hc H1 Hsort Hb Hcols Hne.
  assert (Hp : properties sch <> []).
  { intros E. apply Hcols. now rewrite E. }
  destruct (get_sortkey_total table sch Hp) as (key & Hkey).
  assert (Hk : choose_sortby chunks sortby table sch = Ok (Some key)).
  { unfold choose_sortby. rewrite (proj2 (Z.ltb_lt 1 chunks) H1), Hsort.
    cbn [negb andb]. now rewrite Hkey. }
  pose proof (request_dicts_closed W dataset query crs bounds bounds_crs count
                sortby pagesize table n sch chunks (Some key)
                Hv Hn Hs Hc Hk Hb) as R.
  destruct (get_sortkey_precedence table sch key Hkey) as (P1 & P2 & P3).
  set (columns := map fst (properties sch)) in *.
  assert (Hin : In key columns).
  { destruct (in_dec string_dec "OBJECTID" columns) as [I1 | I1];
      [ now rewrite (P1 I1) | ].
    destruct (in_dec string_dec "SEQUENCE_ID" columns) as [I2 | I2];
      [ now rewrite (P2 I1 I2) | ].
    specialize (P3 I1 I2). destruct columns as [| c cs]; [ discriminate | ].
    injection P3 as ->. now left. }
  eexists. exists key. split; [ exact R | ].
  split; [ rewrite length_map, length_range; lia | ].
  split; [ exact Hin | ].
  do 3 (split; [ assumption | ]).
  intros r Hr. apply in_map_iff in Hr. destruct Hr as (i & <- & _).
  rewrite chunk_request_get by discriminate.
  rewrite common_get. cbn [String.eqb Ascii.eqb Bool.eqb andb].
  destruct key as [| c key]; [ contradiction | reflexivity ].
Qed.

(** A run that satisfies the hypotheses of [define_requests_sortkey]: the
    schema has neither [OBJECTID] nor [SEQUENCE_ID]. *)
Lemma define_requests_sortkey_witness :
  exists rs key,
    request_dicts (sample_world 25000 ["FEATURE_ID"; "NAME"]) sample_dataset
      None "epsg:4326" None "EPSG:3005" None None 10000 = Ok rs /\
    Z.of_nat (List.length rs) = 3 /\
    hd_error ["FEATURE_ID"; "NAME"] = Some key /\
    forall r, In r rs -> dict_get "sortby" r = Some (VStr (upper key)).
Proof.
  destruct (define_requests_sortkey (sample_world 25000 ["FEATURE_ID"; "NAME"])
              sample_dataset None "epsg:4326" None "EPSG:3005" None None 10000
              (upper sample_dataset) 25000
              (mkSchema [("FEATURE_ID", "xsd:string"); ("NAME", "xsd:string")]
                 "SHAPE") 3
              eq_refl eq_refl eq_refl eq_refl eq_refl eq_refl eq_refl)
    as (rs & key & R & L & _ & _ & _ & P3 & S).
  - discriminate.
  - cbn. intros [C | [C | []]]; discriminate C.
  - exists rs, key. repeat split; try assumption.
    apply P3; cbn; intros [C | [C | []]]; discriminate C.
Defined.

(** C4, as stated, fails for a first column that is not in upper case:
    with columns [fid, name] the key selected is [fid], the first column,
    while every request carries [sortby = FID]. *)
Lemma define_requests_sortkey_counterexample :
  exists rs,
    request_dicts (sample_world 25000 ["fid"; "name"]) sample_dataset
      None "epsg:4326" None "EPSG:3005" None None 10000 = Ok rs /\
    chunk_count (effective_count None 25000) 10000 = Ok 3 /\
    get_sortkey (upper sample_dataset)
      (mkSchema [("fid", "xsd:string"); ("name", "xsd:string")] "SHAPE")
    = Ok "fid" /\
    rs <> [] /\
    forall r, In r rs ->
      dict_get "sortby" r = Some (VStr "FID") /\
      dict_get "sortby" r <> Some (VStr "fid").
Proof.
  eexists. split; [ vm_compute; reflexivity | ].
  split; [ reflexivity | split; [ reflexivity | split; [ discriminate | ] ] ].
  intros r [<- | [<- | [<- | []]]]; split; (reflexivity || discriminate).
Qed.

(** ** The feature count *)

(** C7 (as amended): when the hits-only request is answered with a
    client or server error status, or raises an [HTTPError], [get_count]
    ends in [SystemExit] carrying that error; any other exception of the
    request propagates as it is. *)
Theorem get_count_failure W dataset query table :
  validate_name W dataset = Ok table ->
  (forall r,
     requests_get W WFS_URL (hits_payload table query) = Ok r ->
     400 <= status_code r < 600 ->
     get_count W dataset query
     = Raise (SystemExit (HTTPError (status_code r)))) /\
  (forall s,
     requests_get W WFS_URL (hits_payload table query) = Raise (HTTPError s) ->
     get_count W dataset query = Raise (SystemExit (HTTPError s))) /\
  (forall e,
     requests_get W WFS_URL (hits_payload table query) = Raise e ->
     is_http_error e = false ->
     get_count W dataset query = Raise e).
Proof.
  intros Hv. unfold get_count. rewrite Hv. cbn [bind]. cbv zeta.
  split; [ | split ].
  - intros r Hr [H1 H2]. rewrite Hr. cbn [bind]. unfold raise_for_status.
    rewrite (proj2 (Z.leb_le _ _) H1), (proj2 (Z.ltb_lt _ _) H2). reflexivity.
  - intros s Hr. rewrite Hr. reflexivity.
  - intros e Hr He. rewrite Hr. cbn [bind].
    destruct e; try reflexivity. discriminate He.
Qed.

(** A service that satisfies the hypotheses of [get_count_failure]: it
    answers the hits-only request with status 503. *)
Lemma get_count_failure_witness :
  get_count (status_world 503) sample_dataset None
  = Raise (SystemExit (HTTPError 503)).
Proof.
  apply (proj1 (get_count_failure (status_world 503) sample_dataset None
                  (upper sample_dataset) eq_refl)
           (mkResponse 503 (Raise ParseError)) eq_refl).
  cbn [status_code]. lia.
Defined.

(** C7, as stated, fails for a network failure: when the service cannot
    be reached, the [ConnectionError] of the request leaves [get_count]
    as it is, not wrapped in the exit that a bad status gets. *)
Lemma get_count_failure_counterexample :
  get_count offline_world sample_dataset None = Raise ConnectionError /\
  forall cause, get_count offline_world sample_dataset None
                <> Raise (SystemExit cause).
Proof. split; [ reflexivity | discriminate ]. Qed.

(** ** The load orchestrator *)

(** C6: the cast to multi-part maps every geometry of a batch as the
    specification says (a point, line or polygon to the one-member
    collection of its kind, everything else to itself), and casting a
    batch twice gives the same batch as casting it once. *)
Theorem cast_to_multi_promotes (Num : Type)
    (geoms : list (option (geometry Num))) :
  cast_to_multi geoms = map promoted geoms /\
  cast_to_multi (cast_to_multi geoms) = cast_to_multi geoms.
Proof.
  assert (P : forall l : list (option (geometry Num)),
             cast_to_multi l = map promoted l).
  { intros l. unfold cast_to_multi. rewrite !map_map. apply map_ext.
    intros [[] |]; reflexivity. }
  split; [ apply P | ]. rewrite !P, map_map. apply map_ext.
  intros [[] |]; reflexivity.
Qed.

Lemma prepare_append_missing {Num} (E : Env Num) schema_name table_name t :
  existsb (String.eqb (schema_name ++ "." ++ table_name)%string) (db_tables E)
  = false ->
  prepare_append E schema_name table_name t
  = (Raise (ValueError (schema_name ++ "." ++ table_name
                        ++ " does not exist, nothing to append to")%string),
     (t ++ [ListTables])%list).
Proof.
  intros H. unfold prepare_append, bind_io, call. rewrite H. reflexivity.
Qed.



Lemma probe_first_row {Num} na (f : feature Num) df :
  probe na (f :: df)
  = match geom f with
    | Some g =>
        Ok (TypeName (type_name g ++ (if has_z f then "Z" else ""))%string)
    | None => Ok (Missing na)
    end.
Proof.
  unfold probe, geom_type, has_z. cbn [map unique_0 bind].
  destruct (geom f) as [g |]; [ | reflexivity ].
  destruct g; destruct (geometry_has_z Num _); reflexivity.
Qed.


(** Where the library marks the missing type of a row as [None], a first
    row without geometry sends the probe to the last page, when its
    request differs from the first. *)
Lemma resolve_geometry_type_fallback {Num} (E : Env Num) url urls
    geometry_type f df t last f' df' shape :
  truthy_str geometry_type = false ->
  make_requests E url = Ok (f :: df) ->
  geom f = None ->
  na_value E = PyNone ->
  last_url (url :: urls) = Ok last ->
  String.eqb last url = false ->
  make_requests E last = Ok (f' :: df') ->
  shape_of f' = Some shape ->
  resolve_geometry_type E (url :: urls) geometry_type t
  = (if existsb (String.eqb shape) SUPPORTED_TYPES
     then Ok (Some (f :: df), shape)
     else Raise (ValueError "Geometry type {geometry_type} is not supported"),
     (t ++ [MakeRequests url; MakeRequests last])%list).
Proof.
  intros Hg Hm Hn Hna Hl Hne Hm' Hs.
  unfold resolve_geometry_type, bind_io at 1 2.
  rewrite Hg. cbn [negb]. unfold bind_io at 1, lift at 1.
  cbn [first_url]. unfold bind_io at 1, call at 1. rewrite Hm.
  unfold bind_io at 1, lift at 1. rewrite probe_first_row, Hn, Hna.
  unfold ret at 1. cbn [fst snd truthy_value negb].
  unfold bind_io at 1, lift at 1. rewrite Hl.
  unfold bind_io at 1, lift at 1. cbn [first_url]. rewrite Hne. cbn [negb].
  unfold bind_io at 1, call at 1. rewrite Hm'.
  unfold lift at 1. rewrite probe_first_row.
  unfold shape_of in Hs.
  destruct (geom f') as [g |] eqn:G; [ | discriminate ].
  injection Hs as <-.
  unfold bind_io at 1, ret at 1. rewrite <- app_assoc. cbn [app].
  destruct (existsb _ SUPPORTED_TYPES); reflexivity.
Qed.




(** ** More on the planner *)

Lemma mapM_inv_map {A B} (f : A -> result B) (g : A -> B) (l : list A) rs :
  (forall x r, f x = Ok r -> r = g x) ->
  mapM f l = Ok rs -> rs = map g l.
Proof.
  intros Hf H. apply mapM_Forall2 in H.
  induction H as [| x r l' rs' Hx _ IH]; [ reflexivity | ].
  cbn. now rewrite (Hf x r Hx), IH.
Qed.


(** A successful planning run returns the requests of the chunks in
    closed form, whatever the bounds. *)
Lemma request_dicts_inv_map W dataset query crs bounds bounds_crs count sortby
    pagesize rs :
  request_dicts W dataset query crs bounds bounds_crs count sortby pagesize
  = Ok rs ->
  exists table n sch chunks key,
    validate_name W dataset = Ok table /\
    get_count W table query = Ok n /\
    get_schema W ("pub:" ++ table)%string = Ok sch /\
    chunk_count (effective_count count n) pagesize = Ok chunks /\
    choose_sortby chunks sortby table sch = Ok key /\
    rs = map (chunk_request table crs (geometry_column sch) query bounds
                bounds_crs key (effective_count count n) pagesize chunks)
           (range chunks).
Proof.
  unfold request_dicts. intros H.
  destruct (validate_name W dataset) as [table |] eqn:Hv; [ | discriminate ].
  cbn [bind] in H.
  destruct (get_count W table query) as [n |] eqn:Hn; [ | discriminate ].
  cbn [bind] in H.
  destruct (get_schema W ("pub:" ++ table)%string) as [sch |] eqn:Hs;
    [ | discriminate ].
  cbn [bind] in H.
  destruct (chunk_count (effective_count count n) pagesize) as [chunks |] eqn:Hc;
    [ | discriminate ].
  cbn [bind] in H.
  destruct (choose_sortby chunks sortby table sch) as [key |] eqn:Hk;
    [ | discriminate ].
  cbn [bind] in H.
  exists table, n, sch, chunks, key.
  do 5 (split; [ first [ assumption | reflexivity ] | ]).
  revert H. apply mapM_inv_map. intros i r. apply build_request_inv.
Qed.

(** The window of a request depends on the count, the page size and the
    chunk alone. *)
Lemma chunk_request_window_any table crs geom_column query bounds bounds_crs
    sortby count pagesize chunks i :
  window (chunk_request table crs geom_column query bounds bounds_crs
            sortby count pagesize chunks i)
  = if chunks =? 1 then Some (0, count)
    else if 1 <? chunks then Some (chunk_window count pagesize i)
    else None.
Proof.
  destruct (chunks =? 1) eqn:E1.
  - apply Z.eqb_eq in E1. subst chunks. unfold window, start_index.
    destruct (single_request_page table crs geom_column query bounds
                bounds_crs sortby count pagesize i) as [-> ->].
    reflexivity.
  - destruct (1 <? chunks) eqn:E2.
    + apply chunk_request_window. now apply Z.ltb_lt.
    + unfold window, chunk_request, with_page. rewrite E1, E2.
      rewrite common_get. reflexivity.
Qed.

(** X1: the paging of a call is decided by the dataset, the filter, the
    count asked for and the page size: two successful calls that differ
    in bounds, CRS or sort key return the same number of requests with
    the same windows. The hits-only count is taken over the filter
    alone, bounds or not. *)
Theorem paging_ignores_bounds W dataset query count pagesize
    crs1 bounds1 bounds_crs1 sortby1 crs2 bounds2 bounds_crs2 sortby2
    rs1 rs2 :
  request_dicts W dataset query crs1 bounds1 bounds_crs1 count sortby1
    pagesize = Ok rs1 ->
  request_dicts W dataset query crs2 bounds2 bounds_crs2 count sortby2
    pagesize = Ok rs2 ->
  List.length rs1 = List.length rs2 /\ map window rs1 = map window rs2.
Proof.
  intros H1 H2.
  destruct (request_dicts_inv_map _ _ _ _ _ _ _ _ _ _ H1)
    as (t1 & n1 & s1 & c1 & k1 & Hv1 & Hn1 & _ & Hc1 & _ & ->).
  destruct (request_dicts_inv_map _ _ _ _ _ _ _ _ _ _ H2)
    as (t2 & n2 & s2 & c2 & k2 & Hv2 & Hn2 & _ & Hc2 & _ & ->).
  rewrite Hv1 in Hv2. injection Hv2 as <-.
  rewrite Hn1 in Hn2. injection Hn2 as <-.
  rewrite Hc1 in Hc2. injection Hc2 as <-.
  split; [ now rewrite !length_map | ].
  rewrite !map_map. apply map_ext. intros i.
  now rewrite !chunk_request_window_any.
Qed.

(** Two runs that satisfy the hypotheses of [paging_ignores_bounds]: the
    same call with and without bounds. *)
Lemma paging_ignores_bounds_witness :
  exists rs1 rs2,
    request_dicts (sample_world 25000 ["OBJECTID"]) sample_dataset None
      "epsg:4326" None "EPSG:3005" None None 10000 = Ok rs1 /\
    request_dicts (sample_world 25000 ["OBJECTID"]) sample_dataset None
      "epsg:3005" (Some ["1188000"; "377051"; "1207437"; "390361"])
      "EPSG:3005" None (Some "airport_name") 10000 = Ok rs2 /\
    List.length rs1 = 3%nat /\
    List.length rs1 = List.length rs2 /\ map window rs1 = map window rs2.
Proof.
  eexists. eexists.
  split; [ reflexivity | split; [ reflexivity | split; [ reflexivity | ] ] ].
  apply (paging_ignores_bounds (sample_world 25000 ["OBJECTID"])
           sample_dataset None None 10000
           "epsg:4326" None "EPSG:3005" None
           "epsg:3005" (Some ["1188000"; "377051"; "1207437"; "390361"])
           "EPSG:3005" (Some "airport_name")); reflexivity.
Defined.

Lemma count_of_chunk_request table crs geom_column query bounds bounds_crs
    sortby count pagesize chunks i :
  count_of (chunk_request table crs geom_column query bounds bounds_crs
              sortby count pagesize chunks i)
  = option_map snd
      (window (chunk_request table crs geom_column query bounds bounds_crs
                 sortby count pagesize chunks i)).
Proof.
  unfold count_of, window.
  destruct (dict_get "count" _) as [[s | c] |]; reflexivity.
Qed.

(** X2: when the effective count [e] satisfies [1 <= e < 2^53] and the
    page size [1 <= p < 2^1075], no request asks for more than a page:
    every request but the last has [count = p], and the last one has
    what is left, between 1 and [p]. *)
Theorem counts_within_page W dataset query crs bounds bounds_crs count sortby
    pagesize table n rs :
  validate_name W dataset = Ok table ->
  get_count W table query = Ok n ->
  request_dicts W dataset query crs bounds bounds_crs count sortby pagesize
  = Ok rs ->
  1 <= effective_count count n < 2 ^ 53 ->
  1 <= pagesize < 2 ^ 1075 ->
  (forall r, In r rs ->
     exists c, count_of r = Some c /\ 1 <= c <= pagesize) /\
  (forall i r, nth_error rs i = Some r -> (S i < List.length rs)%nat ->
     count_of r = Some pagesize) /\
  (forall r, nth_error rs (List.length rs - 1) = Some r ->
     count_of r
     = Some (effective_count count n
             - (Z.of_nat (List.length rs) - 1) * pagesize)).
Proof.
  intros Hv Hn H He Hp.
  destruct (request_dicts_inv_map _ _ _ _ _ _ _ _ _ _ H)
    as (table' & n' & sch & chunks & key & Hv' & Hn' & _ & Hc & _ & ->).
  rewrite Hv in Hv'. injection Hv' as <-.
  rewrite Hn in Hn'. injection Hn' as <-.
  set (e := effective_count count n) in *.
  rewrite (chunk_count_small e pagesize ltac:(lia) ltac:(lia)) in Hc.
  injection Hc as <-.
  pose proof (cdiv_bounds e pagesize ltac:(lia)) as Hd.
  set (chunks := cdiv e pagesize) in *.
  assert (H1 : 1 <= chunks) by nia.
  assert (W0 : forall i, 0 <= i < chunks ->
            count_of (chunk_request table crs (geometry_column sch) query
                        bounds bounds_crs key e pagesize chunks i)
            = Some (if i + 1 <? chunks then pagesize else e - i * pagesize)).
  { intros i Hi. rewrite count_of_chunk_request, chunk_request_window_any.
    destruct (chunks =? 1) eqn:E1.
    - apply Z.eqb_eq in E1. cbn [option_map snd].
      rewrite (proj2 (Z.ltb_ge (i + 1) chunks)) by lia.
      f_equal. nia.
    - apply Z.eqb_neq in E1. rewrite (proj2 (Z.ltb_lt 1 chunks)) by lia.
      unfold chunk_window. cbn [option_map snd].
      destruct (i + 1 <? chunks) eqn:E2;
        [ apply Z.ltb_lt in E2 | apply Z.ltb_ge in E2 ].
      + rewrite (proj2 (Z.ltb_ge e (i * pagesize + pagesize))) by nia.
        reflexivity.
      + assert (i = chunks - 1) by lia. subst i.
        destruct (e <? (chunks - 1) * pagesize + pagesize) eqn:E3;
          [ reflexivity | apply Z.ltb_ge in E3; f_equal; nia ]. }
  assert (L : Z.of_nat (List.length
                (map (chunk_request table crs (geometry_column sch) query
                        bounds bounds_crs key e pagesize chunks)
                   (range chunks))) = chunks)
    by (rewrite length_map, length_range; lia).
  assert (N : forall i r,
            nth_error (map (chunk_request table crs (geometry_column sch)
                              query bounds bounds_crs key e pagesize chunks)
                         (range chunks)) i = Some r ->
            0 <= Z.of_nat i < chunks /\
            r = chunk_request table crs (geometry_column sch) query bounds
                  bounds_crs key e pagesize chunks (Z.of_nat i)).
  { intros i r Hr. rewrite nth_error_map in Hr. unfold range in Hr.
    rewrite nth_error_map in Hr.
    destruct (nth_error (seq 0 (Z.to_nat chunks)) i) as [k |] eqn:Hk;
      [ | discriminate ].
    pose proof (nth_error_Some (seq 0 (Z.to_nat chunks)) i) as B.
    rewrite Hk, length_seq in B.
    assert (i < Z.to_nat chunks)%nat by (apply B; discriminate).
    rewrite nth_error_nth' with (d := 0%nat) in Hk by (now rewrite length_seq).
    rewrite seq_nth in Hk by assumption. injection Hk as <-.
    cbn in Hr. injection Hr as <-. split; [ lia | reflexivity ]. }
  split; [ | split ].
  - intros r Hr. apply in_map_iff in Hr. destruct Hr as (i & <- & Hi).
    apply In_range in Hi. rewrite (W0 i Hi). eexists. split; [ reflexivity | ].
    destruct (i + 1 <? chunks) eqn:E2;
      [ lia | apply Z.ltb_ge in E2; nia ].
  - intros i r Hr Hi. destruct (N i r Hr) as (Hb & ->). rewrite (W0 _ Hb).
    rewrite (proj2 (Z.ltb_lt (Z.of_nat i + 1) chunks)) by lia. reflexivity.
  - intros r Hr. destruct (N _ r Hr) as (Hb & ->). rewrite (W0 _ Hb).
    rewrite (proj2 (Z.ltb_ge _ chunks)) by lia. f_equal. nia.
Qed.

(** A run that satisfies the hypotheses of [counts_within_page]: 25000
    features in pages of 10000, the last page of 5000. *)
Lemma counts_within_page_witness :
  exists rs,
    request_dicts (sample_world 25000 ["OBJECTID"]) sample_dataset None
      "epsg:4326" None "EPSG:3005" None None 10000 = Ok rs /\
    List.length rs = 3%nat /\
    (forall r, In r rs -> exists c, count_of r = Some c /\ 1 <= c <= 10000) /\
    (forall r, nth_error rs 2 = Some r -> count_of r = Some 5000).
Proof.
  assert (E : exists rs,
            request_dicts (sample_world 25000 ["OBJECTID"]) sample_dataset
              None "epsg:4326" None "EPSG:3005" None None 10000 = Ok rs /\
            List.length rs = 3%nat)
    by (eexists; split; vm_compute; reflexivity).
  destruct E as (rs & E & L). exists rs.
  destruct (counts_within_page (sample_world 25000 ["OBJECTID"])
              sample_dataset None "epsg:4326" None "EPSG:3005" None None
              10000 (upper sample_dataset) 25000 rs eq_refl eq_refl E)
    as (A & _ & C).
  - cbn [effective_count]. split; [ lia | reflexivity ].
  - split; [ lia | reflexivity ].
  - split; [ exact E | split; [ exact L | split; [ exact A | ] ] ].
    rewrite L in C. exact C.
Defined.

(** X3: when the service reports no matching feature, and the count
    asked for is absent or not negative, no request is planned,
    whatever the page size (other than 0), the bounds (unpacked or not),
    the sort key and the schema. *)
Theorem no_feature_no_request W dataset query crs bounds bounds_crs count
    sortby pagesize table sch :
  validate_name W dataset = Ok table ->
  get_count W table query = Ok 0 ->
  get_schema W ("pub:" ++ table)%string = Ok sch ->
  match count with
  | Some c => 0 <= c
  | None => True
  end ->
  pagesize <> 0 ->
  request_dicts W dataset query crs bounds bounds_crs count sortby pagesize
  = Ok [] /\
  define_requests W dataset query crs bounds bounds_crs count sortby pagesize
  = Ok [].
Proof.
  intros Hv Hn Hs Hc Hp.
  assert (E : effective_count count 0 = 0).
  { destruct count as [c |]; [ | reflexivity ].
    unfold effective_count, truthy_int.
    destruct (c =? 0) eqn:E0; cbn [negb orb]; [ reflexivity | ].
    apply Z.eqb_neq in E0. now rewrite (proj2 (Z.ltb_lt 0 c)) by lia. }
  assert (R : request_dicts W dataset query crs bounds bounds_crs count sortby
                pagesize = Ok []).
  { unfold request_dicts. rewrite Hv. cbn [bind]. rewrite Hn. cbn [bind].
    rewrite Hs. cbn [bind]. rewrite E. unfold chunk_count, truediv.
    rewrite (proj2 (Z.eqb_neq pagesize 0) Hp). reflexivity. }
  split; [ exact R | ]. unfold define_requests. now rewrite R.
Qed.

(** A run that satisfies the hypotheses of [no_feature_no_request]: an
    empty result, with bounds of the wrong length. *)
Lemma no_feature_no_request_witness :
  define_requests (sample_world 0 []) sample_dataset (Some "NAME = 'x'")
    "epsg:4326" (Some ["0"; "1"]) "EPSG:3005" (Some 10) None 10000 = Ok [].
Proof.
  apply (no_feature_no_request (sample_world 0 []) sample_dataset
           (Some "NAME = 'x'") "epsg:4326" (Some ["0"; "1"]) "EPSG:3005"
           (Some 10) None 10000 (upper sample_dataset)
           (mkSchema [] "SHAPE") eq_refl eq_refl eq_refl).
  - cbn. lia.
  - discriminate.
Defined.

(** X4: a page size of 0 ends the call in [ZeroDivisionError], after the
    name was validated and the count and the schema were fetched, also
    when there is no feature at all. *)
Theorem zero_pagesize_raises W dataset query crs bounds bounds_crs count
    sortby table n sch :
  validate_name W dataset = Ok table ->
  get_count W table query = Ok n ->
  get_schema W ("pub:" ++ table)%string = Ok sch ->
  define_requests W dataset query crs bounds bounds_crs count sortby 0
  = Raise ZeroDivisionError.
Proof.
  intros Hv Hn Hs. unfold define_requests, request_dicts.
  rewrite Hv. cbn [bind]. rewrite Hn. cbn [bind]. rewrite Hs. reflexivity.
Qed.

Lemma zero_pagesize_raises_witness :
  define_requests (sample_world 455 ["OBJECTID"]) sample_dataset None
    "epsg:4326" None "EPSG:3005" None None 0 = Raise ZeroDivisionError.
Proof.
  exact (zero_pagesize_raises (sample_world 455 ["OBJECTID"]) sample_dataset
           None "epsg:4326" None "EPSG:3005" None None
           (upper sample_dataset) 455 (mkSchema [("OBJECTID", "xsd:string")] "SHAPE")
           eq_refl eq_refl eq_refl).
Defined.





(** X6: a sort key that the caller supplies is sent in upper case with
    every request, one chunk or many, and is never replaced by a column
    of the schema; without one, a run of a single chunk sends no
    [sortby] at all. *)
Theorem supplied_sortby_kept W dataset query crs bounds bounds_crs count
    sortby pagesize rs r :
  request_dicts W dataset query crs bounds bounds_crs count sortby pagesize
  = Ok rs ->
  In r rs ->
  (forall s, sortby = Some s -> truthy_str sortby = true ->
   dict_get "sortby" r = Some (VStr (upper s))) /\
  (truthy_str sortby = false -> List.length rs = 1%nat ->
   dict_get "sortby" r = None).
Proof.
  intros H Hr.
  destruct (request_dicts_inv_map _ _ _ _ _ _ _ _ _ _ H)
    as (table & n & sch & chunks & key & _ & _ & _ & _ & Hk & ->).
  apply in_map_iff in Hr. destruct Hr as (i & <- & Hi).
  rewrite chunk_request_get by discriminate.
  rewrite common_get. cbn [String.eqb Ascii.eqb Bool.eqb andb].
  unfold choose_sortby in Hk. split.
  - intros s -> Hs. rewrite Hs, andb_false_r in Hk. injection Hk as <-.
    now rewrite Hs.
  - intros Hs L. rewrite length_map in L.
    assert (chunks = 1).
    { pose proof (length_range chunks) as Lr. rewrite L in Lr. lia. }
    subst chunks. cbn [Z.ltb Z.compare Pos.compare andb] in Hk.
    injection Hk as <-. destruct sortby as [s |]; [ | reflexivity ].
    now rewrite Hs.
Qed.

(** A run that satisfies the hypotheses of [supplied_sortby_kept]: one
    chunk, a sort key in lower case. *)
Lemma supplied_sortby_kept_witness :
  exists r,
    request_dicts (sample_world 455 ["OBJECTID"]) sample_dataset None
      "epsg:4326" None "EPSG:3005" None (Some "airport_name") 10000 = Ok [r] /\
    dict_get "sortby" r = Some (VStr "AIRPORT_NAME").
Proof.
  eexists. split; [ reflexivity | ].
  exact (proj1 (supplied_sortby_kept (sample_world 455 ["OBJECTID"])
                  sample_dataset None "epsg:4326" None "EPSG:3005" None
                  (Some "airport_name") 10000 _ _ eq_refl (or_introl eq_refl))
           "airport_name" eq_refl eq_refl).
Defined.

Lemma string_forallb_app p s1 s2 :
  string_forallb p (s1 ++ s2)
  = string_forallb p s1 && string_forallb p s2.
Proof.
  induction s1 as [| c s1 IH]; cbn; [ reflexivity | ].
  now rewrite IH, andb_assoc.
Qed.

Lemma hex_digit_unreserved n : Urllib.unreserved (Urllib.hex_digit n) = true.
Proof.
  unfold Urllib.hex_digit.
  do 16 (destruct n as [| n]; [ reflexivity | ]).
  cbn. destruct n; reflexivity.
Qed.

Lemma quote_plus_chars s :
  string_forallb query_char (Urllib.quote_plus s) = true.
Proof.
  induction s as [| c s IH]; [ reflexivity | ].
  cbn [Urllib.quote_plus].
  destruct (Urllib.unreserved c) eqn:U.
  - cbn [string_forallb]. rewrite IH. unfold query_char. now rewrite U.
  - destruct (Ascii.eqb c " "); cbn [string_forallb]; rewrite IH.
    + reflexivity.
    + unfold query_char at 2 3. rewrite !hex_digit_unreserved. reflexivity.
Qed.

Lemma urlencode_chars d :
  string_forallb query_char (Urllib.urlencode d) = true.
Proof.
  unfold Urllib.urlencode.
  induction d as [| [k v] d IH]; [ reflexivity | ].
  assert (P : string_forallb query_char
                (Urllib.quote_plus k ++ "=" ++ Urllib.quote_value v) = true).
  { rewrite !string_forallb_app, quote_plus_chars. cbn.
    destruct v; apply quote_plus_chars. }
  cbn [map fst snd]. destruct (map _ d) as [| x l].
  - exact P.
  - change (String.concat "&"
              ((Urllib.quote_plus k ++ "=" ++ Urllib.quote_value v)%string
               :: x :: l))
      with ((Urllib.quote_plus k ++ "=" ++ Urllib.quote_value v)
            ++ "&" ++ String.concat "&" (x :: l))%string.
    rewrite string_forallb_app, P, string_forallb_app, IH. reflexivity.
Qed.

(** X7: every URL returned is the service address, a [?], and a query
    string made of letters, digits, [_.-~] and the characters [+ % & =]
    only: whatever the filter, the bounds or the names hold, no space,
    quote or bracket reaches the URL unescaped. *)
Theorem urls_are_encoded W dataset query crs bounds bounds_crs count sortby
    pagesize urls url :
  define_requests W dataset query crs bounds bounds_crs count sortby pagesize
  = Ok urls ->
  In url urls ->
  exists q,
    url = (WFS_URL ++ "?" ++ q)%string /\
    string_forallb query_char q = true.
Proof.
  unfold define_requests. intros H Hu.
  destruct (request_dicts W dataset query crs bounds bounds_crs count sortby
              pagesize) as [rs |]; [ | discriminate ].
  cbn [bind] in H. injection H as <-.
  apply in_map_iff in Hu. destruct Hu as (r & <- & _).
  exists (Urllib.urlencode r). split; [ reflexivity | apply urlencode_chars ].
Qed.

(** A run that satisfies the hypotheses of [urls_are_encoded]: a filter
    with spaces, quotes and brackets. *)
Lemma urls_are_encoded_witness :
  exists q,
    ("https://openmaps.gov.bc.ca/geo/pub/wfs?service=WFS&version=2.0.0&request=GetFeature&typeName=WHSE_IMAGERY_AND_BASE_MAPS.GSR_AIRPORTS_SVW&outputFormat=json&SRSNAME=epsg%3A4326&CQL_FILTER=AIRPORT_NAME%3D%27Terrace+%28Northwest+Regional%29+Airport%27&count=455"
     = WFS_URL ++ "?" ++ q)%string /\
    string_forallb query_char q = true.
Proof.
  apply (urls_are_encoded (sample_world 455 ["OBJECTID"]) sample_dataset
           (Some "AIRPORT_NAME='Terrace (Northwest Regional) Airport'")
           "epsg:4326" None "EPSG:3005" None None 10000 _ _ eq_refl).
  now left.
Defined.

Lemma upper_ascii_idem c : upper_ascii (upper_ascii c) = upper_ascii c.
Proof.
  destruct c as [[] [] [] [] [] [] [] []]; reflexivity.
Qed.

Lemma upper_idem s : upper (upper s) = upper s.
Proof.
  induction s as [| c s IH]; [ reflexivity | ].
  cbn. now rewrite upper_ascii_idem, IH.
Qed.

(** X19: a name that is in the table listing, whatever its case, is
    validated to its upper-case form, and validating the result again
    returns it unchanged: the repeated validations of [define_requests],
    [get_count] and [bc2pg] all see the same table. *)
Theorem validate_name_stable W dataset :
  In (upper dataset) (list_tables W) ->
  validate_name W dataset = Ok (upper dataset) /\
  validate_name W (upper dataset) = Ok (upper dataset) /\
  forall other, upper other = upper dataset ->
    validate_name W other = Ok (upper dataset).
Proof.
  intros H. apply existsb_eqb_In in H.
  assert (V : forall d, upper d = upper dataset ->
            validate_name W d = Ok (upper dataset)).
  { intros d Hd. unfold validate_name. now rewrite Hd, H. }
  split; [ now apply V | split; [ apply V, upper_idem | exact V ] ].
Qed.

(** A name that satisfies the hypothesis of [validate_name_stable]. *)
Lemma validate_name_stable_witness :
  validate_name (sample_world 455 ["OBJECTID"]) sample_dataset
  = Ok "WHSE_IMAGERY_AND_BASE_MAPS.GSR_AIRPORTS_SVW" /\
  validate_name (sample_world 455 ["OBJECTID"])
    "WHSE_IMAGERY_AND_BASE_MAPS.GSR_AIRPORTS_SVW"
  = Ok "WHSE_IMAGERY_AND_BASE_MAPS.GSR_AIRPORTS_SVW".
Proof.
  destruct (validate_name_stable (sample_world 455 ["OBJECTID"])
              sample_dataset (or_introl eq_refl)) as (A & B & _).
  split; [ exact A | exact B ].
Defined.

(** X20: a reply to the hits-only request whose status is not a client
    or server error (below 400, or 600 and above) is never treated as a
    failure: [get_count] is then what reading [numberMatched] off the
    body gives, the number or the exception of the parse as it is. *)
Theorem get_count_reads_body W dataset query table r :
  validate_name W dataset = Ok table ->
  requests_get W WFS_URL (hits_payload table query) = Ok r ->
  status_code r < 400 \/ 600 <= status_code r ->
  get_count W dataset query = numberMatched r.
Proof.
  intros Hv Hr Hs. unfold get_count. rewrite Hv. cbn [bind]. cbv zeta.
  rewrite Hr. cbn [bind]. unfold raise_for_status.
  assert (E : (400 <=? status_code r) && (status_code r <? 600) = false).
  { apply andb_false_iff. destruct Hs as [Hs | Hs];
      [ left; now apply Z.leb_gt | right; now apply Z.ltb_ge ]. }
  rewrite E. cbn [bind]. now destruct (numberMatched r).
Qed.

(** Two replies that satisfy the hypotheses of [get_count_reads_body]: a
    count, and a redirect whose body cannot be parsed. *)
Lemma get_count_reads_body_witness :
  get_count (sample_world 455 ["OBJECTID"]) sample_dataset None = Ok 455 /\
  get_count (status_world 304) sample_dataset None = Raise ParseError.
Proof.
  split.
  - apply (get_count_reads_body (sample_world 455 ["OBJECTID"]) sample_dataset
             None (upper sample_dataset) (mkResponse 200 (Ok 455))
             eq_refl eq_refl).
    cbn [status_code]. lia.
  - apply (get_count_reads_body (status_world 304) sample_dataset
             None (upper sample_dataset) (mkResponse 304 (Raise ParseError))
             eq_refl eq_refl).
    cbn [status_code]. lia.
Defined.

(** ** More on the load orchestrator *)

Section Avoids.

Context {Num : Type} (bad : event Num -> bool).

Lemma avoids_ret {A} (a : A) : avoids bad (ret Num a).
Proof. intros t. exists []. now rewrite app_nil_r. Qed.

Lemma avoids_throw {A} e : avoids bad (@throw Num A e).
Proof. intros t. exists []. now rewrite app_nil_r. Qed.

Lemma avoids_lift {A} (r : result A) : avoids bad (lift Num r).
Proof. intros t. exists []. now rewrite app_nil_r. Qed.

Lemma avoids_call {A} e (r : result A) :
  bad e = false -> avoids bad (call Num e r).
Proof. intros H t. exists [e]. cbn. now rewrite H. Qed.

Lemma avoids_bind {A B} (m : io Num A) (k : A -> io Num B) :
  avoids bad m -> (forall a, avoids bad (k a)) -> avoids bad (bind_io Num m k).
Proof.
  intros Hm Hk t. unfold bind_io. destruct (Hm t) as (l & E & F).
  destruct (m t) as [[a | e] t']; cbn [snd] in E; subst t'.
  - destruct (Hk a (t ++ l)%list) as (l' & E' & F').
    exists (l ++ l')%list. rewrite E', app_assoc. split; [ reflexivity | ].
    now rewrite forallb_app, F, F'.
  - now exists l.
Qed.

End Avoids.

Ltac avoids_tac :=
  repeat first
    [ apply avoids_ret
    | apply avoids_throw
    | apply avoids_lift
    | apply avoids_call; reflexivity
    | apply avoids_bind; [ | intros ? ]
    | match goal with
      | |- avoids _ (if ?b then _ else _) => destruct b
      | |- avoids _ (match ?x with _ => _ end) => destruct x
      | |- avoids _ (let e := _ in _) => cbv zeta
      end ].

Lemma avoids_prepare_append {Num} (bad : event Num -> bool) E s t :
  (forall e, is_listing e = true -> bad e = false) ->
  avoids bad (prepare_append E s t).
Proof.
  intros H. unfold prepare_append.
  apply avoids_bind; [ apply avoids_call, H; reflexivity | intros tables ].
  destruct (negb _); [ apply avoids_throw | ].
  apply avoids_bind; [ apply avoids_call, H; reflexivity | intros cols ].
  apply avoids_ret.
Qed.

Lemma avoids_resolve_geometry_type {Num} (bad : event Num -> bool) E urls g :
  (forall e, is_download e = true -> bad e = false) ->
  avoids bad (resolve_geometry_type E urls g).
Proof.
  intros H. unfold resolve_geometry_type.
  repeat first
    [ apply avoids_ret | apply avoids_throw | apply avoids_lift
    | apply avoids_call, H; reflexivity
    | apply avoids_bind; [ | intros ? ]
    | match goal with
      | |- avoids _ (if ?b then _ else _) => destruct b
      | |- avoids _ (match ?x with _ => _ end) => destruct x
      end ].
Qed.

Lemma avoids_prepare_create {Num} (bad : event Num -> bool) E dataset urls
    s t g pk append :
  (forall e, is_download e = true -> bad e = false) ->
  (forall e, is_provision e = true -> bad e = false) ->
  avoids bad (prepare_create E dataset urls s t g pk append).
Proof.
  intros Hd Hp. unfold prepare_create.
  apply avoids_bind; [ apply avoids_call, Hp; reflexivity | intros td ].
  apply avoids_bind; [ destruct (td_schema td); avoids_tac | intros _ ].
  apply avoids_bind; [ now apply avoids_resolve_geometry_type | intros r ].
  cbv zeta.
  apply avoids_bind;
    [ destruct pk; [ destruct (_ && _) | ]; avoids_tac | intros _ ].
  apply avoids_bind; [ apply avoids_call, Hp; reflexivity | intros cols ].
  apply avoids_ret.
Qed.

Lemma avoids_load {Num} (bad : event Num -> bool) E s t cols urls df :
  (forall e, is_download e = true -> bad e = false) ->
  (forall e, is_write e = true -> bad e = false) ->
  avoids bad (load Num E s t cols urls df).
Proof.
  intros Hd Hw. revert df. induction urls as [| url urls IH]; intros df.
  - apply avoids_ret.
  - cbn [load].
    apply avoids_bind;
      [ destruct df; [ apply avoids_ret | apply avoids_call, Hd; reflexivity ]
      | intros d ].
    apply avoids_bind; [ apply avoids_lift | intros d' ]. cbv zeta.
    apply avoids_bind; [ apply avoids_call, Hw; reflexivity | intros _ ].
    apply avoids_bind; [ apply avoids_call, Hw; reflexivity | intros _ ].
    apply IH.
Qed.

(** Which calls a run can make, by mode and options. *)
Lemma avoids_bc2pg {Num} (bad : event Num -> bool) E dataset db_url table
    schema geometry_type query count sortby primary_key timestamp schema_only
    append :
  (forall u, bad (Connect u) = false) ->
  (forall d, bad (PlanRequests d) = false) ->
  (append = true -> forall e, is_listing e = true -> bad e = false) ->
  (append = false -> forall e, is_provision e = true -> bad e = false) ->
  (append = false -> forall e, is_download e = true -> bad e = false) ->
  (schema_only = false ->
   forall s tn cols urls df, avoids bad (load Num E s tn cols urls df)) ->
  (schema_only = false -> timestamp = true ->
   forall e, is_log e = true -> bad e = false) ->
  avoids bad (bc2pg E dataset db_url table schema geometry_type query count
                sortby primary_key timestamp schema_only append).
Proof.
  intros Hc Hp Hl Hv Hd Hw Hg. unfold bc2pg.
  apply avoids_bind; [ apply avoids_lift | intros name ].
  apply avoids_bind; [ apply avoids_lift | intros names ]. cbv zeta.
  apply avoids_bind; [ apply avoids_call, Hc | intros _ ].
  apply avoids_bind; [ apply avoids_call, Hp | intros urls ].
  apply avoids_bind.
  { destruct append.
    - apply avoids_prepare_append. now apply Hl.
    - apply avoids_prepare_create; [ now apply Hd | now apply Hv ]. }
  intros prepared.
  apply avoids_bind;
    [ destruct sortby; [ destruct (_ && _) | ]; avoids_tac | intros _ ].
  apply avoids_bind; [ | intros _; apply avoids_ret ].
  destruct schema_only; cbn [negb]; [ apply avoids_ret | ].
  apply avoids_bind; [ now apply Hw | ].
  intros _. destruct timestamp; [ | apply avoids_ret ].
  apply avoids_bind;
    [ apply avoids_call, Hg; reflexivity
    | intros _; apply avoids_call, Hg; reflexivity ].
Qed.

Lemma avoids_trace {Num A} (bad : event Num -> bool) (m : io Num A) e :
  avoids bad m -> In e (snd (m [])) -> bad e = false.
Proof.
  intros H Hin. destruct (H []) as (l & E & F). rewrite E in Hin.
  cbn [app] in Hin. rewrite forallb_forall in F.
  specialize (F e Hin). now destruct (bad e).
Qed.

(** X8: the two modes keep to their own collaborators. An append-mode
    run never asks the catalogue for the table definition and never
    defines a table; a create-mode run never lists the tables of the
    database nor reads the columns of one. This holds for every run,
    whatever its outcome. *)
Theorem bc2pg_modes_apart {Num} (E : Env Num) dataset db_url table schema
    geometry_type query count sortby primary_key timestamp schema_only e :
  (In e (snd (bc2pg E dataset db_url table schema geometry_type query count
                sortby primary_key timestamp schema_only true [])) ->
   is_provision e = false) /\
  (In e (snd (bc2pg E dataset db_url table schema geometry_type query count
                sortby primary_key timestamp schema_only false [])) ->
   is_listing e = false).
Proof.
  split; apply avoids_trace; apply avoids_bc2pg;
    try discriminate; try reflexivity;
    intros; try apply avoids_load; intros;
    match goal with
    | x : event Num |- _ => destruct x; try discriminate; reflexivity
    end.
Qed.

(** X9: a run with [schema_only] set writes no row and no log entry,
    whatever its mode and outcome; a run with [timestamp] unset writes
    no log entry; and an append-mode run with [schema_only] set
    downloads no page. *)
Theorem bc2pg_schema_only {Num} (E : Env Num) dataset db_url table schema
    geometry_type query count sortby primary_key timestamp schema_only
    append e :
  (In e (snd (bc2pg E dataset db_url table schema geometry_type query count
                sortby primary_key timestamp true append [])) ->
   is_write e = false /\ is_log e = false) /\
  (In e (snd (bc2pg E dataset db_url table schema geometry_type query count
                sortby primary_key false schema_only append [])) ->
   is_log e = false) /\
  (In e (snd (bc2pg E dataset db_url table schema geometry_type query count
                sortby primary_key timestamp true true [])) ->
   is_download e = false).
Proof.
  split; [ | split ].
  - intros H.
    apply (avoids_trace (fun x => is_write x || is_log x)) in H.
    + now apply orb_false_iff in H.
    + apply avoids_bc2pg; try discriminate; try reflexivity;
        intros; match goal with
                | x : event Num |- _ => destruct x; try discriminate; reflexivity
                end.
  - apply avoids_trace. apply avoids_bc2pg; try discriminate; try reflexivity;
      intros; try apply avoids_load; intros;
      match goal with
      | x : event Num |- _ => destruct x; try discriminate; reflexivity
      end.
  - apply avoids_trace. apply avoids_bc2pg; try discriminate; try reflexivity;
      intros; match goal with
              | x : event Num |- _ => destruct x; try discriminate; reflexivity
              end.
Qed.

(** A run whose name resolves, whose connection opens and whose requests
    are planned is the preparation of the target followed by the rest. *)
Lemma bc2pg_prefix {Num} (E : Env Num) dataset db_url table schema
    geometry_type query count sortby primary_key timestamp schema_only append
    name schema_name table_name u urls :
  Wfs.validate_name (wfs E) dataset = Ok name ->
  split "."%char (lower name) = [schema_name; table_name] ->
  connect E db_url = Ok u ->
  Wfs.define_requests (wfs E) name query "epsg:3005" None "EPSG:3005" count
    sortby 10000 = Ok urls ->
  bc2pg E dataset db_url table schema geometry_type query count sortby
    primary_key timestamp schema_only append []
  = bind_io Num
      (prepare E name urls (target_name schema_name schema)
         (target_name table_name table) geometry_type primary_key append)
      (after_prepare E name (target_name schema_name schema)
         (target_name table_name table) urls sortby timestamp schema_only)
      [Connect db_url; PlanRequests name].
Proof.
  intros Hv Hs Hc Hd.
  unfold bc2pg, bind_io at 1 2 3 4, lift, call at 1 2.
  rewrite Hv, Hs. cbn [fst snd app]. rewrite Hc, Hd. reflexivity.
Qed.

(** X10: in create mode, a catalogue entry without schema details ends
    the run in [ValueError] right after the catalogue is asked: no page
    is downloaded and no table is defined. *)
Theorem bc2pg_no_schema {Num} (E : Env Num) dataset db_url table schema
    geometry_type query count sortby primary_key timestamp schema_only
    name schema_name table_name u urls td :
  Wfs.validate_name (wfs E) dataset = Ok name ->
  split "."%char (lower name) = [schema_name; table_name] ->
  connect E db_url = Ok u ->
  Wfs.define_requests (wfs E) name query "epsg:3005" None "EPSG:3005" count
    sortby 10000 = Ok urls ->
  get_table_definition Num E name = Ok td ->
  td_schema td = [] ->
  bc2pg E dataset db_url table schema geometry_type query count sortby
    primary_key timestamp schema_only false []
  = (Raise (ValueError
              "Cannot create table, schema details not found via bcdc api"),
     [Connect db_url; PlanRequests name; GetTableDefinition name]).
Proof.
  intros Hv Hs Hc Hd Ht He.
  rewrite (bc2pg_prefix E _ _ _ _ _ _ _ _ _ _ _ _ _ _ _ _ _ Hv Hs Hc Hd).
  unfold prepare, prepare_create, bind_io at 1 2 3, call at 1.
  rewrite Ht, He. reflexivity.
Qed.

(** A run that satisfies the hypotheses of [bc2pg_no_schema]. *)
Lemma bc2pg_no_schema_witness :
  bc2pg no_schema_env sample_dataset "postgresql://localhost:5432/postgis" None None None None
    None None None true false false []
  = (Raise (ValueError
              "Cannot create table, schema details not found via bcdc api"),
     [Connect "postgresql://localhost:5432/postgis";
      PlanRequests (upper sample_dataset);
      GetTableDefinition (upper sample_dataset)]).
Proof.
  exact (bc2pg_no_schema no_schema_env sample_dataset
           "postgresql://localhost:5432/postgis" None None None None None None
           None true false (upper sample_dataset)
           "whse_imagery_and_base_maps" "gsr_airports_svw" tt _
           (mkTableDefinition [] "")
           eq_refl eq_refl eq_refl eq_refl eq_refl eq_refl).
Defined.

(** X11: in create mode, a primary key that is not a column of the
    catalogue schema (compared in upper case) ends the run in
    [ValueError] once the geometry type is settled, probe included, and
    before any table is defined. *)
Theorem bc2pg_primary_key_unknown {Num} (E : Env Num) dataset db_url table
    schema geometry_type query count sortby pk timestamp schema_only
    name schema_name table_name u urls td df g t1 :
  Wfs.validate_name (wfs E) dataset = Ok name ->
  split "."%char (lower name) = [schema_name; table_name] ->
  connect E db_url = Ok u ->
  Wfs.define_requests (wfs E) name query "epsg:3005" None "EPSG:3005" count
    sortby 10000 = Ok urls ->
  get_table_definition Num E name = Ok td ->
  td_schema td <> [] ->
  resolve_geometry_type E urls geometry_type
    [Connect db_url; PlanRequests name; GetTableDefinition name]
  = (Ok (df, g), t1) ->
  pk <> "" ->
  existsb (String.eqb (upper pk))
    (map (fun c => upper (column_name c)) (td_schema td)) = false ->
  bc2pg E dataset db_url table schema geometry_type query count sortby
    (Some pk) timestamp schema_only false []
  = (Raise (ValueError
              "Column {primary_key} specified as primary_key does not exist in source"),
     t1) /\
  forall e, In e t1 -> is_write e = false /\
                       match e with
                       | DefineTable _ _ _ => False
                       | _ => True
                       end.
Proof.
  intros Hv Hs Hc Hd Ht He Hr Hpk Hin.
  rewrite (bc2pg_prefix E _ _ _ _ _ _ _ _ _ _ _ _ _ _ _ _ _ Hv Hs Hc Hd).
  split.
  - unfold prepare, prepare_create, bind_io at 1 2 3, call at 1.
    rewrite Ht. cbn [app].
    destruct (td_schema td) as [| c cs] eqn:Etd; [ contradiction | ].
    unfold ret at 1. unfold bind_io at 1. rewrite Hr. cbn [fst snd].
    unfold bind_io at 1. rewrite Hin.
    destruct pk as [| a pk]; [ contradiction | reflexivity ].
  - intros e Hine.
    destruct (avoids_resolve_geometry_type
                (fun x => negb (is_download x)) E urls geometry_type
                ltac:(intros x Hx; cbv beta; now rewrite Hx)
                [Connect db_url; PlanRequests name; GetTableDefinition name])
      as (l & El & Fl).
    rewrite Hr in El. cbn [snd] in El. subst t1.
    rewrite forallb_forall in Fl.
    apply in_app_or in Hine. destruct Hine as [Hine | Hine].
    + destruct Hine as [<- | [<- | [<- | []]]]; split; (reflexivity || exact I).
    + specialize (Fl e Hine). destruct e; try discriminate Fl.
      split; [ reflexivity | exact I ].
Qed.

(** A run that satisfies the hypotheses of [bc2pg_primary_key_unknown]:
    the type is probed on the first page, the key is not a column. *)
Lemma bc2pg_primary_key_unknown_witness :
  bc2pg (sample_env 2 [] (fun _ => mixed_page)) sample_dataset
    "postgresql://localhost:5432/postgis" None None None None None None
    (Some "airport_id") true false false []
  = (Raise (ValueError
              "Column {primary_key} specified as primary_key does not exist in source"),
     [Connect "postgresql://localhost:5432/postgis";
      PlanRequests (upper sample_dataset);
      GetTableDefinition (upper sample_dataset);
      MakeRequests
        "https://openmaps.gov.bc.ca/geo/pub/wfs?service=WFS&version=2.0.0&request=GetFeature&typeName=WHSE_IMAGERY_AND_BASE_MAPS.GSR_AIRPORTS_SVW&outputFormat=json&SRSNAME=epsg%3A3005&count=2"]).
Proof.
  apply (bc2pg_primary_key_unknown (sample_env 2 [] (fun _ => mixed_page))
           sample_dataset "postgresql://localhost:5432/postgis" None None None
           None None None "airport_id" true false (upper sample_dataset)
           "whse_imagery_and_base_maps" "gsr_airports_svw" tt _
           (mkTableDefinition [mkColumn "OBJECTID" "NUMBER"] "")
           (Some mixed_page) "POINT" _
           eq_refl eq_refl eq_refl eq_refl eq_refl).
  - discriminate.
  - reflexivity.
  - discriminate.
  - reflexivity.
Defined.

Lemma bind_io_ok {Num A B} (m : io Num A) (k : A -> io Num B) t b t1 :
  bind_io Num m k t = (Ok b, t1) ->
  exists a t', m t = (Ok a, t') /\ k a t' = (Ok b, t1).
Proof.
  unfold bind_io. destruct (m t) as [[a | e] t']; [ | discriminate ].
  intros H. now exists a, t'.
Qed.

(** A create-mode preparation that succeeds ends with the definition of
    the table. *)
Lemma prepare_create_ok {Num} (E : Env Num) dataset urls s tn g pk append
    t p t1 :
  prepare_create E dataset urls s tn g pk append t = (Ok p, t1) ->
  exists g' t', t1 = (t' ++ [DefineTable s tn g'])%list.
Proof.
  unfold prepare_create. intros H.
  apply bind_io_ok in H. destruct H as (td & ta & _ & H).
  apply bind_io_ok in H. destruct H as (_ & tb & _ & H).
  apply bind_io_ok in H. destruct H as (r & tc & _ & H). cbv zeta in H.
  apply bind_io_ok in H. destruct H as (_ & td' & _ & H).
  apply bind_io_ok in H. destruct H as (cols & te & Hc & H).
  unfold call in Hc. injection Hc as _ <-.
  unfold ret in H. injection H as _ <-. now eexists _, _.
Qed.

Lemma prepare_append_ok {Num} (E : Env Num) s tn t p t1 :
  prepare_append E s tn t = (Ok p, t1) ->
  t1 = (t ++ [ListTables; GetColumns s tn])%list /\
  p = (None, db_get_columns Num E s tn) /\
  existsb (String.eqb (s ++ "." ++ tn)%string) (db_tables E) = true.
Proof.
  unfold prepare_append, bind_io, call.
  destruct (existsb _ (db_tables E)); cbn [negb]; [ | discriminate ].
  unfold ret. intros [= <- <-]. now rewrite <- app_assoc.
Qed.

(** X12: a sort column that is not among the columns of the target
    (compared in lower case) ends the run in [ValueError] right after
    the target is prepared: nothing is loaded or logged. In append mode
    only the tables and the columns have been read by then; in create
    mode the table has already been defined, and is left empty. *)
Theorem bc2pg_sortby_unknown {Num} (E : Env Num) dataset db_url table schema
    geometry_type query count s primary_key timestamp schema_only append
    name schema_name table_name u urls prepared t1 :
  Wfs.validate_name (wfs E) dataset = Ok name ->
  split "."%char (lower name) = [schema_name; table_name] ->
  connect E db_url = Ok u ->
  Wfs.define_requests (wfs E) name query "epsg:3005" None "EPSG:3005" count
    (Some s) 10000 = Ok urls ->
  prepare E name urls (target_name schema_name schema)
    (target_name table_name table) geometry_type primary_key append
    [Connect db_url; PlanRequests name] = (Ok prepared, t1) ->
  s <> "" ->
  existsb (String.eqb (lower s)) (snd prepared) = false ->
  bc2pg E dataset db_url table schema geometry_type query count (Some s)
    primary_key timestamp schema_only append []
  = (Raise (ValueError ("Specified sortby column " ++ s
                        ++ " is not present in " ++ name)%string), t1) /\
  (append = true ->
   t1 = [Connect db_url; PlanRequests name; ListTables;
         GetColumns (target_name schema_name schema)
           (target_name table_name table)]) /\
  (append = false ->
   exists g t', t1 = (t' ++ [DefineTable (target_name schema_name schema)
                               (target_name table_name table) g])%list).
Proof.
  intros Hv Hs Hc Hd Hp Hne Hin.
  rewrite (bc2pg_prefix E _ _ _ _ _ _ _ _ _ _ _ _ _ _ _ _ _ Hv Hs Hc Hd).
  split; [ | split ].
  - unfold bind_io at 1. rewrite Hp. unfold after_prepare, bind_io at 1.
    rewrite Hin. destruct s as [| a s]; [ contradiction | reflexivity ].
  - intros ->. unfold prepare in Hp.
    now destruct (prepare_append_ok _ _ _ _ _ _ Hp) as (-> & _).
  - intros ->. unfold prepare in Hp.
    exact (prepare_create_ok _ _ _ _ _ _ _ _ _ _ _ Hp).
Qed.

(** A run that satisfies the hypotheses of [bc2pg_sortby_unknown]: create
    mode, the type given, a sort column that the table does not have. *)
Lemma bc2pg_sortby_unknown_witness :
  bc2pg (sample_env 2 [] (fun _ => mixed_page)) sample_dataset
    "postgresql://localhost:5432/postgis" None None (Some "point") None None
    (Some "airport_name") None true false false []
  = (Raise (ValueError
              "Specified sortby column airport_name is not present in WHSE_IMAGERY_AND_BASE_MAPS.GSR_AIRPORTS_SVW"),
     [Connect "postgresql://localhost:5432/postgis";
      PlanRequests (upper sample_dataset);
      GetTableDefinition (upper sample_dataset);
      DefineTable "whse_imagery_and_base_maps" "gsr_airports_svw" "POINT"]).
Proof.
  apply (bc2pg_sortby_unknown (sample_env 2 [] (fun _ => mixed_page))
           sample_dataset "postgresql://localhost:5432/postgis" None None
           (Some "point") None None "airport_name" None true false false
           (upper sample_dataset) "whse_imagery_and_base_maps"
           "gsr_airports_svw" tt _ (None, ["objectid"; "geom"]) _
           eq_refl eq_refl eq_refl eq_refl eq_refl).
  - discriminate.
  - reflexivity.
Defined.



(** X14: a geometry type that the caller supplies is not probed: it is
    put in upper case and checked against [SUPPORTED_TYPES], and no page
    is downloaded for it. *)
Theorem resolve_supplied_type {Num} (E : Env Num) urls g t :
  g <> "" ->
  resolve_geometry_type E urls (Some g) t
  = (if existsb (String.eqb (upper g)) SUPPORTED_TYPES
     then Ok (None, upper g)
     else Raise (ValueError "Geometry type {geometry_type} is not supported"),
     t).
Proof.
  intros Hg. unfold resolve_geometry_type, bind_io at 1 2.
  destruct g as [| a g]; [ contradiction | ].
  cbn [truthy_str negb]. unfold ret at 1.
  cbn [fst snd supplied truthy_value truthy_str negb].
  unfold bind_io, ret, throw.
  destruct (existsb _ SUPPORTED_TYPES); reflexivity.
Qed.

(** A type that satisfies the hypothesis of [resolve_supplied_type]: a
    supported one in lower case, and one that is not supported. *)
Lemma resolve_supplied_type_witness :
  resolve_geometry_type (sample_env 2 [] (fun _ => mixed_page)) [] (Some "multipolygon") []
  = (Ok (None, "MULTIPOLYGON"), []) /\
  resolve_geometry_type (sample_env 2 [] (fun _ => mixed_page)) [] (Some "PolygonZ") []
  = (Raise (ValueError "Geometry type {geometry_type} is not supported"), []).
Proof.
  split.
  - apply (resolve_supplied_type (sample_env 2 [] (fun _ => mixed_page)) []
             "multipolygon" []). discriminate.
  - apply (resolve_supplied_type (sample_env 2 [] (fun _ => mixed_page)) []
             "PolygonZ" []). discriminate.
Defined.

(** X15: the probe rejects a first row that is a polygon or multipolygon
    with a third coordinate, or a geometry collection: such a dataset
    ends the run in the error for unsupported types, after the download
    of the first page. *)
Theorem probe_rejects {Num} (E : Env Num) url urls geometry_type f df t :
  truthy_str geometry_type = false ->
  make_requests E url = Ok (f :: df) ->
  match geom f with
  | Some (Polygon _) | Some (MultiPolygon _) => has_z f = true
  | Some (GeometryCollection _) => True
  | _ => False
  end ->
  resolve_geometry_type E (url :: urls) geometry_type t
  = (Raise (ValueError "Geometry type {geometry_type} is not supported"),
     (t ++ [MakeRequests url])%list).
Proof.
  intros Hg Hm Hf.
  unfold resolve_geometry_type, bind_io at 1 2.
  rewrite Hg. cbn [negb first_url]. unfold bind_io at 1, lift at 1.
  unfold bind_io at 1, call at 1. rewrite Hm.
  unfold bind_io at 1, lift at 1. unfold probe. cbn [map unique_0 bind].
  unfold geom_type. unfold has_z in *.
  destruct (geom f) as [[] |]; try contradiction;
    try rewrite Hf; try destruct (geometry_has_z Num _); reflexivity.
Qed.

(** A page that satisfies the hypotheses of [probe_rejects]: it starts
    with a triangle that has heights. *)
Lemma probe_rejects_witness :
  resolve_geometry_type
    (sample_env 1 []
       (fun _ => [mkFeature []
                    (Some (Polygon ([[0; 0; 5]; [4; 0; 5]; [0; 3; 6]; [0; 0; 5]], [])))]))
    ["https://openmaps.gov.bc.ca/geo/pub/wfs?count=1"] None []
  = (Raise (ValueError "Geometry type {geometry_type} is not supported"),
     [MakeRequests "https://openmaps.gov.bc.ca/geo/pub/wfs?count=1"]).
Proof.
  apply (probe_rejects
           (sample_env 1 []
              (fun _ => [mkFeature []
                           (Some (Polygon ([[0; 0; 5]; [4; 0; 5]; [0; 3; 6]; [0; 0; 5]], [])))]))
           "https://openmaps.gov.bc.ca/geo/pub/wfs?count=1" [] None _ [] []
           eq_refl eq_refl).
  reflexivity.
Defined.

Lemma downloads_app {Num} (l1 l2 : list (event Num)) :
  downloads (l1 ++ l2) = (downloads l1 ++ downloads l2)%list.
Proof.
  induction l1 as [| e l1 IH]; [ reflexivity | ].
  destruct e; cbn; now rewrite ?IH.
Qed.

(** X16: the load downloads the pages in the order of the requests, each
    at most once, and does not download the first one again when the
    probe left its page: the urls downloaded are a prefix of the
    requests still to fetch, and all of them when the load succeeds. *)
Theorem load_downloads_in_order {Num} (E : Env Num) s tn cols urls df t :
  exists l,
    snd (load Num E s tn cols urls df t) = (t ++ l)%list /\
    (exists rest,
       match df with
       | Some _ => tl urls
       | None => urls
       end = (downloads l ++ rest)%list) /\
    (fst (load Num E s tn cols urls df t) = Ok tt ->
     downloads l = match df with
                   | Some _ => tl urls
                   | None => urls
                   end).
Proof.
  revert df t. induction urls as [| url urls IH]; intros df t.
  - exists []. cbn. rewrite app_nil_r. destruct df; repeat split; now exists [].
  - remember (load Num E s tn cols (url :: urls) df t) as run eqn:R.
    cbn [load] in R. unfold bind_io at 1 in R.
    set (first := match df with
                  | Some d => ret Num d
                  | None => call Num (MakeRequests url) (make_requests E url)
                  end) in R.
    set (l0 := match df with
               | Some _ => []
               | None => [MakeRequests (Num:=Num) url]
               end).
    assert (F : snd (first t) = (t ++ l0)%list).
    { unfold first, l0. destruct df; cbn; now rewrite ?app_nil_r. }
    assert (P : match df with
                | Some _ => tl (url :: urls)
                | None => url :: urls
                end = (downloads l0 ++ urls)%list).
    { unfold l0. now destruct df. }
    rewrite P. clear P.
    destruct (first t) as [[d | e] t'] eqn:Ef; cbn [snd] in F; subst t'.
    2:{ exists l0. subst run. cbn [fst snd]. split; [ reflexivity | ].
        split; [ now exists urls | discriminate ]. }
    unfold bind_io at 1, lift at 1 in R.
    destruct (select_columns Num cols d) as [d' | e].
    2:{ exists l0. subst run. cbn [fst snd]. split; [ reflexivity | ].
        split; [ now exists urls | discriminate ]. }
    cbv zeta in R. unfold bind_io at 1, call at 1 in R.
    destruct (db_write Num E (ToPostgis s tn _)) as [[] | e].
    2:{ eexists (l0 ++ [_])%list. subst run. cbn [fst snd].
        rewrite app_assoc. split; [ reflexivity | ].
        rewrite downloads_app. cbn [downloads]. rewrite app_nil_r.
        split; [ now exists urls | discriminate ]. }
    unfold bind_io at 1, call at 1 in R.
    destruct (db_write Num E (ToSql s tn _)) as [[] | e].
    2:{ eexists (l0 ++ [_; _])%list. subst run. cbn [fst snd].
        rewrite <- !app_assoc. split; [ reflexivity | ].
        rewrite downloads_app. cbn [downloads]. rewrite app_nil_r.
        split; [ now exists urls | discriminate ]. }
    match type of R with
    | _ = load Num E s tn cols urls None ?t0 => remember t0 as tr eqn:Etr
    end.
    destruct (IH None tr) as (l & El & (rest & Er) & Eo).
    eexists (l0 ++ [_; _] ++ l)%list. subst run.
    split; [ rewrite El, Etr, <- !app_assoc; reflexivity | ].
    rewrite !downloads_app. cbn [downloads app].
    split.
    + exists rest. now rewrite Er, app_assoc.
    + intros Hok. now rewrite (Eo Hok).
Qed.

Lemma cast_to_multi_cons {Num} (g : option (geometry Num)) gs :
  cast_to_multi (g :: gs) = promoted g :: cast_to_multi gs.
Proof. unfold cast_to_multi. cbn [map]. now destruct g as [[] |]. Qed.

Lemma spatial_rows_multi {Num} (df : dataframe Num) :
  forallb multi_row
    (combine (map attrs (filter (fun f => negb (isna Num f)) df))
       (cast_to_multi (map geom (filter (fun f => negb (isna Num f)) df))))
  = true.
Proof.
  induction df as [| f df IH]; [ reflexivity | ].
  cbn [filter]. destruct (isna Num f) eqn:I; cbn [negb]; [ exact IH | ].
  unfold isna in I. destruct (geom f) as [g |] eqn:G; [ | discriminate ].
  cbn [map]. rewrite cast_to_multi_cons, G. cbn [combine forallb].
  rewrite IH, andb_true_r. now destruct g.
Qed.

Lemma avoids_load_single {Num} (E : Env Num) s tn cols urls df :
  avoids (fun e => negb (spatial_rows_ok e)) (load Num E s tn cols urls df).
Proof.
  revert df. induction urls as [| url urls IH]; intros df.
  - apply avoids_ret.
  - cbn [load].
    apply avoids_bind;
      [ destruct df; [ apply avoids_ret | now apply avoids_call ] | intros d ].
    apply avoids_bind; [ apply avoids_lift | intros d' ]. cbv zeta.
    apply avoids_bind; [ | intros _ ].
    { apply avoids_call. cbn [spatial_rows_ok].
      now rewrite spatial_rows_multi. }
    apply avoids_bind; [ now apply avoids_call | intros _ ].
    apply IH.
Qed.

(** X17: whatever a run does, the rows it hands to the spatial insert
    all have a geometry, and none of them a single point, line or
    polygon: rows without geometry and single-part geometries never
    reach [to_postgis]. *)
Theorem bc2pg_spatial_rows_multi {Num} (E : Env Num) dataset db_url table
    schema geometry_type query count sortby primary_key timestamp schema_only
    append s tn rows :
  In (ToPostgis s tn rows)
    (snd (bc2pg E dataset db_url table schema geometry_type query count
            sortby primary_key timestamp schema_only append [])) ->
  forall row, In row rows ->
    exists g, snd row = Some g /\ is_single g = false.
Proof.
  intros H row Hr.
  apply (avoids_trace (fun e => negb (spatial_rows_ok e))) in H.
  - cbn [spatial_rows_ok] in H. apply negb_false_iff in H.
    rewrite forallb_forall in H. specialize (H row Hr).
    unfold multi_row in H. destruct (snd row) as [g |]; [ | discriminate ].
    exists g. split; [ reflexivity | now apply negb_true_iff ].
  - apply avoids_bc2pg; try reflexivity; intros;
      try apply avoids_load_single;
      match goal with
      | x : event Num |- _ => destruct x; try discriminate; reflexivity
      end.
Qed.

(** A run that satisfies the hypotheses of [bc2pg_spatial_rows_multi]: an
    append-mode load of a page of two points. *)
Lemma bc2pg_spatial_rows_multi_witness :
  exists g,
    snd ([("objectid", "1")], Some (MultiPoint [[1188000; 377051]]))
    = Some g /\ is_single (Num:=Z) g = false.
Proof.
  apply (bc2pg_spatial_rows_multi
           (sample_env 2 ["whse_imagery_and_base_maps.gsr_airports_svw"]
              (fun _ => mixed_page))
           sample_dataset "postgresql://localhost:5432/postgis" None None None
           None None None None true false true
           "whse_imagery_and_base_maps" "gsr_airports_svw"
           [([("objectid", "1")], Some (MultiPoint [[1188000; 377051]]));
            ([("objectid", "2")], Some (MultiPoint [[1207437; 390361; 12]]))]).
  - vm_compute. tauto.
  - now left.
Defined.

(** A page and its selection agree row by row: same geometry, and the
    cells of the target columns. *)
Lemma select_columns_rows {Num} cols (df df' : dataframe Num) :
  select_columns Num cols df = Ok df' ->
  Forall2 (fun f f' => select_cells cols (attrs f) = Ok (attrs f')
                       /\ geom f' = geom f) df df'.
Proof.
  unfold select_columns. destruct (existsb _ cols); [ | discriminate ].
  intros H. apply mapM_Forall2 in H.
  induction H as [| f f' l l' Hf _ IH]; constructor; [ | exact IH ].
  destruct (select_cells cols (attrs f)) as [cells |]; [ | discriminate ].
  cbn in Hf. injection Hf as <-. now split.
Qed.

(** The rows handed to the spatial insert and to the plain insert, read
    off the page before the selection. *)
Lemma load_rows {Num} cols (df df' : dataframe Num) :
  Forall2 (fun f f' => select_cells cols (attrs f) = Ok (attrs f')
                       /\ geom f' = geom f) df df' ->
  Forall2 (fun f row => select_cells cols (attrs f) = Ok (fst row)
                        /\ snd row = promoted (geom f)
                        /\ isna Num f = false)
    (filter (fun f => negb (isna Num f)) df)
    (combine (map attrs (filter (fun f => negb (isna Num f)) df'))
       (cast_to_multi (map geom (filter (fun f => negb (isna Num f)) df'))))
  /\
  Forall2 (fun f cells => select_cells cols (attrs f) = Ok cells
                          /\ isna Num f = true)
    (filter (isna Num) df) (map attrs (filter (isna Num) df')).
Proof.
  induction 1 as [| f f' l l' [Hc Hg] _ [IH1 IH2]]; [ split; constructor | ].
  assert (Hi : isna Num f' = isna Num f) by (unfold isna; now rewrite Hg).
  cbn [filter]. rewrite Hi. destruct (isna Num f) eqn:I; cbn [negb map].
  - split; [ exact IH1 | ]. constructor; [ now split | exact IH2 ].
  - split; [ | exact IH2 ]. rewrite cast_to_multi_cons. cbn [combine].
    constructor; [ | exact IH1 ]. cbn [fst snd]. now rewrite Hg.
Qed.

(** X18: the load of one page, when the target has the columns and the
    database takes the writes, is one download, one spatial insert and
    one plain insert, in this order. The rows of the page with a
    geometry go to the first, one for one and in their order, each with
    its cells in the columns of the target and its geometry made
    multi-part; the rows without geometry go to the second the same
    way, with their cells alone. So every row of the page is written
    once. *)
Theorem load_page_split {Num} (E : Env Num) s tn cols url page page' t :
  make_requests E url = Ok page ->
  select_columns Num cols page = Ok page' ->
  (forall e, db_write Num E e = Ok tt) ->
  exists rows nulls,
    load Num E s tn cols [url] None t
    = (Ok tt,
       (t ++ [MakeRequests url; ToPostgis s tn rows; ToSql s tn nulls])%list) /\
    Forall2 (fun f row => select_cells cols (attrs f) = Ok (fst row)
                          /\ snd row = promoted (geom f)
                          /\ isna Num f = false)
      (filter (fun f => negb (isna Num f)) page) rows /\
    Forall2 (fun f cells => select_cells cols (attrs f) = Ok cells
                            /\ isna Num f = true)
      (filter (isna Num) page) nulls /\
    List.length rows
    = List.length (filter (fun f => negb (isna Num f)) page) /\
    List.length nulls = List.length (filter (isna Num) page) /\
    (List.length rows + List.length nulls = List.length page)%nat.
Proof.
  intros Hm Hs Hw.
  destruct (load_rows cols page page' (select_columns_rows _ _ _ Hs))
    as [R1 R2].
  eexists _, _. split; [ | split; [ exact R1 | split; [ exact R2 | ] ] ].
  - cbn [load]. unfold bind_io at 1, call at 1. rewrite Hm.
    unfold bind_io at 1, lift at 1. rewrite Hs. cbv zeta.
    unfold bind_io at 1, call at 1. rewrite Hw.
    unfold bind_io at 1, call at 1. rewrite Hw.
    unfold ret. rewrite <- !app_assoc. reflexivity.
  - apply Forall2_length in R1. apply Forall2_length in R2.
    pose proof (filter_length (isna Num) page) as L.
    rewrite <- R1, <- R2. repeat split; lia.
Qed.

(** A page that satisfies the hypotheses of [load_page_split]: two rows
    with a point and one without geometry. *)
Lemma load_page_split_witness :
  exists rows nulls,
    load Z
      (sample_env 3 []
         (fun _ => mixed_page ++ [mkFeature [("OBJECTID", "3")] None])%list)
      "whse_imagery_and_base_maps" "gsr_airports_svw" ["objectid"; "geom"]
      ["https://openmaps.gov.bc.ca/geo/pub/wfs?count=3"] None []
    = (Ok tt,
       [MakeRequests "https://openmaps.gov.bc.ca/geo/pub/wfs?count=3";
        ToPostgis "whse_imagery_and_base_maps" "gsr_airports_svw" rows;
        ToSql "whse_imagery_and_base_maps" "gsr_airports_svw" nulls]) /\
    Forall2 (fun f row => select_cells ["objectid"; "geom"] (attrs f)
                          = Ok (fst row)
                          /\ snd row = promoted (geom f)
                          /\ isna Z f = false)
      mixed_page rows /\
    Forall2 (fun f cells => select_cells ["objectid"; "geom"] (attrs f)
                            = Ok cells
                            /\ isna Z f = true)
      [mkFeature [("OBJECTID", "3")] None] nulls.
Proof.
  destruct (load_page_split
              (sample_env 3 []
                 (fun _ => mixed_page ++ [mkFeature [("OBJECTID", "3")] None])%list)
              "whse_imagery_and_base_maps" "gsr_airports_svw"
              ["objectid"; "geom"]
              "https://openmaps.gov.bc.ca/geo/pub/wfs?count=3" _ _ []
              eq_refl eq_refl (fun _ => eq_refl))
    as (rows & nulls & H & R1 & R2 & _).
  exists rows, nulls. split; [ exact H | split; [ exact R1 | exact R2 ] ].
Defined.

(** X21: the cast to multi-part keeps the number of geometries and, for
    each of them, whether it has a third coordinate: the [Z] that the
    probe read off a row still holds for the geometry that is stored. *)
Theorem cast_to_multi_keeps_z {Num} (geoms : list (option (geometry Num))) :
  List.length (cast_to_multi geoms) = List.length geoms /\
  map cell_has_z (cast_to_multi geoms) = map cell_has_z geoms.
Proof.
  split.
  - unfold cast_to_multi. now rewrite !length_map.
  - induction geoms as [| g geoms IH]; [ reflexivity | ].
    rewrite cast_to_multi_cons. cbn [map]. rewrite IH. f_equal.
    unfold cell_has_z, has_z. cbn [geom].
    destruct g as [[p | l | p | | | |] |]; try reflexivity;
      cbn; now rewrite app_nil_r.
Qed.

(** ** Downloads *)

(** X22: [make_request] turns a client or server error status into
    [SystemExit] carrying the [HTTPError]; a transport failure of the
    request leaves it as the exception it is, never as that exit; any
    other status gives what reading [features] off the body gives. *)
Theorem make_request_outcome {Num} (S : Fetch.Service Num) url :
  (forall err, Fetch.get_url S url = inl err ->
     Fetch.make_request S url = Raise (Fetch.transport_exn err) /\
     forall cause, Fetch.transport_exn err <> SystemExit cause) /\
  (forall r, Fetch.get_url S url = inr r ->
     400 <= Fetch.page_status Num r < 600 ->
     Fetch.make_request S url
     = Raise (SystemExit (HTTPError (Fetch.page_status Num r)))) /\
  (forall r, Fetch.get_url S url = inr r ->
     Fetch.page_status Num r < 400 \/ 600 <= Fetch.page_status Num r ->
     Fetch.make_request S url = Fetch.page_features Num r).
Proof.
  unfold Fetch.make_request. split; [ | split ].
  - intros err ->. split; [ reflexivity | ]. destruct err; discriminate.
  - intros r -> [H1 H2].
    now rewrite (proj2 (Z.leb_le _ _) H1), (proj2 (Z.ltb_lt _ _) H2).
  - intros r -> H.
    assert (E : (400 <=? Fetch.page_status Num r)
                && (Fetch.page_status Num r <? 600) = false).
    { apply andb_false_iff. destruct H as [H | H];
        [ left; now apply Z.leb_gt | right; now apply Z.ltb_ge ]. }
    now rewrite E.
Qed.

Lemma yield_pages_all {Num} (S : Fetch.Service Num) urls pages :
  Forall2 (fun u p => Fetch.make_request S u = Ok p) urls pages ->
  Fetch.yield_pages S urls = (List.concat pages, None) /\
  mapM (Fetch.make_request S) urls = Ok pages.
Proof.
  induction 1 as [| u p urls pages Hu _ [IH1 IH2]]; [ now split | ].
  cbn. now rewrite Hu, IH1, IH2.
Qed.

Lemma yield_pages_until {Num} (S : Fetch.Service Num) urls1 url urls2 pages e :
  Forall2 (fun u p => Fetch.make_request S u = Ok p) urls1 pages ->
  Fetch.make_request S url = Raise e ->
  Fetch.yield_pages S (urls1 ++ url :: urls2) = (List.concat pages, Some e) /\
  mapM (Fetch.make_request S) (urls1 ++ url :: urls2) = Raise e.
Proof.
  intros H He. induction H as [| u p urls pages Hu _ [IH1 IH2]].
  - cbn. now rewrite He.
  - cbn. now rewrite Hu, IH1, IH2.
Qed.

(** X23: when every page downloads, [get_features] yields the features
    of the pages in the order of the requests and ends normally. When a
    page fails, it has yielded the features of the pages before it, in
    order, and ends in the exception of that page, while [get_data] on
    the same call returns nothing but that exception. *)
Theorem get_features_in_order {Num} (S : Fetch.Service Num) dataset query crs
    bounds bounds_crs count sortby pagesize as_gdf :
  (forall urls pages,
     Wfs.define_requests (Fetch.world S) dataset query crs bounds bounds_crs
       count sortby pagesize = Ok urls ->
     Forall2 (fun u p => Fetch.make_request S u = Ok p) urls pages ->
     Fetch.get_features S dataset query crs bounds bounds_crs count sortby
       pagesize = (List.concat pages, None)) /\
  (forall urls1 url urls2 pages e,
     Wfs.define_requests (Fetch.world S) dataset query crs bounds bounds_crs
       count sortby pagesize = Ok (urls1 ++ url :: urls2)%list ->
     Forall2 (fun u p => Fetch.make_request S u = Ok p) urls1 pages ->
     Fetch.make_request S url = Raise e ->
     Fetch.get_features S dataset query crs bounds bounds_crs count sortby
       pagesize = (List.concat pages, Some e) /\
     Fetch.get_data S dataset query crs bounds bounds_crs count sortby
       pagesize as_gdf = Raise e).
Proof.
  split.
  - intros urls pages Hd Hp. unfold Fetch.get_features. rewrite Hd.
    now apply yield_pages_all.
  - intros urls1 url urls2 pages e Hd Hp He.
    destruct (yield_pages_until S urls1 url urls2 pages e Hp He) as [Y M].
    unfold Fetch.get_features, Fetch.get_data. rewrite Hd. cbn [bind].
    now rewrite Y, M.
Qed.

(** A call on which both parts of [get_features_in_order] apply: three
    pages, the second answered with status 503. *)
Lemma get_features_in_order_witness :
  Fetch.get_features (sample_service 25000 three_pages) sample_dataset None
    "epsg:4326" None "epsg:3005" None None 10000
  = ([point_feature "1" [1; 2]], Some (SystemExit (HTTPError 503))) /\
  Fetch.get_data (sample_service 25000 three_pages) sample_dataset None
    "epsg:4326" None "epsg:3005" None None 10000 false
  = Raise (SystemExit (HTTPError 503)).
Proof.
  assert (D : exists u1 u2 u3,
            Wfs.define_requests
              (Fetch.world (sample_service 25000 three_pages)) sample_dataset
              None "epsg:4326" None "epsg:3005" None None 10000
            = Ok ([u1] ++ u2 :: [u3])%list /\
            Fetch.make_request (sample_service 25000 three_pages) u1
            = Ok [point_feature "1" [1; 2]] /\
            Fetch.make_request (sample_service 25000 three_pages) u2
            = Raise (SystemExit (HTTPError 503))).
  { eexists _, _, _. split; [ vm_compute; reflexivity | ].
    split; vm_compute; reflexivity. }
  destruct D as (u1 & u2 & u3 & D & M1 & M2).
  apply (proj2 (get_features_in_order (sample_service 25000 three_pages)
                  sample_dataset None "epsg:4326" None "epsg:3005" None None
                  10000 false)
           [u1] u2 [u3] [[point_feature "1" [1; 2]]] _ D).
  - constructor; [ exact M1 | constructor ].
  - exact M2.
Defined.

(** The windows of a successful planning run tile the effective count. *)
Lemma planned_tiles W dataset query crs bounds bounds_crs count sortby
    pagesize table n rs :
  validate_name W dataset = Ok table ->
  get_count W table query = Ok n ->
  request_dicts W dataset query crs bounds bounds_crs count sortby pagesize
  = Ok rs ->
  1 <= effective_count count n < 2 ^ 53 ->
  1 <= pagesize < 2 ^ 1075 ->
  exists ws, map window rs = map Some ws /\
             tiles 0 (effective_count count n) ws.
Proof.
  intros Hv Hn H He Hp.
  destruct (request_dicts_inv_map _ _ _ _ _ _ _ _ _ _ H)
    as (table' & n' & sch & chunks & key & Hv' & Hn' & _ & Hc & _ & ->).
  rewrite Hv in Hv'. injection Hv' as <-.
  rewrite Hn in Hn'. injection Hn' as <-.
  set (e := effective_count count n) in *.
  rewrite (chunk_count_small e pagesize ltac:(lia) ltac:(lia)) in Hc.
  injection Hc as <-.
  pose proof (cdiv_bounds e pagesize ltac:(lia)) as Hd.
  set (chunks := cdiv e pagesize) in *.
  assert (H1 : 1 <= chunks) by nia.
  exists (map (chunk_window e pagesize) (range chunks)). split.
  - rewrite !map_map. apply map_ext_in. intros i Hi.
    rewrite chunk_request_window_any.
    destruct (chunks =? 1) eqn:E1.
    + apply Z.eqb_eq in E1. rewrite E1 in *. apply In_range in Hi.
      assert (i = 0) by lia. subst i. unfold chunk_window.
      destruct (e <? 0 * pagesize + pagesize) eqn:L;
        [ apply Z.ltb_lt in L | apply Z.ltb_ge in L ]; do 2 f_equal; lia.
    + apply Z.eqb_neq in E1. now rewrite (proj2 (Z.ltb_lt 1 chunks)) by lia.
  - unfold range.
    pose proof (chunk_windows_tile e pagesize chunks ltac:(lia) Hd
                  (Z.to_nat chunks) 0%nat ltac:(lia)) as T.
    rewrite Z.min_l in T by lia. exact T.
Qed.

Lemma yield_within_tiles {Num} (S : Fetch.Service Num) rs :
  (forall r fs, In r rs ->
     Fetch.make_request S (request_url r) = Ok fs ->
     exists c, count_of r = Some c /\ Z.of_nat (List.length fs) <= c) ->
  forall ws lo hi,
    map window rs = map Some ws -> tiles lo hi ws ->
    Z.of_nat (List.length (fst (Fetch.yield_pages S (map request_url rs))))
    <= hi - lo.
Proof.
  induction rs as [| r rs IH]; intros Hh ws lo hi Hw Ht.
  - destruct ws; [ | discriminate ]. cbn in *. lia.
  - destruct ws as [| [s c] ws]; [ discriminate | ].
    cbn [map] in Hw. injection Hw as Hr Hw. cbn [tiles] in Ht.
    destruct Ht as (_ & Hc & Ht).
    assert (T : hi - (lo + c) = total ws) by (now rewrite (tiles_total _ _ _ Ht)).
    assert (P : 0 <= total ws).
    { clear - Ht. revert Ht. generalize (lo + c). induction ws as [| [s' c'] ws IH];
        intros x Ht; [ cbn; lia | ].
      cbn [tiles] in Ht. destruct Ht as (_ & Hc' & Ht).
      specialize (IH _ Ht). unfold total in *. cbn. lia. }
    cbn [map Fetch.yield_pages].
    destruct (Fetch.make_request S (request_url r)) as [fs | e] eqn:M.
    + cbn [fst]. rewrite length_app.
      destruct (Hh r fs (or_introl eq_refl) M) as (c' & Hc' & L).
      assert (c' = c).
      { unfold count_of in Hc'. unfold window in Hr.
        destruct (dict_get "count" r) as [[x | x] |]; try discriminate.
        injection Hr as _ <-. now injection Hc'. }
      subst c'.
      specialize (IH (fun r0 fs0 Hin => Hh r0 fs0 (or_intror Hin)) ws
                    (lo + c) hi Hw Ht).
      lia.
    + cbn. lia.
Qed.

(** X24: when the service honours [count], returning for each request at
    most as many features as it asks for, [get_features] yields at most
    the effective count of features (for [1 <= e < 2^53], page size
    [1 <= p < 2^1075]), whether or not a page fails on the way: never
    more than the caller asked for, never more than the service counted. *)
Theorem get_features_at_most {Num} (S : Fetch.Service Num) dataset query crs
    bounds bounds_crs count sortby pagesize table n rs :
  validate_name (Fetch.world S) dataset = Ok table ->
  get_count (Fetch.world S) table query = Ok n ->
  request_dicts (Fetch.world S) dataset query crs bounds bounds_crs count
    sortby pagesize = Ok rs ->
  1 <= effective_count count n < 2 ^ 53 ->
  1 <= pagesize < 2 ^ 1075 ->
  (forall r fs, In r rs ->
     Fetch.make_request S (request_url r) = Ok fs ->
     exists c, count_of r = Some c /\ Z.of_nat (List.length fs) <= c) ->
  Z.of_nat (List.length
              (fst (Fetch.get_features S dataset query crs bounds bounds_crs
                      count sortby pagesize)))
  <= effective_count count n.
Proof.
  intros Hv Hn H He Hp Hh.
  destruct (planned_tiles _ _ _ _ _ _ _ _ _ _ _ _ Hv Hn H He Hp)
    as (ws & Hw & Ht).
  unfold Fetch.get_features. rewrite (define_requests_urls _ _ _ _ _ _ _ _ _ _ H).
  pose proof (yield_within_tiles S rs Hh ws 0 _ Hw Ht). lia.
Qed.

(** A call that satisfies the hypotheses of [get_features_at_most]: at
    most 2 features are asked for, and two pages hold one each. *)
Lemma get_features_at_most_witness :
  Z.of_nat (List.length
              (fst (Fetch.get_features (sample_service 25000 three_pages)
                      sample_dataset None "epsg:4326" None "epsg:3005"
                      (Some 2) None 1)))
  <= effective_count (Some 2) 25000.
Proof.
  assert (R : exists rs,
            request_dicts (Fetch.world (sample_service 25000 three_pages))
              sample_dataset None "epsg:4326" None "epsg:3005" (Some 2) None 1
            = Ok rs /\
            forallb (fun r =>
                       match Fetch.make_request
                               (sample_service 25000 three_pages)
                               (request_url r), count_of r with
                       | Ok fs, Some c => Z.of_nat (List.length fs) <=? c
                       | Raise _, _ => true
                       | _, _ => false
                       end) rs = true)
    by (eexists; split; vm_compute; reflexivity).
  destruct R as (rs & R & F).
  apply (get_features_at_most (sample_service 25000 three_pages)
           sample_dataset None "epsg:4326" None "epsg:3005" (Some 2) None 1
           (upper sample_dataset) 25000 rs eq_refl eq_refl R).
  - cbn. split; [ lia | reflexivity ].
  - split; [ lia | reflexivity ].
  - intros r fs Hr M. rewrite forallb_forall in F. specialize (F r Hr).
    rewrite M in F. destruct (count_of r) as [c |]; [ | discriminate ].
    exists c. split; [ reflexivity | now apply Z.leb_le ].
Defined.

(** X25: for a download that succeeds, [get_data] without [as_gdf]
    returns the features of the pages in the order of the requests; the
    collection has no [crs] member when the CRS is epsg:4326 in any
    case of letters, otherwise the member names what follows the first
    colon of the CRS, and a CRS without colon ends the call in
    [IndexError] once everything is downloaded. With [as_gdf] the CRS
    is not looked into. *)
Theorem get_data_crs {Num} (S : Fetch.Service Num) dataset query crs bounds
    bounds_crs count sortby pagesize urls pages :
  Wfs.define_requests (Fetch.world S) dataset query crs bounds bounds_crs
    count sortby pagesize = Ok urls ->
  Forall2 (fun u p => Fetch.make_request S u = Ok p) urls pages ->
  (lower crs = "epsg:4326" ->
   Fetch.get_data S dataset query crs bounds bounds_crs count sortby pagesize
     false = Ok (Fetch.FeatureCollection (List.concat pages) None)) /\
  (lower crs <> "epsg:4326" ->
   (forall a, split ":"%char crs = [a] ->
    Fetch.get_data S dataset query crs bounds bounds_crs count sortby
      pagesize false = Raise IndexError) /\
   (forall a b rest, split ":"%char crs = a :: b :: rest ->
    Fetch.get_data S dataset query crs bounds bounds_crs count sortby
      pagesize false
    = Ok (Fetch.FeatureCollection (List.concat pages)
            (Some (Fetch.crs_member b))))) /\
  Fetch.get_data S dataset query crs bounds bounds_crs count sortby pagesize
    true
  = Ok (match List.concat pages with
        | [] => Fetch.GeoDataFrame [] None
        | _ => Fetch.GeoDataFrame (List.concat pages) (Some crs)
        end).
Proof.
  intros Hd Hp. destruct (yield_pages_all S urls pages Hp) as [_ M].
  unfold Fetch.get_data. rewrite Hd. cbn [bind]. rewrite M. cbn [bind negb].
  cbv zeta. split; [ | split ].
  - intros E. rewrite E. reflexivity.
  - intros E. apply String.eqb_neq in E. rewrite E. cbn [negb].
    split; [ intros a -> | intros a b rest -> ]; reflexivity.
  - now destruct (List.concat pages).
Qed.

(** A call that satisfies the hypotheses of [get_data_crs]: one page, a
    CRS given without its authority. *)
Lemma get_data_crs_witness :
  Fetch.get_data
    (sample_service 1
       (fun _ => inr (Fetch.mkPageResponse 200 (Ok [point_feature "1" [1; 2]]))))
    sample_dataset None "3005" None "epsg:3005" None None 10000 false
  = Raise IndexError.
Proof.
  assert (D : exists url,
            Wfs.define_requests
              (Fetch.world
                 (sample_service 1
                    (fun _ => inr (Fetch.mkPageResponse 200
                                     (Ok [point_feature "1" [1; 2]])))))
              sample_dataset None "3005" None "epsg:3005" None None 10000
            = Ok [url])
    by (eexists; vm_compute; reflexivity).
  destruct D as (url & D).
  refine (proj1 (proj1 (proj2 (get_data_crs _ _ _ _ _ _ _ _ _ _
                                 [[point_feature "1" [1; 2]]] D _)) _)
            "3005" eq_refl).
  - constructor; [ reflexivity | constructor ].
  - discriminate.
Defined.

Lemma mapM_all_raise {A B} (f : A -> result B) (l : list A) e x :
  (forall y, In y l -> (exists b, f y = Ok b) \/ f y = Raise e) ->
  In x l -> f x = Raise e ->
  mapM f l = Raise e.
Proof.
  induction l as [| y l IH]; intros Hall Hin Hx; [ contradiction | ].
  cbn. destruct (Hall y (or_introl eq_refl)) as [(b & Hb) | Hb];
    rewrite Hb; cbn [bind]; [ | reflexivity ].
  destruct Hin as [-> | Hin]; [ congruence | ].
  rewrite IH; [ reflexivity | | assumption | assumption ].
  intros z Hz. apply Hall. now right.
Qed.

Lemma mapM_In {A B} (f : A -> result B) (l : list A) rs r :
  mapM f l = Ok rs -> In r rs -> exists x, In x l /\ f x = Ok r.
Proof.
  intros H Hr. apply mapM_Forall2 in H.
  induction H as [| x r' l' rs' Hx _ IH]; [ contradiction | ].
  destruct Hr as [<- | Hr].
  - exists x. split; [ now left | exact Hx ].
  - destruct (IH Hr) as (y & Hy & Hy'). exists y. split; [ now right | exact Hy' ].
Qed.

Lemma mapM_ok_all {A B} (f : A -> result B) (l : list A) rs x :
  mapM f l = Ok rs -> In x l -> exists r, f x = Ok r.
Proof.
  intros H Hx. apply mapM_Forall2 in H.
  induction H as [| y r' l' rs' Hy _ IH]; [ contradiction | ].
  destruct Hx as [<- | Hx]; [ now exists r' | now apply IH ].
Qed.

Lemma add_z_reported {Num} (features : list (Fetch.json_feature Num)) g ty :
  In g Fetch.VALID_TYPES -> Fetch.add_z features g = Ok ty ->
  In ty REPORTED_TYPES.
Proof.
  intros Hg. unfold Fetch.add_z.
  destruct Hg as [<- | [<- | [<- | [<- | [<- | [<- | []]]]]]];
    cbn [String.eqb Ascii.eqb Bool.eqb andb bind];
    try (intros [= <-]; cbn; tauto);
    destruct (Fetch.first_coordinates features) as [c |];
    cbn [bind]; try discriminate;
    try (destruct (Fetch.json_item0 Num c) as [c0 |]; cbn [bind];
         try discriminate;
         try (destruct (Fetch.json_item0 Num c0) as [c00 |]; cbn [bind];
              try discriminate;
              destruct (Fetch.json_len Num c00) as [k |]; cbn [bind];
              try discriminate;
              destruct (Nat.eqb k 3);
              cbn [String.eqb Ascii.eqb Bool.eqb andb bind];
              intros [= <-]; cbn; tauto);
         destruct (Fetch.json_len Num c0) as [k |]; cbn [bind];
         try discriminate;
         destruct (Nat.eqb k 3);
         cbn [String.eqb Ascii.eqb Bool.eqb andb bind];
         intros [= <-]; cbn; tauto);
    destruct (Fetch.json_len Num c) as [k |]; cbn [bind]; try discriminate;
    destruct (Nat.eqb k 3);
    cbn [String.eqb Ascii.eqb Bool.eqb andb bind];
    intros [= <-]; cbn; tauto.
Qed.

(** X26: whatever order [list(set(...))] takes, every type that
    [get_types] returns is one of POINT, POINTZ, LINESTRING, LINESTRINGZ,
    POLYGON, MULTIPOINT, MULTILINESTRING, MULTILINESTRINGZ and
    MULTIPOLYGON: there is no Z variant of a multipoint or of a polygon
    in its answers. *)
Theorem get_types_reported {Num} (list_set : list string -> list string)
    (S : Fetch.Service Num) dataset count types ty :
  Fetch.get_types list_set S dataset count = Ok types ->
  In ty types ->
  In ty REPORTED_TYPES.
Proof.
  unfold Fetch.get_types. intros H Hty.
  destruct (Wfs.validate_name (Fetch.world S) dataset) as [table |];
    [ | discriminate ].
  cbn [bind] in H. cbv zeta in H.
  destruct (snd (Fetch.get_features S table None "epsg:4326" None "epsg:3005"
                   count None 10000)); [ discriminate | ].
  match type of H with
  | bind (mapM ?check ?l) _ = _ =>
      destruct (mapM check l) as [us |] eqn:V; [ | discriminate ]
  end.
  cbn [bind] in H.
  destruct (mapM_In _ _ _ _ H Hty) as (g & Hg & Hz).
  destruct (mapM_ok_all _ _ _ g V Hg) as (u & Hu).
  eapply add_z_reported; [ | exact Hz ].
  apply existsb_eqb_In.
  destruct (existsb (String.eqb g) Fetch.VALID_TYPES);
    [ reflexivity | discriminate ].
Qed.

(** A call that satisfies the hypotheses of [get_types_reported]: a page
    of multipoints whose positions have three coordinates is reported
    as POINTZ. *)
Lemma get_types_reported_witness :
  Fetch.get_types list_set_sample
    (one_page [multipoint_feature "1" [[1; 2; 3]; [4; 5; 6]];
               multipoint_feature "2" [[7; 8; 9]]])
    sample_dataset (Some 10)
  = Ok ["POINTZ"] /\
  In "POINTZ" REPORTED_TYPES.
Proof.
  split; [ reflexivity | ].
  apply (get_types_reported list_set_sample
           (one_page [multipoint_feature "1" [[1; 2; 3]; [4; 5; 6]];
                      multipoint_feature "2" [[7; 8; 9]]])
           sample_dataset (Some 10) ["POINTZ"] "POINTZ" eq_refl).
  now left.
Defined.

Lemma In_feature_types {Num} (features : list (Fetch.json_feature Num)) f g :
  In f features -> Fetch.feature_geometry f = Some g ->
  In (upper (Fetch.gtype g)) (Fetch.feature_types features).
Proof.
  intros Hf Hg. unfold Fetch.feature_types. apply in_flat_map.
  exists f. split; [ exact Hf | ]. rewrite Hg. now left.
Qed.

Lemma get_types_fetched {Num} (list_set : list string -> list string)
    (S : Fetch.Service Num) dataset count table features :
  Wfs.validate_name (Fetch.world S) dataset = Ok table ->
  Fetch.get_features S table None "epsg:4326" None "epsg:3005" count None
    10000 = (features, None) ->
  Fetch.get_types list_set S dataset count
  = (_ <- mapM (fun geom_type =>
                  if existsb (String.eqb geom_type) Fetch.VALID_TYPES
                  then Ok tt
                  else Raise (ValueError
                                "Geometry type {geomtype} is not supported"))
            (list_set (Fetch.feature_types features)) ;;
     mapM (Fetch.add_z features) (list_set (Fetch.feature_types features))).
Proof.
  intros Hv Hf. unfold Fetch.get_types. rewrite Hv. cbn [bind]. cbv zeta.
  now rewrite Hf.
Qed.

(** X27: whatever order [list(set(...))] takes, one fetched feature
    whose geometry type is not one of the six simple-feature types
    (compared in upper case) ends [get_types] in [ValueError]. *)
Theorem get_types_unsupported {Num} (list_set : list string -> list string)
    (S : Fetch.Service Num) dataset count table features f g :
  (forall l x, In x (list_set l) <-> In x l) ->
  Wfs.validate_name (Fetch.world S) dataset = Ok table ->
  Fetch.get_features S table None "epsg:4326" None "epsg:3005" count None
    10000 = (features, None) ->
  In f features ->
  Fetch.feature_geometry f = Some g ->
  ~ In (upper (Fetch.gtype g)) Fetch.VALID_TYPES ->
  Fetch.get_types list_set S dataset count
  = Raise (ValueError "Geometry type {geomtype} is not supported").
Proof.
  intros Hset Hv Hfe Hf Hg Hbad.
  rewrite (get_types_fetched list_set S dataset count table features Hv Hfe).
  rewrite (mapM_all_raise _ _
             (ValueError "Geometry type {geomtype} is not supported")
             (upper (Fetch.gtype g))).
  - reflexivity.
  - intros y _. destruct (existsb (String.eqb y) Fetch.VALID_TYPES);
      [ left; now eexists | now right ].
  - apply Hset. now apply In_feature_types with (f := f).
  - destruct (existsb (String.eqb (upper (Fetch.gtype g))) Fetch.VALID_TYPES)
      eqn:E; [ | reflexivity ].
    apply existsb_eqb_In in E. contradiction.
Qed.

(** A page that satisfies the hypotheses of [get_types_unsupported]: it
    holds a geometry collection. *)
Lemma get_types_unsupported_witness :
  Fetch.get_types list_set_sample (one_page collection_page) sample_dataset
    (Some 10)
  = Raise (ValueError "Geometry type {geomtype} is not supported").
Proof.
  apply (get_types_unsupported list_set_sample (one_page collection_page)
           sample_dataset (Some 10) (upper sample_dataset) collection_page
           collection_feature
           (Fetch.mkGeometry "GeometryCollection" (Fetch.JArr []))).
  - intros l x. apply nodup_In.
  - reflexivity.
  - reflexivity.
  - right. now left.
  - reflexivity.
  - cbn. intros [C | [C | [C | [C | [C | [C | []]]]]]]; discriminate C.
Defined.

(** X28: the third coordinate is looked for in the first feature alone.
    Whatever order [list(set(...))] takes, when the first feature
    fetched has no geometry, all types found are supported and one of
    them is a point, multipoint, linestring or multilinestring,
    [get_types] ends in [TypeError]. *)
Theorem get_types_first_feature_null {Num}
    (list_set : list string -> list string)
    (S : Fetch.Service Num) dataset count table f0 features f g :
  (forall l x, In x (list_set l) <-> In x l) ->
  Wfs.validate_name (Fetch.world S) dataset = Ok table ->
  Fetch.get_features S table None "epsg:4326" None "epsg:3005" count None
    10000 = (f0 :: features, None) ->
  Fetch.feature_geometry f0 = None ->
  (forall ty, In ty (Fetch.feature_types features) -> In ty Fetch.VALID_TYPES) ->
  In f features ->
  Fetch.feature_geometry f = Some g ->
  In (upper (Fetch.gtype g)) Z_TESTED_TYPES ->
  Fetch.get_types list_set S dataset count = Raise TypeError.
Proof.
  intros Hset Hv Hfe H0 Hvalid Hf Hg Hz.
  rewrite (get_types_fetched list_set S dataset count table _ Hv Hfe).
  assert (T : Fetch.feature_types (f0 :: features)
              = Fetch.feature_types features).
  { unfold Fetch.feature_types. cbn [flat_map]. now rewrite H0. }
  rewrite T.
  rewrite (mapM_ok _ (fun _ => tt)).
  2:{ intros y Hy. apply Hset, Hvalid, existsb_eqb_In in Hy. now rewrite Hy. }
  cbn [bind].
  assert (C : Fetch.first_coordinates (f0 :: features) = Raise TypeError).
  { cbn. now rewrite H0. }
  apply (mapM_all_raise _ _ TypeError (upper (Fetch.gtype g))).
  - intros y Hy. apply Hset, Hvalid in Hy. unfold Fetch.add_z. rewrite C.
    destruct Hy as [<- | [<- | [<- | [<- | [<- | [<- | []]]]]]]; cbn;
      first [ now right | left; now eexists ].
  - apply Hset. now apply In_feature_types with (f := f).
  - unfold Fetch.add_z. rewrite C.
    destruct Hz as [<- | [<- | [<- | [<- | []]]]]; reflexivity.
Qed.

(** A page that satisfies the hypotheses of
    [get_types_first_feature_null]: a row without geometry, then a
    point. *)
Lemma get_types_first_feature_null_witness :
  Fetch.get_types list_set_sample
    (one_page [Fetch.mkJsonFeature [("OBJECTID", "1")] None;
               point_feature "2" [1; 2; 3]])
    sample_dataset (Some 10)
  = Raise TypeError.
Proof.
  apply (get_types_first_feature_null list_set_sample
           (one_page [Fetch.mkJsonFeature [("OBJECTID", "1")] None;
                      point_feature "2" [1; 2; 3]])
           sample_dataset (Some 10) (upper sample_dataset)
           (Fetch.mkJsonFeature [("OBJECTID", "1")] None)
           [point_feature "2" [1; 2; 3]]
           (point_feature "2" [1; 2; 3])
           (Fetch.mkGeometry "Point" (Fetch.JArr (map Fetch.JNum [1; 2; 3])))).
  - intros l x. apply nodup_In.
  - reflexivity.
  - reflexivity.
  - reflexivity.
  - cbn. intros ty [<- | []]. now left.
  - now left.
  - reflexivity.
  - now left.
Defined.

(** * The database wrapper *)

(** The loop adds to the tables gathered so far the qualified names of
    the schemas that are left. *)
Lemma tables_from_In (D : Database.Server) ss :
  forall acc ts,
  Database.tables_from D ss acc = Ok ts ->
  forall x,
  In x ts <->
  In x acc \/
  exists s names t,
    In s ss /\ Database.tables_of D s = Ok names /\ In t names
    /\ x = (s ++ "." ++ t)%string.
Proof.
  induction ss as [| s ss IH]; intros acc ts H x; cbn in H.
  - injection H as <-. split; [ now left | ].
    intros [Hx | (s & names & t & [] & _)]. exact Hx.
  - unfold Database.tables_in_schema in H.
    destruct (Database.tables_of D s) as [names |] eqn:Hn;
      cbn in H; [ | discriminate H ].
    rewrite (IH _ _ H x), in_app_iff, in_map_iff. split.
    + intros [[Hx | (t & <- & Ht)] | (s' & names' & t & Hs & Hn' & Ht & ->)].
      * now left.
      * right. exists s, names, t. repeat split; auto. now left.
      * right. exists s', names', t. repeat split; auto. now right.
    + intros [Hx | (s' & names' & t & [<- | Hs] & Hn' & Ht & ->)].
      * now left; left.
      * rewrite Hn in Hn'. injection Hn' as <-.
        left; right. now exists t.
      * right. now exists s', names', t.
Qed.

Lemma substring_none s : substring 0 0 s = ""%string.
Proof. now destruct s. Qed.

(** A name that starts with [pg_] still does when something follows it;
    one that does not start with it does not when a dot follows it. *)
Lemma system_prefix_app s r :
  is_system s = true -> is_system (s ++ r) = true.
Proof.
  unfold is_system.
  destruct s as [| a [| b [| c s]]]; cbn; intros H.
  - discriminate H.
  - destruct (Ascii.eqb a "p"); discriminate H.
  - destruct (Ascii.eqb a "p"); [ | discriminate H ].
    destruct (Ascii.eqb b "g"); discriminate H.
  - rewrite substring_none in H |- *. exact H.
Qed.

Lemma qualified_not_system s t :
  is_system s = false -> is_system (s ++ "." ++ t) = false.
Proof.
  unfold is_system.
  destruct s as [| a [| b [| c s]]]; cbn; intros H.
  - reflexivity.
  - now destruct (Ascii.eqb a "p").
  - destruct (Ascii.eqb a "p"); [ | reflexivity ].
    now destruct (Ascii.eqb b "g").
  - rewrite substring_none in H |- *. exact H.
Qed.

Lemma tables_In (D : Database.Server) rows ts :
  Database.schemata D = Ok rows ->
  Database.tables D = Ok ts ->
  forall x,
  In x ts <->
  exists s names t,
    In s rows /\ is_system s = false
    /\ Database.tables_of D s = Ok names /\ In t names
    /\ x = (s ++ "." ++ t)%string.
Proof.
  intros Hr H x. unfold Database.tables, Database.schemas in H.
  rewrite Hr in H. cbn in H.
  rewrite (tables_from_In D _ _ _ H x). split.
  - intros [[] | (s & names & t & Hs & Hn & Ht & ->)].
    apply filter_In in Hs as [Hs Hf].
    exists s, names, t. repeat split; auto.
    unfold is_system. now destruct (String.eqb (substring 0 3 s) "pg_").
  - intros (s & names & t & Hs & Hf & Hn & Ht & ->). right.
    exists s, names, t. repeat split; auto.
    apply filter_In. split; [ exact Hs | ].
    unfold is_system in Hf. now rewrite Hf.
Qed.

(** X29: when its queries succeed, [Database.tables] lists exactly the
    names [schema.table] of the tables that the server reports for the
    schemata whose name does not start with [pg_]; the tables of the
    other schemata are not listed, whatever the server holds for them. *)
Theorem tables_listed (D : Database.Server) rows ts :
  Database.schemata D = Ok rows ->
  Database.tables D = Ok ts ->
  forall x,
  In x ts <->
  exists s names t,
    In s rows /\ is_system s = false
    /\ Database.tables_of D s = Ok names /\ In t names
    /\ x = (s ++ "." ++ t)%string.
Proof.
  exact (tables_In D rows ts).
Qed.

(** A server that satisfies the hypotheses of [tables_listed]: the table
    of the system schema is left out. *)
Lemma tables_listed_witness :
  Database.tables sample_server
  = Ok ["whse_imagery_and_base_maps.gsr_airports_svw"]
  /\ forall x,
     In x ["whse_imagery_and_base_maps.gsr_airports_svw"] <->
     exists s names t,
       In s ["pg_catalog"; "whse_imagery_and_base_maps"]
       /\ is_system s = false
       /\ Database.tables_of sample_server s = Ok names /\ In t names
       /\ x = (s ++ "." ++ t)%string.
Proof.
  split; [ reflexivity | ].
  exact (tables_listed sample_server
           ["pg_catalog"; "whse_imagery_and_base_maps"]
           ["whse_imagery_and_base_maps.gsr_airports_svw"]
           eq_refl eq_refl).
Defined.

(** X30: a run in append mode whose target schema starts with [pg_] ends
    in [ValueError] right after the tables are listed, when the listing
    is that of [Database.tables]: such a table is never in it, so that
    nothing is downloaded or written. *)
Theorem bc2pg_append_system_schema {Num} (E : Env Num)
    (D : Database.Server) dataset db_url table schema geometry_type query
    count sortby primary_key timestamp schema_only name schema_name
    table_name u urls :
  Wfs.validate_name (wfs E) dataset = Ok name ->
  split "."%char (lower name) = [schema_name; table_name] ->
  connect E db_url = Ok u ->
  Wfs.define_requests (wfs E) name query "epsg:3005" None "EPSG:3005" count
    sortby 10000 = Ok urls ->
  Database.tables D = Ok (db_tables E) ->
  is_system (target_name schema_name schema) = true ->
  bc2pg E dataset db_url table schema geometry_type query count sortby
    primary_key timestamp schema_only true []
  = (Raise (ValueError (target_name schema_name schema ++ "."
                        ++ target_name table_name table
                        ++ " does not exist, nothing to append to")%string),
     [Connect db_url; PlanRequests name; ListTables]).
Proof.
  intros Hv Hs Hc Hd Ht Hp.
  rewrite (bc2pg_prefix E _ _ _ _ _ _ _ _ _ _ _ _ _ _ _ _ _ Hv Hs Hc Hd).
  unfold prepare.
  assert (Hm : existsb (String.eqb (target_name schema_name schema ++ "."
                                    ++ target_name table_name table)%string)
                 (db_tables E) = false).
  { destruct (existsb _ (db_tables E)) eqn:Hx; [ | reflexivity ].
    apply existsb_exists in Hx as (x & Hin & Hx).
    apply String.eqb_eq in Hx. subst x.
    destruct (Database.schemata D) as [rows |] eqn:Hr;
      [ | unfold Database.tables, Database.schemas in Ht;
          rewrite Hr in Ht; discriminate Ht ].
    destruct (proj1 (tables_In D rows _ Hr Ht _) Hin)
      as (s & names & t & _ & Hf & _ & _ & Hq).
    apply (qualified_not_system s t) in Hf. rewrite <- Hq in Hf.
    rewrite (system_prefix_app _ _ Hp) in Hf. discriminate Hf. }
  unfold bind_io at 1. rewrite (prepare_append_missing E _ _ _ Hm).
  reflexivity.
Qed.

(** A run that satisfies the hypotheses of [bc2pg_append_system_schema]. *)
Lemma bc2pg_append_system_schema_witness :
  bc2pg system_env sample_dataset "postgresql://localhost:5432/postgis"
    (Some "pg_class") (Some "pg_catalog") None None None None None true
    false true []
  = (Raise (ValueError
              "pg_catalog.pg_class does not exist, nothing to append to"),
     [Connect "postgresql://localhost:5432/postgis";
      PlanRequests (upper sample_dataset); ListTables]).
Proof.
  exact (bc2pg_append_system_schema system_env sample_server sample_dataset
           "postgresql://localhost:5432/postgis" (Some "pg_class")
           (Some "pg_catalog") None None None None None true false
           (upper sample_dataset) "whse_imagery_and_base_maps"
           "gsr_airports_svw" tt _
           eq_refl eq_refl eq_refl eq_refl eq_refl eq_refl).
Defined.
